(** * Worktree orchestration scripts: a shallow embedding

    The repository holds two Node scripts, [bootstrap.ts] and the
    create-worktree script.  Both are straight-line sequences of calls to
    the file system, to [git]/[pnpm]/[corepack] through [execSync], and to
    [process.exit].  The embedding below follows the scripts function by
    function: JavaScript strings are sequences of UTF-16 code units, the
    parsed configuration is a JavaScript value, and effects are threaded
    through a small state-and-trace monad over an abstract host.  Two
    concrete hosts run the scripts: one whose commands succeed or fail as
    listed, and one that reads a command text as the shell does and keeps
    the refs of the bare repository. *)

From Stdlib Require Import ZArith NArith List String Ascii Bool.
From Stdlib Require Import SpecFloat.
From stdpp Require Import base option gmap list.
Import ListNotations.

Local Open Scope N_scope.

(** ** JavaScript strings *)

(** A JavaScript string is a finite sequence of UTF-16 code units; the
    regular expressions of the scripts carry no [u] flag, so they work
    code unit by code unit. *)
Abbreviation jsstring := (list N).

(** [lit s] is the string literal [s] (ASCII only in the scripts). *)
Definition lit (s : string) : jsstring :=
  List.map N_of_ascii (list_ascii_of_string s).

Arguments lit : simpl never.

(** The double quote, as it occurs inside the command templates. *)
Definition dq : jsstring := [34].

Fixpoint jsstring_eqb (a b : jsstring) : bool :=
  match a, b with
  | [], [] => true
  | x :: a', y :: b' => (x =? y) && jsstring_eqb a' b'
  | _, _ => false
  end.

(** [s.startsWith(p)] *)
Fixpoint startsWith (p s : jsstring) : bool :=
  match p, s with
  | [], _ => true
  | x :: p', y :: s' => (x =? y) && startsWith p' s'
  | _ :: _, [] => false
  end.

(** [s.includes(p)] *)
Fixpoint includes (p s : jsstring) : bool :=
  startsWith p s ||
  match s with
  | [] => false
  | _ :: s' => includes p s'
  end.

(** [s.substring(n)] for [n] within bounds or beyond (then the empty
    string). *)
Definition substring_from (n : nat) (s : jsstring) : jsstring := skipn n s.

(** ECMAScript WhiteSpace and LineTerminator code units, the ones
    [String.prototype.trim] strips. *)
Definition is_js_whitespace (c : N) : bool :=
  ((9 <=? c) && (c <=? 13)) || (c =? 32) || (c =? 160) || (c =? 5760)
  || ((8192 <=? c) && (c <=? 8202)) || (c =? 8232) || (c =? 8233)
  || (c =? 8239) || (c =? 8287) || (c =? 12288) || (c =? 65279).

Fixpoint trimStart (s : jsstring) : jsstring :=
  match s with
  | c :: s' => if is_js_whitespace c then trimStart s' else s
  | [] => []
  end.

(** [s.trim()] *)
Definition trim (s : jsstring) : jsstring :=
  rev (trimStart (rev (trimStart s))).

(** A blank string: empty or made of white space only. *)
Definition blank (s : jsstring) : bool := forallb is_js_whitespace s.

(** [s.replace(/[class]/g, rep)] for a pattern that is one character
    class and a replacement without [$] patterns: every code unit of the
    class is replaced, left to right, the others are kept. *)
Definition replace_class (cls : N -> bool) (rep : jsstring) (s : jsstring)
  : jsstring :=
  flat_map (fun c => if cls c then rep else [c]) s.

(** ** The branch name sanitizer (create-worktree, lines 69-73) *)

(** The pattern [/\//]. *)
Definition is_slash (c : N) : bool := c =? 47.

(** The class [A-Za-z0-9._-]. *)
Definition safe_char (c : N) : bool :=
  ((65 <=? c) && (c <=? 90)) || ((97 <=? c) && (c <=? 122))
  || ((48 <=? c) && (c <=? 57)) || (c =? 46) || (c =? 95) || (c =? 45).

(** The pattern [/[^A-Za-z0-9._-]/]. *)
Definition unsafe_char (c : N) : bool := negb (safe_char c).

Definition sanitizeBranchName (branch : jsstring) : jsstring :=
  replace_class unsafe_char (lit "_")
    (replace_class is_slash (lit "__") branch).

(** The two passes as the specification words them, each by its own
    recursion over the string. *)
Fixpoint slashes_to_double_underscore (s : jsstring) : jsstring :=
  match s with
  | [] => []
  | c :: s' =>
      if c =? 47 then 95 :: 95 :: slashes_to_double_underscore s'
      else c :: slashes_to_double_underscore s'
  end.

Fixpoint outside_set_to_underscore (s : jsstring) : jsstring :=
  match s with
  | [] => []
  | c :: s' =>
      (if safe_char c then c else 95) :: outside_set_to_underscore s'
  end.

(** What one code unit of the input becomes in the output. *)
Definition sanitize_unit (c : N) : jsstring :=
  if c =? 47 then [95; 95] else if safe_char c then [c] else [95].

(** ** JavaScript values *)

(** The values [JSON.parse] can return, and [undefined], which reading an
    absent property gives.  Numbers are IEEE 754 doubles.  An array is an
    object too ([array = true]) and takes named properties like any other;
    its elements are the properties named by their indices.  Objects are
    modelled by value: the configuration object is referenced from one
    local variable only, so an assignment to one of its properties is the
    map updated at that key. *)
#[warnings="-register-all"]
Inductive value : Type :=
| VUndefined
| VNull
| VBool (b : bool)
| VNum (x : spec_float)
| VStr (s : jsstring)
| VObj (array : bool) (props : gmap jsstring value).

(** ToBoolean *)
Definition truthy (v : value) : bool :=
  match v with
  | VUndefined | VNull => false
  | VBool b => b
  | VNum (S754_zero _) | VNum S754_nan => false
  | VNum _ => true
  | VStr [] => false
  | VStr (_ :: _) => true
  | VObj _ _ => true
  end.

(** [a || b] on values *)
Definition js_or (a b : value) : value := if truthy a then a else b.

(** [typeof v === "string"] *)
Definition is_string (v : value) : bool :=
  match v with VStr _ => true | _ => false end.

(** A thrown error object, with the two fields the scripts read. *)
Record error : Type := Err {
  err_stderr : option jsstring;
  err_message : option jsstring }.

(** [new Error(message)] *)
Definition new_Error (message : jsstring) : error :=
  {| err_stderr := None; err_message := Some message |}.

(** [a || b] where [a] is a string or [undefined]/[null]. *)
Definition or_string (a : option jsstring) (b : jsstring) : jsstring :=
  match a with
  | Some (c :: s) => c :: s
  | Some [] | None => b
  end.

(** What [console.error(error.message)] prints. *)
Definition message_text (e : error) : jsstring :=
  match err_message e with
  | Some m => m
  | None => lit "undefined"
  end.

(** ** The host: file system, child processes, JSON, path *)

Record exec_options : Type := ExecOptions {
  cwd : option jsstring;
  stderr_piped : bool }.

Inductive exec_result : Type :=
| ExecOk (stdout : jsstring)
| ExecFail (e : error).

(** Everything the scripts take from Node.  [W] is the state of the
    machine (file system, repositories); only [execSync] changes it. *)
Class Host (W : Type) : Type := {
  (** [resolve(__dirname, "../..")] *)
  META_REPO_ROOT : jsstring;
  (** [path.join] on strings *)
  join : list jsstring -> jsstring;
  existsSync : jsstring -> W -> bool;
  (** [readFileSync(path, "utf-8")]: the content, or the error thrown *)
  readFileSync : jsstring -> W -> jsstring + error;
  (** [JSON.parse]: the value, or the [SyntaxError] thrown *)
  JSON_parse : jsstring -> value + error;
  (** [execSync(command, {encoding: "utf-8", stdio, cwd})] *)
  execSync : jsstring -> exec_options -> W -> exec_result * W;
  (** the [TypeError] the engine raises for an illegal use of a value *)
  TypeError : value -> error;
  (** ToString on values that are not strings: the string, or the
      [TypeError] thrown for an object that has no primitive value
      (neither its [toString] nor its [valueOf] is callable and gives
      one) *)
  ToString : value -> jsstring + error }.

(** ** Effects: outcome, trace, monad *)

Inductive event : Type :=
| ConsoleLog (s : jsstring)
| ConsoleWarn (s : jsstring)
| ConsoleError (s : jsstring)
| Exec (command : jsstring) (dir : option jsstring) (ok : bool).

(** A computation returns, throws, or ends the process with
    [process.exit(code)], which no [catch] intercepts. *)
Inductive outcome (A : Type) : Type :=
| Ret (a : A)
| Throw (e : error)
| Exit (code : Z).
Arguments Ret {A} a.
Arguments Throw {A} e.
Arguments Exit {A} code.

Record result (W A : Type) : Type := Result {
  out : outcome A;
  world : W;
  trace : list event }.
Arguments Result {W A} out world trace.
Arguments out {W A} r.
Arguments world {W A} r.
Arguments trace {W A} r.

Definition M (W A : Type) : Type := W -> result W A.

Definition ret {W A} (a : A) : M W A := fun w => Result (Ret a) w [].

(** [t] happened, then [r]. *)
Definition after {W A} (t : list event) (r : result W A) : result W A :=
  match r with
  | Result o w t' => Result o w (t ++ t')
  end.

Definition bind {W A B} (m : M W A) (k : A -> M W B) : M W B := fun w =>
  match m w with
  | Result (Ret a) w' t => after t (k a w')
  | Result (Throw e) w' t => Result (Throw e) w' t
  | Result (Exit c) w' t => Result (Exit c) w' t
  end.

Definition throw {W A} (e : error) : M W A := fun w => Result (Throw e) w [].

(** [process.exit(code)] *)
Definition process_exit {W A} (code : Z) : M W A :=
  fun w => Result (Exit code) w [].

(** [try { m } catch (e) { h e }] *)
Definition try_catch {W A} (m : M W A) (h : error -> M W A) : M W A :=
  fun w =>
  match m w with
  | Result (Throw e) w' t => after t (h e w')
  | r => r
  end.

Definition emit {W} (e : event) : M W unit := fun w => Result (Ret tt) w [e].

Declare Scope js_scope.
Delimit Scope js_scope with js.
Notation "x <- m ;; k" := (bind m (fun x => k))
  (at level 100, m at next level, right associativity) : js_scope.
Notation "m ;;; k" := (bind m (fun _ => k))
  (at level 100, right associativity) : js_scope.
Local Open Scope js_scope.

(** The exit status of the process when the script's top-level call
    ends with the given outcome: 0 on return, 1 on an uncaught
    exception, the code given to [process.exit] otherwise. *)
Definition exit_status {A} (o : outcome A) : Z :=
  match o with
  | Ret _ => 0%Z
  | Throw _ => 1%Z
  | Exit c => c
  end.

(** The commands executed, in order. *)
Fixpoint execs (t : list event) : list (jsstring * option jsstring * bool) :=
  match t with
  | [] => []
  | Exec c d ok :: t' => (c, d, ok) :: execs t'
  | _ :: t' => execs t'
  end.

Definition commands (t : list event) : list jsstring :=
  List.map (fun x => fst (fst x)) (execs t).

(** ** Host operations as computations *)

Section Primitives.
Context {W : Type} `{Host W}.

Definition CONFIG_PATH : jsstring :=
  join [META_REPO_ROOT; lit "project.config.json"].

Definition BARE_PATH : jsstring := join [META_REPO_ROOT; lit ".bare"].

Definition console_log (s : jsstring) : M W unit := emit (ConsoleLog s).
Definition console_warn (s : jsstring) : M W unit := emit (ConsoleWarn s).
Definition console_error (s : jsstring) : M W unit := emit (ConsoleError s).

Definition fs_existsSync (p : jsstring) : M W bool :=
  fun w => Result (Ret (existsSync p w)) w [].

Definition fs_readFileSync (p : jsstring) : M W jsstring := fun w =>
  match readFileSync p w with
  | inl content => Result (Ret content) w []
  | inr e => Result (Throw e) w []
  end.

Definition json_parse (s : jsstring) : M W value :=
  match JSON_parse s with
  | inl v => ret v
  | inr e => throw e
  end.

(** [execSync]: the command runs, the machine changes, and a failing
    command throws. *)
Definition child_execSync (command : jsstring) (opts : exec_options)
  : M W jsstring := fun w =>
  match execSync command opts w with
  | (ExecOk stdout, w') => Result (Ret stdout) w' [Exec command (cwd opts) true]
  | (ExecFail e, w') => Result (Throw e) w' [Exec command (cwd opts) false]
  end.

(** [path.join(...args)]: every argument must be a string, or a
    [TypeError] is thrown. *)
Fixpoint validate_strings (args : list value) : list jsstring + value :=
  match args with
  | [] => inl []
  | VStr s :: rest =>
      match validate_strings rest with
      | inl ss => inl (s :: ss)
      | inr v => inr v
      end
  | v :: _ => inr v
  end.

Definition path_join (args : list value) : M W jsstring :=
  match validate_strings args with
  | inl ss => ret (join ss)
  | inr v => throw (TypeError v)
  end.

(** ToString, as a template literal applies it to the value of an
    expression. *)
Definition to_string (v : value) : jsstring + error :=
  match v with
  | VStr s => inl s
  | _ => ToString v
  end.

(** A value inside a template literal: its string, or the exception its
    conversion throws. *)
Definition tpl (v : value) : M W jsstring :=
  match to_string v with
  | inl s => ret s
  | inr e => throw e
  end.

(** [v.k], for the property names the scripts read ([codebase],
    [remote], [defaultBranch], [worktrees], [root]): none of them is a
    property of a primitive's prototype or of [Object.prototype]. *)
Definition member (v : value) (k : jsstring) : M W value :=
  match v with
  | VUndefined | VNull => throw (TypeError v)
  | VObj _ props => ret (default VUndefined (props !! k))
  | VBool _ | VNum _ | VStr _ => ret VUndefined
  end.

(** [v?.k] *)
Definition optional_member (v : value) (k : jsstring) : M W value :=
  match v with
  | VUndefined | VNull => ret VUndefined
  | _ => member v k
  end.

(** [v.k = x] in strict mode (the scripts are ES modules); the result
    is the object after the assignment. *)
Definition assign_member (v : value) (k : jsstring) (x : value) : M W value :=
  match v with
  | VObj a props => ret (VObj a (<[k := x]> props))
  | _ => throw (TypeError v)
  end.

(** [v.k1.k2] *)
Definition member2 (v : value) (k1 k2 : jsstring) : M W value :=
  (inner <- member v k1;; member inner k2)%js.

(** [v.k1.k2 = x], the object [v.k1] being updated in place. *)
Definition assign_member2 (v : value) (k1 k2 : jsstring) (x : value)
  : M W value :=
  (inner <- member v k1;;
   inner' <- assign_member inner k2 x;;
   assign_member v k1 inner')%js.

End Primitives.

(** * bootstrap.ts *)

Module Bootstrap.
Section Script.
Context {W : Type} `{Host W}.

(** lines 24-53 *)
Definition loadConfig : M W value :=
  found <- fs_existsSync CONFIG_PATH;;
  if negb found then
    console_error (lit "Error: project.config.json not found at " ++ CONFIG_PATH);;;
    console_error (lit "Please create project.config.json with codebase.remote and codebase.defaultBranch");;;
    process_exit 1
  else
    try_catch
      (content <- fs_readFileSync CONFIG_PATH;;
       config <- json_parse content;;
       codebase <- member config (lit "codebase");;
       remote <- optional_member codebase (lit "remote");;
       if negb (truthy remote) || negb (is_string remote)
          || match remote with
             | VStr s => jsstring_eqb (trim s) []
             | _ => false
             end
       then
         console_error (lit "Error: project.config.json is malformed");;;
         console_error (lit "  - codebase.remote must be a non-empty string (git remote URL)");;;
         process_exit 1
       else
         defaultBranch <- member2 config (lit "codebase") (lit "defaultBranch");;
         config <- assign_member2 config (lit "codebase") (lit "defaultBranch")
                     (js_or defaultBranch (VStr (lit "main")));;
         worktrees <- member config (lit "worktrees");;
         config <- assign_member config (lit "worktrees")
                     (js_or worktrees
                        (VObj false {[ lit "root" := VStr (lit "worktrees") ]}));;
         root <- member2 config (lit "worktrees") (lit "root");;
         config <- assign_member2 config (lit "worktrees") (lit "root")
                     (js_or root (VStr (lit "worktrees")));;
         ret config)
      (fun error =>
         console_error (lit "Error: Failed to parse project.config.json");;;
         console_error (message_text error);;;
         process_exit 1).

(** lines 55-66 *)
Definition run (command : jsstring) (dir : option jsstring) : M W jsstring :=
  try_catch
    (stdout <- child_execSync command
                 {| cwd := dir; stderr_piped := true |};;
     ret (trim stdout))
    (fun execError =>
       throw (new_Error
                (or_string (err_stderr execError)
                   (or_string (err_message execError) (lit "Command failed"))))).

Definition clone_command (remote : jsstring) : jsstring :=
  lit "git clone --bare " ++ dq ++ remote ++ dq ++ lit " "
  ++ dq ++ BARE_PATH ++ dq.

(** lines 68-72; [remote] is converted by each of the two template
    literals. *)
Definition cloneBareRepo (remote : value) : M W unit :=
  text <- tpl remote;;
  console_log (lit "Cloning bare repository from " ++ text ++ lit "...");;;
  text <- tpl remote;;
  run (clone_command text) None;;;
  console_log (lit "Bare repository cloned successfully.").

(** lines 74-94 *)
Definition verifyWorktreePointsToOurBare (worktreePath : jsstring)
  : M W bool :=
  let gitFile := join [worktreePath; lit ".git"] in
  found <- fs_existsSync gitFile;;
  if negb found then ret false
  else
    try_catch
      (raw <- fs_readFileSync gitFile;;
       let content := trim raw in
       if negb (startsWith (lit "gitdir:") content) then ret false
       else
         let gitdir := trim (substring_from (length (lit "gitdir:")) content) in
         ret (includes (lit ".bare") gitdir))
      (fun _ => ret false).

Definition rev_parse_command (mainWorktreePath : jsstring) : jsstring :=
  lit "git -C " ++ dq ++ mainWorktreePath ++ dq
  ++ lit " rev-parse --is-inside-work-tree".

Definition worktree_add_command (mainWorktreePath branch : jsstring)
  : jsstring :=
  lit "git --git-dir " ++ dq ++ BARE_PATH ++ dq ++ lit " worktree add "
  ++ dq ++ mainWorktreePath ++ dq ++ lit " " ++ dq ++ branch ++ dq.

(** lines 96-124.  Both arms of the [try] inside [if (existsSync ...)]
    leave the function, so what follows the [if] is its [else]. *)
Definition createWorktree (config : value) : M W unit :=
  root <- member2 config (lit "worktrees") (lit "root");;
  worktreesRoot <- path_join [VStr META_REPO_ROOT; root];;
  mainWorktreePath <- path_join [VStr worktreesRoot; VStr (lit "main")];;
  branch <- member2 config (lit "codebase") (lit "defaultBranch");;
  found <- fs_existsSync mainWorktreePath;;
  if found then
    try_catch
      (run (rev_parse_command mainWorktreePath) None;;;
       ours <- verifyWorktreePointsToOurBare mainWorktreePath;;
       (if negb ours then
          console_error (lit "Error: " ++ mainWorktreePath
                         ++ lit " exists but is not a worktree for our .bare repository.");;;
          console_error (lit "Please remove or rename this directory and run bootstrap again.");;;
          process_exit 1
        else ret tt);;;
       console_log (lit "Main worktree already exists and is valid."))
      (fun _ =>
         console_error (lit "Error: " ++ mainWorktreePath
                        ++ lit " exists but is not a valid git worktree.");;;
         console_error (lit "Please remove or rename this directory and run bootstrap again.");;;
         process_exit 1)
  else
    text <- tpl branch;;
    console_log (lit "Creating main worktree for branch '" ++ text ++ lit "'...");;;
    text <- tpl branch;;
    run (worktree_add_command mainWorktreePath text) None;;;
    console_log (lit "Main worktree created successfully.").

(** lines 126-135 *)
Definition enableCorepack : M W unit :=
  console_log (lit "Enabling corepack...");;;
  try_catch
    (run (lit "corepack enable") None;;;
     console_log (lit "Corepack enabled."))
    (fun error =>
       console_warn (lit "Warning: Failed to enable corepack. You may need to run 'corepack enable' manually.");;;
       console_warn (message_text error)).

(** lines 137-150 *)
Definition installDependencies (config : value) : M W unit :=
  root <- member2 config (lit "worktrees") (lit "root");;
  worktreesRoot <- path_join [VStr META_REPO_ROOT; root];;
  mainWorktreePath <- path_join [VStr worktreesRoot; VStr (lit "main")];;
  console_log (lit "Installing dependencies in main worktree...");;;
  try_catch
    (run (lit "pnpm install") (Some mainWorktreePath);;;
     console_log (lit "Dependencies installed successfully."))
    (fun error =>
       console_error (lit "Error: Failed to install dependencies.");;;
       console_error (message_text error);;;
       process_exit 1).

(** lines 152-179 *)
Definition main : M W unit :=
  console_log (lit "=== Bootstrap: Setting up monorepo ===" ++ [10]);;;
  config <- loadConfig;;
  console_log (lit "Meta-repo root: " ++ META_REPO_ROOT);;;
  remote <- member2 config (lit "codebase") (lit "remote");;
  text <- tpl remote;;
  console_log (lit "Codebase remote: " ++ text);;;
  defaultBranch <- member2 config (lit "codebase") (lit "defaultBranch");;
  text <- tpl defaultBranch;;
  console_log (lit "Default branch: " ++ text ++ [10]);;;
  bare <- fs_existsSync BARE_PATH;;
  (if negb bare then
     remote <- member2 config (lit "codebase") (lit "remote");;
     cloneBareRepo remote
   else console_log (lit "Bare repository already exists."));;;
  createWorktree config;;;
  enableCorepack;;;
  installDependencies config;;;
  console_log ([10] ++ lit "=== Bootstrap complete! ===");;;
  root <- member2 config (lit "worktrees") (lit "root");;
  final <- path_join [VStr META_REPO_ROOT; root; VStr (lit "main")];;
  console_log ([10] ++ lit "You can now work in: " ++ final).

End Script.
End Bootstrap.

(** * The create-worktree script *)

Module CreateWorktree.
Section Script.
Context {W : Type} `{Host W}.

(** lines 24-49 *)
Definition loadConfig : M W value :=
  found <- fs_existsSync CONFIG_PATH;;
  if negb found then
    console_error (lit "Error: project.config.json not found at " ++ CONFIG_PATH);;;
    process_exit 1
  else
    try_catch
      (content <- fs_readFileSync CONFIG_PATH;;
       config <- json_parse content;;
       codebase <- member config (lit "codebase");;
       remote <- optional_member codebase (lit "remote");;
       if negb (truthy remote) then
         console_error (lit "Error: project.config.json is malformed - missing codebase.remote");;;
         process_exit 1
       else
         defaultBranch <- member2 config (lit "codebase") (lit "defaultBranch");;
         config <- assign_member2 config (lit "codebase") (lit "defaultBranch")
                     (js_or defaultBranch (VStr (lit "main")));;
         worktrees <- member config (lit "worktrees");;
         config <- assign_member config (lit "worktrees")
                     (js_or worktrees
                        (VObj false {[ lit "root" := VStr (lit "worktrees") ]}));;
         root <- member2 config (lit "worktrees") (lit "root");;
         config <- assign_member2 config (lit "worktrees") (lit "root")
                     (js_or root (VStr (lit "worktrees")));;
         ret config)
      (fun error =>
         console_error (lit "Error: Failed to parse project.config.json");;;
         console_error (message_text error);;;
         process_exit 1).

(** lines 51-62; with [silent] the child's standard error is piped,
    otherwise it is inherited. *)
Definition run (command : jsstring) (dir : option jsstring) (silent : bool)
  : M W jsstring :=
  try_catch
    (stdout <- child_execSync command
                 {| cwd := dir; stderr_piped := silent |};;
     ret (trim stdout))
    (fun execError =>
       throw (new_Error
                (or_string (err_stderr execError)
                   (or_string (err_message execError) (lit "Command failed"))))).

Definition git_dir : jsstring :=
  lit "git --git-dir " ++ dq ++ BARE_PATH ++ dq.

Definition fetch_command : jsstring := git_dir ++ lit " fetch --all --prune".

(** lines 75-84 *)
Definition fetchLatest : M W unit :=
  console_log (lit "Fetching latest from remote...");;;
  try_catch
    (run fetch_command None false;;;
     console_log (lit "Fetch complete."))
    (fun error =>
       console_warn (lit "Warning: Failed to fetch from remote. Continuing with local state.");;;
       console_warn (message_text error)).

Inductive ref_type : Type := local | remote.

Definition ref_name (branch : jsstring) (type : ref_type) : jsstring :=
  match type with
  | local => lit "refs/heads/" ++ branch
  | remote => lit "refs/remotes/origin/" ++ branch
  end.

Definition show_ref_command (ref : jsstring) : jsstring :=
  git_dir ++ lit " show-ref --verify --quiet " ++ dq ++ ref ++ dq.

(** lines 86-94 *)
Definition branchExists (branch : jsstring) (type : ref_type) : M W bool :=
  try_catch
    (let ref := ref_name branch type in
     run (show_ref_command ref) None true;;;
     ret true)
    (fun _ => ret false).

(** [worktree add -b "<branch>" "<path>"] *)
Definition worktree_add_new_command (branch worktreePath : jsstring)
  : jsstring :=
  git_dir ++ lit " worktree add -b " ++ dq ++ branch ++ dq ++ lit " "
  ++ dq ++ worktreePath ++ dq.

(** [worktree add "<path>" "<branch>"] *)
Definition worktree_add_command (branch worktreePath : jsstring) : jsstring :=
  git_dir ++ lit " worktree add " ++ dq ++ worktreePath ++ dq ++ lit " "
  ++ dq ++ branch ++ dq.

(** lines 96-104 *)
Definition createWorktree (branch worktreePath : jsstring)
  (createNewBranch : bool) : M W unit :=
  if createNewBranch then
    console_log (lit "Creating new branch '" ++ branch ++ lit "' and worktree...");;;
    run (worktree_add_new_command branch worktreePath) None false;;;
    ret tt
  else
    console_log (lit "Creating worktree for existing branch '" ++ branch ++ lit "'...");;;
    run (worktree_add_command branch worktreePath) None false;;;
    ret tt.

Definition tracking_branch_command (branch : jsstring) : jsstring :=
  git_dir ++ lit " branch " ++ dq ++ branch ++ dq ++ lit " "
  ++ dq ++ lit "origin/" ++ branch ++ dq.

(** lines 106-109 *)
Definition createTrackingBranch (branch : jsstring) : M W unit :=
  console_log (lit "Creating local branch '" ++ branch
               ++ lit "' tracking 'origin/" ++ branch ++ lit "'...");;;
  run (tracking_branch_command branch) None false;;;
  ret tt.

(** lines 111-121 *)
Definition installDependencies (worktreePath : jsstring) : M W unit :=
  console_log (lit "Installing dependencies...");;;
  try_catch
    (run (lit "pnpm install") (Some worktreePath) false;;;
     console_log (lit "Dependencies installed successfully."))
    (fun error =>
       console_error (lit "Error: Failed to install dependencies.");;;
       console_error (message_text error);;;
       process_exit 1).

Definition usage_line : jsstring := lit "Usage: create-worktree <branch-name>".

Definition already_exists_line (worktreePath : jsstring) : jsstring :=
  lit "Error: Worktree folder already exists at " ++ worktreePath.

(** lines 123-185; [args] is [process.argv.slice(2)]. *)
Definition main (args : list jsstring) : M W unit :=
  match args with
  | [] =>
      console_error usage_line;;;
      console_error (lit "Example: create-worktree feature/my-feature");;;
      process_exit 1
  | branch :: _ =>
      config <- loadConfig;;
      let sanitizedName := sanitizeBranchName branch in
      root <- member2 config (lit "worktrees") (lit "root");;
      worktreesRoot <- path_join [VStr META_REPO_ROOT; root];;
      worktreePath <- path_join [VStr worktreesRoot; VStr sanitizedName];;
      console_log (lit "=== Creating worktree for branch '" ++ branch
                   ++ lit "' ===" ++ [10]);;;
      console_log (lit "Branch name: " ++ branch);;;
      console_log (lit "Folder name: " ++ sanitizedName);;;
      console_log (lit "Worktree path: " ++ worktreePath ++ [10]);;;
      bare <- fs_existsSync BARE_PATH;;
      (if negb bare then
         console_error (lit "Error: .bare repository not found.");;;
         console_error (lit "Please run 'pnpm bootstrap' first to set up the repository.");;;
         process_exit 1
       else ret tt);;;
      taken <- fs_existsSync worktreePath;;
      (if taken then
         console_error (already_exists_line worktreePath);;;
         console_error (lit "If you want to recreate it, first remove it with:");;;
         console_error (lit "  " ++ git_dir ++ lit " worktree remove --force "
                        ++ dq ++ worktreePath ++ dq);;;
         process_exit 1
       else ret tt);;;
      fetchLatest;;;
      localExists <- branchExists branch local;;
      remoteExists <- branchExists branch remote;;
      (if localExists then
         console_log (lit "Local branch '" ++ branch ++ lit "' exists.");;;
         createWorktree branch worktreePath false
       else if remoteExists then
         console_log (lit "Remote branch 'origin/" ++ branch
                      ++ lit "' exists, creating local tracking branch.");;;
         createTrackingBranch branch;;;
         createWorktree branch worktreePath false
       else
         console_log (lit "Branch '" ++ branch
                      ++ lit "' doesn't exist, creating new branch.");;;
         createWorktree branch worktreePath true);;;
      console_log (lit "Worktree created successfully." ++ [10]);;;
      installDependencies worktreePath;;;
      console_log ([10] ++ lit "=== Worktree ready! ===");;;
      console_log ([10] ++ lit "You can now work in: " ++ worktreePath);;;
      console_log (lit "  cd " ++ worktreePath)
  end.

End Script.
End CreateWorktree.

(** * A concrete host, to run the scripts on *)

Module Fixture.

(** A machine is the paths that exist, the content of the files that can
    be read, and the commands that fail; commands leave it unchanged. *)
Record machine : Type := Machine {
  paths : list jsstring;
  files : list (jsstring * jsstring);
  failing : list jsstring }.

Fixpoint lookup_string {A : Type} (k : jsstring) (l : list (jsstring * A))
  : option A :=
  match l with
  | [] => None
  | (k', a) :: l' => if jsstring_eqb k k' then Some a else lookup_string k l'
  end.

Definition mem_string (k : jsstring) (l : list jsstring) : bool :=
  existsb (jsstring_eqb k) l.

Fixpoint intercalate (sep : jsstring) (l : list jsstring) : jsstring :=
  match l with
  | [] => []
  | [s] => s
  | s :: l' => s ++ sep ++ intercalate sep l'
  end.

(** [path.join] on paths that need no normalisation: the segments that
    are not empty, separated by a slash; ["."] when there is none. *)
Definition join_segments (l : list jsstring) : jsstring :=
  match filter (fun s => negb (jsstring_eqb s [])) l with
  | [] => lit "."
  | l' => intercalate (lit "/") l'
  end.

Definition quoted (s : string) : jsstring := dq ++ lit s ++ dq.

(** [{"codebase":{"remote":<r>}}] *)
Definition config_text (r : string) : jsstring :=
  lit "{" ++ quoted "codebase" ++ lit ":{" ++ quoted "remote" ++ lit ":"
  ++ quoted r ++ lit "}}".

Definition config_value (r : string) : value :=
  VObj false {[ lit "codebase" :=
                  VObj false {[ lit "remote" := VStr (lit r) ]} ]}.

(** [{"codebase":{}}] *)
Definition config_text_no_remote : jsstring :=
  lit "{" ++ quoted "codebase" ++ lit ":{}}".

Definition config_value_no_remote : value :=
  VObj false {[ lit "codebase" := VObj false ∅ ]}.

(** [{"codebase":{"remote":"git@host:org/repo.git","defaultBranch":{"toString":1}}}]:
    a default branch that is an object without a primitive value. *)
Definition config_text_object_branch : jsstring :=
  lit "{" ++ quoted "codebase" ++ lit ":{" ++ quoted "remote" ++ lit ":"
  ++ quoted "git@host:org/repo.git" ++ lit "," ++ quoted "defaultBranch"
  ++ lit ":{" ++ quoted "toString" ++ lit ":1}}}".

(** The number 1 as a double. *)
Definition one : spec_float := S754_finite false 4503599627370496 (-52).

Definition config_value_object_branch : value :=
  VObj false
    {[ lit "codebase" :=
         VObj false
           (<[ lit "defaultBranch" :=
                 VObj false {[ lit "toString" := VNum one ]} ]>
              {[ lit "remote" := VStr (lit "git@host:org/repo.git") ]}) ]}.

(** [JSON.parse] on the texts above; anything else is a syntax error. *)
Definition parse (s : jsstring) : value + error :=
  if jsstring_eqb s (config_text "git@host:org/repo.git")
  then inl (config_value "git@host:org/repo.git")
  else if jsstring_eqb s (config_text "   ")
  then inl (config_value "   ")
  else if jsstring_eqb s (config_text "")
  then inl (config_value "")
  else if jsstring_eqb s config_text_no_remote
  then inl config_value_no_remote
  else if jsstring_eqb s config_text_object_branch
  then inl config_value_object_branch
  else inr (new_Error (lit "Unexpected token")).

(** ToString on the values the configurations above are made of.  An
    object with a [toString] property of its own has no primitive value:
    JSON gives the property no callable value, and the [valueOf] the
    object inherits returns the object itself.  No run below converts a
    number or an array. *)
Definition to_text (v : value) : jsstring + error :=
  match v with
  | VUndefined => inl (lit "undefined")
  | VNull => inl (lit "null")
  | VBool true => inl (lit "true")
  | VBool false => inl (lit "false")
  | VNum _ => inl (lit "NaN")
  | VStr s => inl s
  | VObj _ props =>
      match props !! lit "toString" with
      | Some _ =>
          inr (new_Error (lit "Cannot convert object to primitive value"))
      | None => inl (lit "[object Object]")
      end
  end.

#[export] Instance host : Host machine := {|
  META_REPO_ROOT := lit "/repo";
  join := join_segments;
  existsSync := fun p m => mem_string p (paths m);
  readFileSync := fun p m =>
    match lookup_string p (files m) with
    | Some content => inl content
    | None => inr (new_Error (lit "ENOENT"))
    end;
  JSON_parse := parse;
  execSync := fun command _ m =>
    if mem_string command (failing m)
    then (ExecFail {| err_stderr := Some (lit "failed");
                      err_message := Some (lit "Command failed") |}, m)
    else (ExecOk [], m);
  TypeError := fun _ => new_Error (lit "TypeError");
  ToString := to_text |}.

Definition config_file (r : string) : jsstring * jsstring :=
  (lit "/repo/project.config.json", config_text r).

(** A fresh checkout: the configuration only. *)
Definition fresh (r : string) : machine :=
  {| paths := [lit "/repo/project.config.json"];
     files := [config_file r];
     failing := [] |}.

(** After bootstrap: the bare repository and the main worktree exist. *)
Definition bootstrapped (linkage : jsstring) (failing : list jsstring)
  : machine :=
  {| paths := [lit "/repo/project.config.json"; lit "/repo/.bare";
               lit "/repo/worktrees"; lit "/repo/worktrees/main";
               lit "/repo/worktrees/main/.git"];
     files := [config_file "git@host:org/repo.git";
               (lit "/repo/worktrees/main/.git", linkage)];
     failing := failing |}.

(** The bare repository is there and the configuration has the given
    remote. *)
Definition with_bare (r : string) : machine :=
  {| paths := [lit "/repo/project.config.json"; lit "/repo/.bare"];
     files := [config_file r];
     failing := [] |}.

(** The same, the worktree directory of [feature/x] being there
    already. *)
Definition taken : machine :=
  {| paths := [lit "/repo/project.config.json"; lit "/repo/.bare";
               lit "/repo/worktrees/feature__x"];
     files := [config_file "git@host:org/repo.git"];
     failing := [] |}.

(** The same as [with_bare], some commands failing. *)
Definition with_failing (failing : list jsstring) : machine :=
  {| paths := [lit "/repo/project.config.json"; lit "/repo/.bare"];
     files := [config_file "git@host:org/repo.git"];
     failing := failing |}.

(** A linkage file that does not name the bare repository. *)
Definition elsewhere : jsstring := lit "gitdir: /srv/other/worktrees/main".

End Fixture.

(** * A host with a shell and a repository

    [execSync] hands the text of a command to [/bin/sh -c].  The host
    below reads that text as the shell does, for the part of the shell
    language the commands of the scripts are written in (words, double
    quotes, and the parameters the shell expands inside them), and
    carries out [git] on the refs and worktrees of the bare
    repository. *)

Module Shell.

Record machine : Type := Machine {
  (** the variables of the environment *)
  variables : list (jsstring * jsstring);
  paths : list jsstring;
  files : list (jsstring * jsstring);
  (** the refs of the bare repository *)
  refs : list jsstring;
  (** the worktrees added: their directory and the branch checked out *)
  worktrees : list (jsstring * jsstring) }.

(** The first character of a parameter name, [A-Za-z_], and the other
    ones, [A-Za-z0-9_]. *)
Definition name_start (c : N) : bool :=
  ((65 <=? c) && (c <=? 90)) || ((97 <=? c) && (c <=? 122)) || (c =? 95).

Definition name_char (c : N) : bool :=
  name_start c || ((48 <=? c) && (c <=? 57)).

(** The value of a parameter; one that is not set expands to nothing. *)
Definition value_of (env : list (jsstring * jsstring)) (name : jsstring)
  : jsstring :=
  default [] (Fixture.lookup_string name env).

(** Where the shell is in the text: between two words, in a word, in
    double quotes, or in the name of a parameter after [$] in double
    quotes; [word] is the part of the word that is read. *)
Inductive mode : Type :=
| Between
| Word (word : jsstring)
| Quoted (word : jsstring)
| Dollar (word name : jsstring).

(** A character in double quotes: the closing quote, the [$] of a
    parameter, or itself.  A backquote or a backslash starts something
    this host does not carry out. *)
Definition in_quotes (word : jsstring) (c : N) : option mode :=
  if c =? 34 then Some (Word word)
  else if c =? 36 then Some (Dollar word [])
  else if (c =? 96) || (c =? 92) then None
  else Some (Quoted (word ++ [c])).

(** One character further.  Outside quotes the commands of the scripts
    hold spaces, quotes and the characters [A-Za-z0-9._-] only. *)
Definition step (env : list (jsstring * jsstring)) (m : mode) (c : N)
  : option (mode * option jsstring) :=
  match m with
  | Between =>
      if c =? 32 then Some (Between, None)
      else if c =? 34 then Some (Quoted [], None)
      else if safe_char c then Some (Word [c], None)
      else None
  | Word word =>
      if c =? 32 then Some (Between, Some word)
      else if c =? 34 then Some (Quoted word, None)
      else if safe_char c then Some (Word (word ++ [c]), None)
      else None
  | Quoted word => option_map (fun m' => (m', None)) (in_quotes word c)
  | Dollar word name =>
      if (match name with [] => name_start c | _ => name_char c end)
      then Some (Dollar word (name ++ [c]), None)
      else
        match name with
        | [] => None
        | _ => option_map (fun m' => (m', None))
                 (in_quotes (word ++ value_of env name) c)
        end
  end.

(** The words of a command, expanded. *)
Fixpoint words (env : list (jsstring * jsstring)) (m : mode) (text : jsstring)
  : option (list jsstring) :=
  match text with
  | [] =>
      match m with
      | Between => Some []
      | Word word => Some [word]
      | Quoted _ | Dollar _ _ => None
      end
  | c :: text' =>
      match step env m c with
      | Some (m', Some word) => option_map (cons word) (words env m' text')
      | Some (m', None) => words env m' text'
      | None => None
      end
  end.

Definition is_word (s : string) (x : jsstring) : bool := jsstring_eqb x (lit s).

Definition has_ref (ref : jsstring) (m : machine) : bool :=
  Fixture.mem_string ref (refs m).

Definition add_ref (ref : jsstring) (m : machine) : machine :=
  {| variables := variables m; paths := paths m; files := files m;
     refs := refs m ++ [ref]; worktrees := worktrees m |}.

(** A worktree for [branch] in the directory [path], which must not be
    there yet. *)
Definition add_worktree (path branch : jsstring) (m : machine)
  : option machine :=
  if Fixture.mem_string path (paths m) then None
  else Some {| variables := variables m; paths := paths m ++ [path];
               files := files m; refs := refs m;
               worktrees := worktrees m ++ [(path, branch)] |}.

(** [git branch <branch> origin/<name>] *)
Definition git_branch (branch start : jsstring) (m : machine) : option machine :=
  if has_ref (lit "refs/heads/" ++ branch) m then None
  else if negb (has_ref (lit "refs/remotes/" ++ start) m) then None
  else Some (add_ref (lit "refs/heads/" ++ branch) m).

(** [git worktree add -b <branch> <path>] *)
Definition git_worktree_add_new (branch path : jsstring) (m : machine)
  : option machine :=
  match branch with
  | [] => None
  | _ =>
      if has_ref (lit "refs/heads/" ++ branch) m then None
      else add_worktree path branch (add_ref (lit "refs/heads/" ++ branch) m)
  end.

(** [git worktree add <path> <branch>]: the local branch, or a new one
    that tracks the branch of that name on the remote. *)
Definition git_worktree_add (path branch : jsstring) (m : machine)
  : option machine :=
  if has_ref (lit "refs/heads/" ++ branch) m then add_worktree path branch m
  else if has_ref (lit "refs/remotes/origin/" ++ branch) m
  then add_worktree path branch (add_ref (lit "refs/heads/" ++ branch) m)
  else None.

(** [git --git-dir <dir> ...] for the subcommands of the create-worktree
    script; the remote has nothing new to fetch. *)
Definition git (dir : jsstring) (args : list jsstring) (m : machine)
  : option machine :=
  if negb (Fixture.mem_string dir (paths m)) then None
  else
    match args with
    | [a; b; c] =>
        if is_word "fetch" a && is_word "--all" b && is_word "--prune" c then Some m
        else if is_word "branch" a then git_branch b c m
        else None
    | [a; b; c; d] =>
        if is_word "show-ref" a && is_word "--verify" b && is_word "--quiet" c
        then (if has_ref d m then Some m else None)
        else if is_word "worktree" a && is_word "add" b then git_worktree_add c d m
        else None
    | [a; b; c; d; e] =>
        if is_word "worktree" a && is_word "add" b && is_word "-b" c
        then git_worktree_add_new d e m
        else None
    | _ => None
    end.

(** The program the words name, run in [dir]. *)
Definition program (argv : list jsstring) (dir : option jsstring) (m : machine)
  : option machine :=
  match argv with
  | a :: b :: dir' :: args =>
      if is_word "git" a && is_word "--git-dir" b then git dir' args m else None
  | [a; b] =>
      if is_word "pnpm" a && is_word "install" b
      then match dir with
           | Some d => if Fixture.mem_string d (paths m) then Some m else None
           | None => Some m
           end
      else None
  | _ => None
  end.

Definition sh (command : jsstring) (dir : option jsstring) (m : machine)
  : option machine :=
  match words (variables m) Between command with
  | Some argv => program argv dir m
  | None => None
  end.

#[export] Instance host : Host machine := {|
  META_REPO_ROOT := lit "/repo";
  join := Fixture.join_segments;
  existsSync := fun p m => Fixture.mem_string p (paths m);
  readFileSync := fun p m =>
    match Fixture.lookup_string p (files m) with
    | Some content => inl content
    | None => inr (new_Error (lit "ENOENT"))
    end;
  JSON_parse := Fixture.parse;
  execSync := fun command opts m =>
    match sh command (cwd opts) m with
    | Some m' => (ExecOk [], m')
    | None => (ExecFail {| err_stderr := None;
                           err_message := Some (lit "Command failed: " ++ command) |},
               m)
    end;
  TypeError := fun _ => new_Error (lit "TypeError");
  ToString := Fixture.to_text |}.

(** The bare repository holds the branches [main] and [a$b]; no
    variable [b] is set. *)
Definition repository : machine :=
  {| variables := [(lit "HOME", lit "/root")];
     paths := [lit "/repo/project.config.json"; lit "/repo/.bare"];
     files := [Fixture.config_file "git@host:org/repo.git"];
     refs := [lit "refs/heads/main"; lit "refs/heads/a$b"];
     worktrees := [] |}.

End Shell.
(** * Vocabulary of the statements *)

Section Vocabulary.
Context {W : Type}.

(** A loader-like computation leaves the machine as it is and runs no
    command; it prints nothing unless it ends the process, which it does
    with status 1 after a line that starts with [Error: ]. *)
Definition loader_result {A} (w : W) (r : result W A) : Prop :=
  world r = w /\
  match out r with
  | Ret _ | Throw _ => trace r = []
  | Exit c =>
      c = 1%Z /\
      exists s rest, trace r = ConsoleError (lit "Error: " ++ s) :: rest
                     /\ execs rest = []
  end.

Definition loader {A} (m : M W A) : Prop := forall w, loader_result w (m w).

(** Error lines, then [process.exit(1)]. *)
Definition exit_tail {A} (m : M W A) : Prop :=
  forall w, exists rest, m w = Result (Exit 1%Z) w rest /\ execs rest = [].

End Vocabulary.

(** [v.k] when [v] is neither [undefined] nor [null]: the property, or
    [undefined] when there is none. *)
Definition field (v : value) (k : jsstring) : value :=
  match v with
  | VObj _ props => default VUndefined (props !! k)
  | _ => VUndefined
  end.


(** Whether a command succeeded. *)
Definition succeeded (r : exec_result) : bool :=
  match r with
  | ExecOk _ => true
  | ExecFail _ => false
  end.

(** The message of the error [run] throws for a failed command:
    [execError.stderr || execError.message || "Command failed"]. *)
Definition failure_message (e : error) : jsstring :=
  or_string (err_stderr e) (or_string (err_message e) (lit "Command failed")).

(** The options the create-worktree [run] gives [execSync]. *)
Definition stdio (dir : option jsstring) (silent : bool) : exec_options :=
  {| cwd := dir; stderr_piped := silent |}.

(** The usage error of create-worktree: its two lines and status 1,
    nothing else. *)
Definition usage_error {W A : Type} (r : result W A) : Prop :=
  out r = Exit 1%Z
  /\ trace r = [ConsoleError CreateWorktree.usage_line;
                ConsoleError (lit "Example: create-worktree feature/my-feature")].

Section Resolution.
Context {W : Type} `{Host W}.
Import CreateWorktree.

(** [main] from the fetch on (lines 158-185), for the statements that
    speak of what happens once the guards have passed. *)
Definition main_from_fetch (branch worktreePath : jsstring) : M W unit :=
  fetchLatest;;;
  localExists <- branchExists branch local;;
  remoteExists <- branchExists branch remote;;
  (if localExists then
     console_log (lit "Local branch '" ++ branch ++ lit "' exists.");;;
     createWorktree branch worktreePath false
   else if remoteExists then
     console_log (lit "Remote branch 'origin/" ++ branch
                  ++ lit "' exists, creating local tracking branch.");;;
     createTrackingBranch branch;;;
     createWorktree branch worktreePath false
   else
     console_log (lit "Branch '" ++ branch
                  ++ lit "' doesn't exist, creating new branch.");;;
     createWorktree branch worktreePath true);;;
  console_log (lit "Worktree created successfully." ++ [10]);;;
  installDependencies worktreePath;;;
  console_log ([10] ++ lit "=== Worktree ready! ===");;;
  console_log ([10] ++ lit "You can now work in: " ++ worktreePath);;;
  console_log (lit "  cd " ++ worktreePath).

(** What is run after a creation command that succeeded or not: the
    installation in the new worktree, or nothing. *)
Definition after_creation (path : jsstring) (created : bool)
  (tail : list (jsstring * option jsstring * bool)) : Prop :=
  if created then exists ok, tail = [(lit "pnpm install", Some path, ok)]
  else tail = [].

(** The commands that follow the two [show-ref] checks, given their
    answers. *)
Definition resolution (branch path : jsstring)
  (localExists remoteExists : bool)
  (cmds : list (jsstring * option jsstring * bool)) : Prop :=
  if localExists then
    exists ok tail,
      cmds = (worktree_add_command branch path, None, ok) :: tail
      /\ after_creation path ok tail
  else if remoteExists then
    cmds = [(tracking_branch_command branch, None, false)]
    \/ exists ok tail,
         cmds = (tracking_branch_command branch, None, true)
                :: (worktree_add_command branch path, None, ok) :: tail
         /\ after_creation path ok tail
  else
    exists ok tail,
      cmds = (worktree_add_new_command branch path, None, ok) :: tail
      /\ after_creation path ok tail.

(** The commands of [main_from_fetch] and whether each succeeded, read
    off the answers of [execSync], each command being given to the
    machine the one before left: the installation after a creation
    command that succeeded, nothing after one that failed. *)
Definition creation_commands (command path : jsstring) (w : W)
  : list (jsstring * option jsstring * bool) :=
  let added := execSync command (stdio None false) w in
  (command, None, succeeded (fst added))
  :: if succeeded (fst added)
     then [(lit "pnpm install", Some path,
            succeeded (fst (execSync (lit "pnpm install")
                              (stdio (Some path) false) (snd added))))]
     else [].

Definition resolution_commands (branch path : jsstring) (w : W)
  : list (jsstring * option jsstring * bool) :=
  let fetched := execSync fetch_command (stdio None false) w in
  let localRef :=
    execSync (show_ref_command (lit "refs/heads/" ++ branch))
      (stdio None true) (snd fetched) in
  let remoteRef :=
    execSync (show_ref_command (lit "refs/remotes/origin/" ++ branch))
      (stdio None true) (snd localRef) in
  (fetch_command, None, succeeded (fst fetched))
  :: (show_ref_command (lit "refs/heads/" ++ branch), None,
      succeeded (fst localRef))
  :: (show_ref_command (lit "refs/remotes/origin/" ++ branch), None,
      succeeded (fst remoteRef))
  :: if succeeded (fst localRef) then
       creation_commands (worktree_add_command branch path) path
         (snd remoteRef)
     else if succeeded (fst remoteRef) then
       let tracked :=
         execSync (tracking_branch_command branch) (stdio None false)
           (snd remoteRef) in
       (tracking_branch_command branch, None, succeeded (fst tracked))
       :: if succeeded (fst tracked)
          then creation_commands (worktree_add_command branch path) path
                 (snd tracked)
          else []
     else
       creation_commands (worktree_add_new_command branch path) path
         (snd remoteRef).

End Resolution.

(** A property that is absent, or the empty string. *)
Definition absent_or_empty (v : value) : Prop := v = VUndefined \/ v = VStr [].

(** What the loaders return, [returned], against what [JSON.parse] gave,
    [parsed]: the two defaults, and every other property as it was. *)
Definition defaults_applied (parsed returned : value) : Prop :=
  let codebase := field parsed (lit "codebase") in
  let worktrees := field parsed (lit "worktrees") in
  field (field returned (lit "codebase")) (lit "defaultBranch")
  = js_or (field codebase (lit "defaultBranch")) (VStr (lit "main"))
  /\ field (field returned (lit "worktrees")) (lit "root")
     = js_or (field worktrees (lit "root")) (VStr (lit "worktrees"))
  /\ (forall k, k <> lit "codebase" -> k <> lit "worktrees" ->
        field returned k = field parsed k)
  /\ (forall k, k <> lit "defaultBranch" ->
        field (field returned (lit "codebase")) k = field codebase k)
  /\ (forall k, k <> lit "root" ->
        field (field returned (lit "worktrees")) k = field worktrees k).

(** [codebase.remote] is missing, empty or blank in a parsed
    configuration. *)
Definition remote_missing_or_blank (parsed : value) : Prop :=
  let remote := field (field parsed (lit "codebase")) (lit "remote") in
  remote = VUndefined \/ exists s, remote = VStr s /\ blank s = true.

Section BootstrapVocabulary.
Context {W : Type} `{Host W}.

(** The linkage file of a worktree does not point to the bare
    repository: it is absent, it cannot be read, or its content, white
    space around it removed, does not start with [gitdir:] or does not
    name [.bare] after it. *)
Definition linkage_invalid (gitFile : jsstring) (w : W) : Prop :=
  existsSync gitFile w = false
  \/ (exists e, readFileSync gitFile w = inr e)
  \/ (exists raw,
        readFileSync gitFile w = inl raw
        /\ (startsWith (lit "gitdir:") (trim raw) = false
            \/ includes (lit ".bare")
                 (trim (substring_from 7 (trim raw))) = false)).

(** The linkage file of a worktree as a reader of the file sees it: it
    is absent, it cannot be read, it does not begin with [gitdir:], or
    the path it names (what follows the prefix, the white space around
    it removed) does not contain [.bare]. *)
Definition linkage_broken (gitFile : jsstring) (w : W) : Prop :=
  existsSync gitFile w = false
  \/ (exists e, readFileSync gitFile w = inr e)
  \/ (exists raw,
        readFileSync gitFile w = inl raw
        /\ (startsWith (lit "gitdir:") raw = false
            \/ includes (lit ".bare")
                 (trim (substring_from 7 (trim raw))) = false)).

(** The content of a file begins with white space. *)
Definition indented (raw : jsstring) : bool :=
  match raw with
  | c :: _ => is_js_whitespace c
  | [] => false
  end.

(** The options [run] gives [execSync] when no directory is named. *)
Definition piped : exec_options := {| cwd := None; stderr_piped := true |}.

(** [git] takes a directory for a working tree only when the linkage
    file in it, if it is a file that can be read, is written as [git]
    writes it, [gitdir: ] first.  What is asked of this machine is
    less: [git rev-parse --is-inside-work-tree] does not succeed in
    [dir] on a linkage file that begins with white space. *)
Definition git_reads_linkage (dir : jsstring) (w : W) : Prop :=
  let checked := execSync (Bootstrap.rev_parse_command dir) piped w in
  succeeded (fst checked) = true ->
  forall raw,
    readFileSync (join [dir; lit ".git"]) (snd checked) = inl raw ->
    indented raw = false.

(** An executed command that is a [git] command. *)
Definition is_git (x : jsstring * option jsstring * bool) : Prop :=
  startsWith (lit "git ") (fst (fst x)) = true.

Definition corepack_warning : jsstring :=
  lit "Warning: Failed to enable corepack. You may need to run 'corepack enable' manually.".

End BootstrapVocabulary.

(** A run that ended with status 1 having run [git] commands only. *)
Definition fatal_git {W A : Type} (r : result W A) : Prop :=
  exit_status (out r) = 1%Z /\ Forall is_git (execs (trace r)).

(** ** Vocabulary of the further properties *)

Section BootstrapStages.
Context {W : Type} `{Host W}.
Import Bootstrap.

(** [main] of bootstrap.ts from the call of [enableCorepack] on (lines
    171-178). *)
Definition main_from_enableCorepack (config : value) : M W unit :=
  enableCorepack;;;
  installDependencies config;;;
  console_log ([10] ++ lit "=== Bootstrap complete! ===");;;
  root <- member2 config (lit "worktrees") (lit "root");;
  final <- path_join [VStr META_REPO_ROOT; root; VStr (lit "main")];;
  console_log ([10] ++ lit "You can now work in: " ++ final).

(** [main] of bootstrap.ts from the call of [createWorktree] on (lines
    168-178), for the statements that speak of what follows the clone. *)
Definition main_from_createWorktree (config : value) : M W unit :=
  createWorktree config;;;
  main_from_enableCorepack config.

(** A command that clones. *)
Definition is_clone (command : jsstring) : bool :=
  startsWith (lit "git clone") command.

(** An executed command that is not a clone. *)
Definition not_clone (x : jsstring * option jsstring * bool) : Prop :=
  is_clone (fst (fst x)) = false.

End BootstrapStages.

Section CreateWorktreeVocabulary.
Context {W : Type} `{Host W}.

(** An executed command that is [git] on the bare repository, or the
    installation. *)
Definition on_bare_or_install (x : jsstring * option jsstring * bool) : Prop :=
  startsWith CreateWorktree.git_dir (fst (fst x)) = true
  \/ fst (fst x) = lit "pnpm install".

End CreateWorktreeVocabulary.

(** More machines to run the scripts on. *)
Module Machines.
Import Fixture.

(** Nothing is there. *)
Definition bare_ground : machine :=
  {| paths := []; files := []; failing := [] |}.

(** The configuration file is there and is not JSON. *)
Definition garbled : machine :=
  {| paths := [lit "/repo/project.config.json"];
     files := [(lit "/repo/project.config.json", lit "{")];
     failing := [] |}.

(** The linkage file git writes for the main worktree. *)
Definition linkage : jsstring := lit "gitdir: /repo/.bare/worktrees/main".

(** What the loaders return for a configuration that has no
    [worktrees]: the parsed object with its [codebase] and the default
    branch [branch], and the default worktrees root. *)
Definition loaded (codebase : gmap jsstring value) (branch : value) : value :=
  VObj false
    (<[ lit "worktrees" := VObj false {[ lit "root" := VStr (lit "worktrees") ]} ]>
       {[ lit "codebase" :=
            VObj false (<[ lit "defaultBranch" := branch ]> codebase) ]}).

(** The loaded form of the usual configuration. *)
Definition usual : value :=
  loaded {[ lit "remote" := VStr (lit "git@host:org/repo.git") ]}
    (VStr (lit "main")).

(** The loaded form of the configuration whose default branch is
    [{"toString":1}]. *)
Definition object_branch : value :=
  loaded {[ lit "remote" := VStr (lit "git@host:org/repo.git") ]}
    (VObj false {[ lit "toString" := VNum one ]}).

(** The configuration names a default branch that is an object without
    a primitive value. *)
Definition unprintable : machine :=
  {| paths := [lit "/repo/project.config.json"];
     files := [(lit "/repo/project.config.json", config_text_object_branch)];
     failing := [] |}.

(** The meta-repository with a directory [worktrees/main] that is no
    worktree: there is no linkage file in it. *)
Definition unlinked : machine :=
  {| paths := [lit "/repo/project.config.json"; lit "/repo/.bare";
               lit "/repo/worktrees"; lit "/repo/worktrees/main"];
     files := [config_file "git@host:org/repo.git"];
     failing := [] |}.

End Machines.
(** ** Sanitizer lemmas *)

Lemma replace_class_app cls rep (a b : jsstring) :
  replace_class cls rep (a ++ b)
  = replace_class cls rep a ++ replace_class cls rep b.
Proof. unfold replace_class. apply flat_map_app. Qed.

Lemma replace_slashes_spec s :
  replace_class is_slash (lit "__") s = slashes_to_double_underscore s.
Proof.
  induction s as [|c s IH]; [reflexivity|].
  unfold replace_class in *; cbn [flat_map slashes_to_double_underscore].
  rewrite IH. unfold is_slash. destruct (c =? 47); reflexivity.
Qed.

Lemma replace_unsafe_spec s :
  replace_class unsafe_char (lit "_") s = outside_set_to_underscore s.
Proof.
  induction s as [|c s IH]; [reflexivity|].
  unfold replace_class in *; cbn [flat_map outside_set_to_underscore].
  rewrite IH. unfold unsafe_char. destruct (safe_char c); reflexivity.
Qed.

Lemma safe_char_not_slash c : safe_char c = true -> (c =? 47) = false.
Proof.
  unfold safe_char. intros H. apply N.eqb_neq. intros ->.
  vm_compute in H. discriminate.
Qed.

Lemma sanitize_cons c s :
  sanitizeBranchName (c :: s) = sanitize_unit c ++ sanitizeBranchName s.
Proof.
  unfold sanitizeBranchName.
  change (c :: s) with ([c] ++ s).
  rewrite !replace_class_app. f_equal.
  unfold sanitize_unit, replace_class, is_slash, unsafe_char.
  cbn [flat_map]. destruct (c =? 47) eqn:E.
  - reflexivity.
  - cbn [flat_map app]. destruct (safe_char c); reflexivity.
Qed.

Lemma sanitize_flat_map s :
  sanitizeBranchName s = flat_map sanitize_unit s.
Proof.
  induction s as [|c s IH]; [reflexivity|].
  rewrite sanitize_cons, IH. reflexivity.
Qed.

Lemma sanitize_app a b :
  sanitizeBranchName (a ++ b) = sanitizeBranchName a ++ sanitizeBranchName b.
Proof. rewrite !sanitize_flat_map. apply flat_map_app. Qed.

Lemma sanitize_unit_safe c : forallb safe_char (sanitize_unit c) = true.
Proof.
  unfold sanitize_unit. destruct (c =? 47); [reflexivity|].
  destruct (safe_char c) eqn:E; cbn; rewrite ?E; reflexivity.
Qed.

Lemma sanitize_all_safe s : forallb safe_char (sanitizeBranchName s) = true.
Proof.
  induction s as [|c s IH]; [reflexivity|].
  rewrite sanitize_cons, forallb_app, sanitize_unit_safe, IH. reflexivity.
Qed.

Lemma sanitize_fixes_safe s :
  forallb safe_char s = true -> sanitizeBranchName s = s.
Proof.
  induction s as [|c s IH]; [reflexivity|].
  cbn [forallb]. intros [Hc Hs]%andb_true_iff.
  rewrite sanitize_cons, (IH Hs). unfold sanitize_unit.
  rewrite (safe_char_not_slash _ Hc), Hc. reflexivity.
Qed.

(** ** Sanitizer theorems *)

(** C2: [sanitizeBranchName] is the slash pass followed by the pass over
    the characters outside [A-Za-z0-9._-]; the passes do not commute, so
    the order is this one and not the other. *)
Theorem sanitizeBranchName_two_passes :
  (forall b : jsstring,
     sanitizeBranchName b
     = outside_set_to_underscore (slashes_to_double_underscore b))
  /\ sanitizeBranchName (lit "a/b")
     <> slashes_to_double_underscore (outside_set_to_underscore (lit "a/b")).
Proof.
  split.
  - intros b. unfold sanitizeBranchName.
    rewrite replace_unsafe_spec, replace_slashes_spec. reflexivity.
  - vm_compute. discriminate.
Qed.

(** C8: every code unit of the output is in [A-Za-z0-9._-], the output
    has no slash, and a code unit of the input that is in the set stays
    as it is, where it is: what precedes and what follows it are
    sanitized on their own. *)
Theorem sanitizeBranchName_output_safe (b : jsstring) :
  Forall (fun c => safe_char c = true) (sanitizeBranchName b)
  /\ ~ In 47 (sanitizeBranchName b)
  /\ (forall pre c post, b = pre ++ c :: post -> safe_char c = true ->
        sanitizeBranchName b
        = sanitizeBranchName pre ++ c :: sanitizeBranchName post)
  /\ (forallb safe_char b = true -> sanitizeBranchName b = b).
Proof.
  assert (Hall : Forall (fun c => safe_char c = true) (sanitizeBranchName b)).
  { apply Forall_forall. intros c Hc%list_elem_of_In.
    pose proof (sanitize_all_safe b) as H.
    rewrite forallb_forall in H. apply H. exact Hc. }
  split; [exact Hall|]. split; [|split].
  - intros Hin. rewrite Forall_forall in Hall.
    apply list_elem_of_In, Hall in Hin. vm_compute in Hin. discriminate.
  - intros pre c post -> Hc.
    change (c :: post) with ([c] ++ post).
    rewrite !sanitize_app. do 2 f_equal.
    rewrite sanitize_cons. unfold sanitize_unit.
    rewrite (safe_char_not_slash _ Hc), Hc. reflexivity.
  - apply sanitize_fixes_safe.
Qed.

Lemma sanitizeBranchName_output_safe_witness :
  sanitizeBranchName (lit "fix/a b")
  = sanitizeBranchName (lit "fix/") ++ 97 :: sanitizeBranchName (lit " b").
Proof.
  destruct (sanitizeBranchName_output_safe (lit "fix/a b")) as (_ & _ & H & _).
  apply (H (lit "fix/") 97 (lit " b")); reflexivity.
Defined.

(** C9: sanitizing twice is sanitizing once. *)
Theorem sanitizeBranchName_idempotent (b : jsstring) :
  sanitizeBranchName (sanitizeBranchName b) = sanitizeBranchName b.
Proof. apply sanitize_fixes_safe, sanitize_all_safe. Qed.

(** * Reasoning about computations *)

Section Laws.
Context {W : Type} `{Host W}.

Lemma out_after {A} t (r : result W A) : out (after t r) = out r.
Proof. destruct r; reflexivity. Qed.

Lemma world_after {A} t (r : result W A) : world (after t r) = world r.
Proof. destruct r; reflexivity. Qed.

Lemma trace_after {A} t (r : result W A) : trace (after t r) = t ++ trace r.
Proof. destruct r; reflexivity. Qed.

Lemma after_nil {A} (r : result W A) : after [] r = r.
Proof. destruct r; reflexivity. Qed.

Lemma execs_app t t' : execs (t ++ t') = execs t ++ execs t'.
Proof.
  induction t as [|[] t IH]; cbn [app execs]; rewrite ?IH; reflexivity.
Qed.

Lemma after_after {A} t t' (r : result W A) :
  after t (after t' r) = after (t ++ t') r.
Proof. destruct r; cbn. rewrite app_assoc. reflexivity. Qed.

Lemma bind_assoc {A B C} (m : M W A) (k : A -> M W B) (k' : B -> M W C) w :
  bind (bind m k) k' w = bind m (fun a => bind (k a) k') w.
Proof.
  unfold bind. destruct (m w) as [[a|e|c] w1 t]; try reflexivity.
  destruct (k a w1) as [[b|e|c] w2 t2]; try reflexivity.
  cbn [after]. destruct (k' b w2) as [o w3 t3]. cbn [after].
  rewrite app_assoc. reflexivity.
Qed.

(** How a sequence goes, from how its first part went. *)
Lemma bind_Ret {A B} (m : M W A) (k : A -> M W B) w a w' t :
  m w = Result (Ret a) w' t -> bind m k w = after t (k a w').
Proof. unfold bind. intros ->. reflexivity. Qed.

Lemma bind_Throw {A B} (m : M W A) (k : A -> M W B) w e w' t :
  m w = Result (Throw e) w' t -> bind m k w = Result (Throw e) w' t.
Proof. unfold bind. intros ->. reflexivity. Qed.

Lemma bind_Exit {A B} (m : M W A) (k : A -> M W B) w c w' t :
  m w = Result (Exit c) w' t -> bind m k w = Result (Exit c) w' t.
Proof. unfold bind. intros ->. reflexivity. Qed.

Lemma loader_ret {A} (a : A) : loader (@ret W A a).
Proof. intros w. split; reflexivity. Qed.

Lemma loader_throw {A} e : loader (@throw W A e).
Proof. intros w. split; reflexivity. Qed.

Lemma loader_bind {A B} (m : M W A) (k : A -> M W B) :
  loader m -> (forall a, loader (k a)) -> loader (bind m k).
Proof.
  intros Hm Hk w. specialize (Hm w). unfold bind.
  destruct (m w) as [[a|e|c] w' t]; unfold loader_result in Hm;
    cbn [out world trace] in Hm; destruct Hm as [-> Hm].
  - subst t. rewrite after_nil. apply Hk.
  - split; [reflexivity|exact Hm].
  - split; [reflexivity|exact Hm].
Qed.

Lemma loader_try_catch {A} (m : M W A) h :
  loader m -> (forall e, loader (h e)) -> loader (try_catch m h).
Proof.
  intros Hm Hh w. specialize (Hm w). unfold try_catch.
  destruct (m w) as [[a|e|c] w' t]; unfold loader_result in Hm;
    cbn [out world trace] in Hm; destruct Hm as [-> Hm].
  - split; [reflexivity|exact Hm].
  - subst t. rewrite after_nil. apply Hh.
  - split; [reflexivity|exact Hm].
Qed.

Lemma loader_if {A} (c : bool) (a b : M W A) :
  loader a -> loader b -> loader (if c then a else b).
Proof. destruct c; auto. Qed.

Lemma exit_tail_exit {A} : exit_tail (@process_exit W A 1).
Proof. intros w. exists []. split; reflexivity. Qed.

Lemma exit_tail_error {A} s (m : M W A) :
  exit_tail m -> exit_tail (bind (console_error s) (fun _ => m)).
Proof.
  intros Hm w. destruct (Hm w) as (rest & E & Hrest).
  exists (ConsoleError s :: rest). unfold bind, console_error, emit.
  rewrite E. split; [reflexivity|exact Hrest].
Qed.

Lemma loader_error_exit {A} s (m : M W A) :
  exit_tail m ->
  loader (bind (console_error (lit "Error: " ++ s)) (fun _ => m)).
Proof.
  intros Hm w. destruct (Hm w) as (rest & E & Hrest).
  unfold bind, console_error, emit. rewrite E.
  split; [reflexivity|]. cbn [out after trace app]. split; [reflexivity|].
  exists s, rest. split; [reflexivity|exact Hrest].
Qed.

Lemma loader_fs_existsSync p : loader (fs_existsSync p).
Proof. intros w. split; reflexivity. Qed.

Lemma loader_fs_readFileSync p : loader (fs_readFileSync p).
Proof.
  intros w. unfold fs_readFileSync.
  destruct (readFileSync p w); split; reflexivity.
Qed.

Lemma loader_json_parse s : loader (json_parse s).
Proof.
  unfold json_parse. destruct (JSON_parse s); [apply loader_ret|apply loader_throw].
Qed.

Lemma loader_member v k : loader (member v k).
Proof. destruct v; first [apply loader_ret|apply loader_throw]. Qed.

Lemma loader_optional_member v k : loader (optional_member v k).
Proof. destruct v; first [apply loader_ret|apply loader_throw]. Qed.

Lemma loader_assign_member v k x : loader (assign_member v k x).
Proof. destruct v; first [apply loader_ret|apply loader_throw]. Qed.

Lemma loader_member2 v k1 k2 : loader (member2 v k1 k2).
Proof. apply loader_bind; [apply loader_member|intros; apply loader_member]. Qed.

Lemma loader_assign_member2 v k1 k2 x : loader (assign_member2 v k1 k2 x).
Proof.
  apply loader_bind; [apply loader_member|intros].
  apply loader_bind; [apply loader_assign_member|intros].
  apply loader_assign_member.
Qed.

Lemma tpl_eq v (w : W) :
  tpl v w = match to_string v with
            | inl s => Result (Ret s) w []
            | inr e => Result (Throw e) w []
            end.
Proof. unfold tpl. destruct (to_string v); reflexivity. Qed.

Lemma loader_tpl v : loader (tpl v).
Proof.
  unfold tpl. destruct (to_string v); [apply loader_ret|apply loader_throw].
Qed.

(** A template literal whose value converts, and one whose value does
    not. *)
Lemma bind_tpl {B} v s (k : jsstring -> M W B) w :
  to_string v = inl s -> bind (tpl v) k w = k s w.
Proof. intros E. unfold bind. rewrite tpl_eq, E. apply after_nil. Qed.

Lemma bind_tpl_throw {B} v e (k : jsstring -> M W B) w :
  to_string v = inr e -> bind (tpl v) k w = Result (Throw e) w [].
Proof. intros E. unfold bind. rewrite tpl_eq, E. reflexivity. Qed.

Lemma loader_path_join args : loader (path_join args).
Proof.
  unfold path_join.
  destruct (validate_strings args); [apply loader_ret|apply loader_throw].
Qed.

End Laws.

Create HintDb loader.
#[global] Hint Resolve loader_ret loader_throw loader_fs_existsSync
  loader_fs_readFileSync loader_json_parse loader_member
  loader_optional_member loader_assign_member loader_member2
  loader_assign_member2 loader_path_join loader_tpl exit_tail_exit
  exit_tail_error : loader.

Ltac loader_step :=
  lazymatch goal with
  | |- loader (bind (console_error ?s) _) =>
      let s' := eval cbv in (skipn 7 s) in
      change s with (lit "Error: " ++ s');
      apply loader_error_exit; solve [eauto with loader]
  | |- loader (bind _ _) => apply loader_bind; [|intros ?]
  | |- loader (try_catch _ _) => apply loader_try_catch; [|intros ?]
  | |- loader (if _ then _ else _) => apply loader_if
  | |- loader _ => solve [eauto with loader]
  end.

Section Loaders.
Context {W : Type} `{Host W}.

Lemma bootstrap_loadConfig_loader : loader Bootstrap.loadConfig.
Proof. unfold Bootstrap.loadConfig. repeat loader_step. Qed.

Lemma create_loadConfig_loader : loader CreateWorktree.loadConfig.
Proof. unfold CreateWorktree.loadConfig. repeat loader_step. Qed.

End Loaders.

(** * The create-worktree script: what each function does *)

Section CreateWorktreeFacts.
Context {W : Type} `{Host W}.
Import CreateWorktree.

Lemma bind_console_log {B} s (k : unit -> M W B) w :
  bind (console_log s) k w = after [ConsoleLog s] (k tt w).
Proof. reflexivity. Qed.

Lemma bind_console_warn {B} s (k : unit -> M W B) w :
  bind (console_warn s) k w = after [ConsoleWarn s] (k tt w).
Proof. reflexivity. Qed.

Lemma bind_console_error {B} s (k : unit -> M W B) w :
  bind (console_error s) k w = after [ConsoleError s] (k tt w).
Proof. reflexivity. Qed.

Lemma bind_fs_existsSync {B} p (k : bool -> M W B) w :
  bind (fs_existsSync p) k w = k (existsSync p w) w.
Proof. unfold bind, fs_existsSync. apply after_nil. Qed.

Lemma member_field v k w x w' t :
  member v k w = Result (Ret x) w' t -> x = field v k /\ w' = w /\ t = [].
Proof.
  destruct v; cbn; intros E; inversion E; subst; auto.
Qed.

Lemma member2_field v k1 k2 s w :
  field (field v k1) k2 = VStr s ->
  member2 v k1 k2 w = Result (Ret (VStr s)) w [].
Proof.
  intros E. unfold member2.
  destruct v; try discriminate E. cbn [field] in E.
  cbn [member]. unfold bind, ret. cbn [after app].
  destruct (default VUndefined (props !! k1)); try discriminate E.
  cbn [field] in E. cbn [member]. rewrite E. reflexivity.
Qed.

Lemma run_eq command dir silent w :
  run command dir silent w =
  match execSync command {| cwd := dir; stderr_piped := silent |} w with
  | (ExecOk stdout, w') => Result (Ret (trim stdout)) w' [Exec command dir true]
  | (ExecFail e, w') =>
      Result (Throw (new_Error
                       (or_string (err_stderr e)
                          (or_string (err_message e) (lit "Command failed")))))
        w' [Exec command dir false]
  end.
Proof.
  unfold run, try_catch, bind, child_execSync.
  destruct (execSync _ _ w) as [[stdout|e] w']; reflexivity.
Qed.

(** A command run through [run]: one [Exec] event, and the outcome
    tells whether the command succeeded. *)
Lemma run_cases command dir silent w :
  exists w',
    (exists stdout, run command dir silent w
                    = Result (Ret stdout) w' [Exec command dir true])
    \/ (exists e, run command dir silent w
                  = Result (Throw e) w' [Exec command dir false]).
Proof.
  rewrite run_eq. destruct (execSync _ _ w) as [[stdout|e] w']; eauto.
Qed.

Lemma fetchLatest_cases w :
  exists ok w' t,
    fetchLatest w = Result (Ret tt) w' t
    /\ execs t = [(fetch_command, None, ok)].
Proof.
  unfold fetchLatest, try_catch. rewrite bind_console_log.
  unfold bind at 1.
  destruct (run_cases fetch_command None false w) as (w' & [(o & E)|(e & E)]);
    rewrite E; cbn; eauto.
Qed.

Lemma branchExists_cases branch type w :
  exists b w',
    branchExists branch type w
    = Result (Ret b) w' [Exec (show_ref_command (ref_name branch type)) None b].
Proof.
  unfold branchExists, try_catch, bind.
  destruct (run_cases (show_ref_command (ref_name branch type)) None true w)
    as (w' & [(o & E)|(e & E)]); rewrite E; cbn; eauto.
Qed.

Lemma createWorktree_cases (branch worktreePath : jsstring)
  (createNewBranch : bool) (w : W) :
  let command := if createNewBranch
                 then worktree_add_new_command branch worktreePath
                 else worktree_add_command branch worktreePath in
  exists w' t,
    (createWorktree branch worktreePath createNewBranch w = Result (Ret tt) w' t
     /\ execs t = [(command, None, true)])
    \/ (exists e,
          createWorktree branch worktreePath createNewBranch w
          = Result (Throw e) w' t
          /\ execs t = [(command, None, false)]).
Proof.
  unfold createWorktree. destruct createNewBranch; cbn zeta;
    rewrite bind_console_log; unfold bind;
    match goal with
    | |- context [run ?c None false w] =>
        destruct (run_cases c None false w) as (w' & [(o & E)|(e & E)]);
        rewrite E; cbn; eauto 8
    end.
Qed.

Lemma createTrackingBranch_cases branch w :
  exists w' t,
    (createTrackingBranch branch w = Result (Ret tt) w' t
     /\ execs t = [(tracking_branch_command branch, None, true)])
    \/ (exists e,
          createTrackingBranch branch w = Result (Throw e) w' t
          /\ execs t = [(tracking_branch_command branch, None, false)]).
Proof.
  unfold createTrackingBranch. rewrite bind_console_log. unfold bind.
  destruct (run_cases (tracking_branch_command branch) None false w)
    as (w' & [(o & E)|(e & E)]); rewrite E; cbn; eauto 8.
Qed.

Lemma installDependencies_cases worktreePath w :
  exists w' t,
    (installDependencies worktreePath w = Result (Ret tt) w' t
     /\ execs t = [(lit "pnpm install", Some worktreePath, true)])
    \/ (installDependencies worktreePath w = Result (Exit 1%Z) w' t
        /\ execs t = [(lit "pnpm install", Some worktreePath, false)]).
Proof.
  unfold installDependencies, try_catch, bind, console_log, console_error,
    emit, process_exit.
  destruct (run_cases (lit "pnpm install") (Some worktreePath) false w)
    as (w' & [(o & E)|(e & E)]); rewrite E; cbn; eauto 8.
Qed.

End CreateWorktreeFacts.

(** ** Stepping through a run

    [R : r = script w] is taken forward one computation at a time. *)

Ltac simpl_results :=
  repeat first
    [ rewrite out_after | rewrite trace_after | rewrite world_after
    | rewrite execs_app | rewrite after_nil ];
  cbn [out world trace execs app exit_status].

Ltac step_console R :=
  first [ rewrite bind_console_log in R
        | rewrite bind_console_warn in R
        | rewrite bind_console_error in R ].

(** The next computation is loader-like, by [lem]. *)
Ltac step_loader R lem :=
  lazymatch type of R with
  | context [bind ?m ?k ?w] =>
      let L := fresh "L" in
      let E := fresh "E" in
      pose proof (lem w) as L;
      destruct (m w) as [[?x|?e|?c] ?w' ?t] eqn:E;
      unfold loader_result in L; cbn [out world trace] in L;
      destruct L as [-> L];
      [ rewrite (bind_Ret m k w _ _ _ E) in R; subst t;
        rewrite after_nil in R; cbn beta in R
      | rewrite (bind_Throw m k w _ _ _ E) in R; subst t
      | rewrite (bind_Exit m k w _ _ _ E) in R;
        let s := fresh "s" in let rest := fresh "rest" in
        destruct L as (-> & s & rest & -> & L) ]
  end.

Section CreateWorktreeMain.
Context {W : Type} `{Host W}.
Import CreateWorktree.

Lemma path_join2_inv a v w p w' t :
  path_join [VStr a; v] w = Result (Ret p) w' t ->
  exists s, v = VStr s /\ p = join [a; s].
Proof.
  unfold path_join. cbn [validate_strings].
  destruct v; try discriminate. cbn. intros E. inversion E. eauto.
Qed.

Lemma member2_inv v k1 k2 w x w' t :
  member2 v k1 k2 w = Result (Ret x) w' t -> x = field (field v k1) k2.
Proof.
  unfold member2, bind. destruct (member v k1 w) as [[y|e|c] w1 t1] eqn:E;
    try discriminate.
  apply member_field in E as (-> & Hw1 & ->). subst w1.
  destruct (member (field v k1) k2 w) as [[z|e|c] w2 t2] eqn:E2;
    try discriminate.
  apply member_field in E2 as (-> & Hw2 & ->). subst w2.
  cbn. intros E; inversion E; reflexivity.
Qed.

(** C4: with no bare repository the script ends with status 1 and has
    run no command; with the target path taken it ends with status 1
    and has run no command either, so neither [fetch] nor
    [worktree add] was executed. *)
Theorem guards_precede_fetch (args : list jsstring) (w : W) :
  (existsSync BARE_PATH w = false ->
     exit_status (out (main args w)) = 1%Z
     /\ execs (trace (main args w)) = [])
  /\ (forall branch rest config root,
        args = branch :: rest ->
        out (loadConfig w) = Ret config ->
        field (field config (lit "worktrees")) (lit "root") = VStr root ->
        existsSync
          (join [join [META_REPO_ROOT; root]; sanitizeBranchName branch]) w
        = true ->
        exit_status (out (main args w)) = 1%Z
        /\ execs (trace (main args w)) = []).
Proof.
  split.
  - intros Hbare. destruct args as [|branch rest]; [split; reflexivity|].
    remember (main (branch :: rest) w) as r eqn:R. unfold main in R.
    step_loader R create_loadConfig_loader;
      [|subst r; simpl_results; auto..].
    step_loader R (loader_member2 x (lit "worktrees") (lit "root"));
      [|subst r; simpl_results; auto..].
    step_loader R (loader_path_join [VStr META_REPO_ROOT; x0]);
      [|subst r; simpl_results; auto..].
    step_loader R (loader_path_join [VStr x1; VStr (sanitizeBranchName branch)]);
      [|subst r; simpl_results; auto..].
    do 4 step_console R.
    rewrite bind_fs_existsSync in R. unfold bind at 1 in R.
    rewrite Hbare in R. cbn -[lit] in R. subst r. split; reflexivity.
  - intros branch rest config root -> Hload Hroot Htaken.
    remember (main (branch :: rest) w) as r eqn:R. unfold main in R.
    step_loader R create_loadConfig_loader; try discriminate Hload.
    cbn in Hload. injection Hload as ->.
    rewrite (bind_Ret _ _ _ _ _ _ (member2_field _ _ _ _ w Hroot)) in R.
    rewrite after_nil in R. cbn beta in R.
    unfold path_join at 1 2 in R. cbn [validate_strings] in R.
    unfold bind at 1 in R. cbn [ret after app] in R.
    unfold bind at 1 in R. cbn [ret after app] in R.
    do 4 step_console R.
    rewrite bind_fs_existsSync in R.
    destruct (existsSync BARE_PATH w) eqn:Hbare.
    + unfold bind at 1 in R. cbn [negb ret after app] in R.
      rewrite bind_fs_existsSync in R. rewrite Htaken in R.
      unfold bind at 1 in R. cbn -[lit] in R. subst r. split; reflexivity.
    + unfold bind at 1 in R. cbn -[lit] in R. subst r. split; reflexivity.
Qed.

Lemma not_usage_error_cons branch rest (w : W) :
  ~ usage_error (main (branch :: rest) w).
Proof.
  intros [Hout Htrace].
  remember (main (branch :: rest) w) as r eqn:R. unfold main in R.
  step_loader R create_loadConfig_loader; [|subst r; discriminate|].
  2:{ subst r. cbn [out trace] in Htrace. injection Htrace as Hs _.
      vm_compute in Hs. discriminate. }
  step_loader R (loader_member2 x (lit "worktrees") (lit "root"));
    [|subst r; discriminate|].
  2:{ subst r. cbn [out trace] in Htrace. injection Htrace as Hs _.
      vm_compute in Hs. discriminate. }
  step_loader R (loader_path_join [VStr META_REPO_ROOT; x0]);
    [|subst r; discriminate|].
  2:{ subst r. cbn [out trace] in Htrace. injection Htrace as Hs _.
      vm_compute in Hs. discriminate. }
  step_loader R (loader_path_join [VStr x1; VStr (sanitizeBranchName branch)]);
    [|subst r; discriminate|].
  2:{ subst r. cbn [out trace] in Htrace. injection Htrace as Hs _.
      vm_compute in Hs. discriminate. }
  step_console R. subst r. rewrite trace_after in Htrace. discriminate.
Qed.

(** The end of [main], after the worktree was created. *)
Lemma main_tail path (w : W) :
  let m := (console_log (lit "Worktree created successfully." ++ [10]);;;
            installDependencies path;;;
            console_log ([10] ++ lit "=== Worktree ready! ===");;;
            console_log ([10] ++ lit "You can now work in: " ++ path);;;
            console_log (lit "  cd " ++ path))%js in
  after_creation path true (execs (trace (m w))).
Proof.
  cbn zeta. rewrite bind_console_log.
  destruct (installDependencies_cases path w) as (w' & t & [[E Ht]|[E Ht]]).
  - rewrite (bind_Ret _ _ _ _ _ _ E). simpl_results. rewrite Ht.
    cbn. eauto.
  - rewrite (bind_Exit _ _ _ _ _ _ E). simpl_results. rewrite Ht.
    cbn. eauto.
Qed.

Lemma creation_then_tail branch path createNewBranch (w : W) :
  let m := (createWorktree branch path createNewBranch;;;
            console_log (lit "Worktree created successfully." ++ [10]);;;
            installDependencies path;;;
            console_log ([10] ++ lit "=== Worktree ready! ===");;;
            console_log ([10] ++ lit "You can now work in: " ++ path);;;
            console_log (lit "  cd " ++ path))%js in
  exists ok tail,
    execs (trace (m w))
    = ((if createNewBranch then worktree_add_new_command branch path
        else worktree_add_command branch path), None, ok) :: tail
    /\ after_creation path ok tail.
Proof.
  cbn zeta.
  destruct (createWorktree_cases branch path createNewBranch w)
    as (w' & t & [[E Ht]|(e & E & Ht)]).
  - rewrite (bind_Ret _ _ _ _ _ _ E). simpl_results. rewrite Ht.
    eexists true, _. split; [reflexivity|]. apply main_tail.
  - rewrite (bind_Throw _ _ _ _ _ _ E). simpl_results. rewrite Ht.
    eexists false, _. split; reflexivity.
Qed.

(** From the fetch on: [fetch], the two checks, and then what their
    answers decide. *)
Lemma main_from_fetch_shape branch path (w : W) :
  exists fetched localExists remoteExists cmds,
    execs (trace (main_from_fetch branch path w))
    = (fetch_command, None, fetched)
      :: (show_ref_command (lit "refs/heads/" ++ branch), None, localExists)
      :: (show_ref_command (lit "refs/remotes/origin/" ++ branch), None,
          remoteExists)
      :: cmds
    /\ resolution branch path localExists remoteExists cmds.
Proof.
  unfold main_from_fetch.
  destruct (fetchLatest_cases w) as (fetched & w1 & tf & Ef & Hf).
  rewrite (bind_Ret _ _ _ _ _ _ Ef).
  destruct (branchExists_cases branch local w1) as (localExists & w2 & El).
  rewrite (bind_Ret _ _ _ _ _ _ El).
  destruct (branchExists_cases branch remote w2) as (remoteExists & w3 & Er).
  rewrite (bind_Ret _ _ _ _ _ _ Er). cbn beta.
  exists fetched, localExists, remoteExists.
  simpl_results. rewrite Hf. cbn [app ref_name].
  eexists. split; [reflexivity|].
  unfold resolution.
  destruct localExists; [|destruct remoteExists].
  - rewrite bind_assoc, bind_console_log. simpl_results.
    apply (creation_then_tail branch path false w3).
  - rewrite bind_assoc, bind_console_log. simpl_results.
    rewrite bind_assoc.
    destruct (createTrackingBranch_cases branch w3)
      as (w4 & t & [[Et Ht]|(e' & Et & Ht)]).
    + right. rewrite (bind_Ret _ _ _ _ _ _ Et). simpl_results. rewrite Ht.
      destruct (creation_then_tail branch path false w4)
        as (ok & tail & E' & Htail).
      cbn zeta in E'. cbn [app] in E'. cbn beta. rewrite E'. eauto.
    + left. rewrite (bind_Throw _ _ _ _ _ _ Et). simpl_results. exact Ht.
  - rewrite bind_assoc, bind_console_log. simpl_results.
    apply (creation_then_tail branch path true w3).
Qed.

(** Once the configuration is loaded, the bare repository is there and
    the target path is free, [main] is four lines of output and then
    [main_from_fetch]. *)
Lemma main_reaches_fetch branch rest config root (w : W) :
  out (loadConfig w) = Ret config ->
  field (field config (lit "worktrees")) (lit "root") = VStr root ->
  let path := join [join [META_REPO_ROOT; root]; sanitizeBranchName branch] in
  existsSync BARE_PATH w = true ->
  existsSync path w = false ->
  exists t, execs t = []
            /\ main (branch :: rest) w = after t (main_from_fetch branch path w).
Proof.
  intros Hload Hroot path Hbare Hfree.
  remember (main (branch :: rest) w) as r eqn:R. unfold main in R.
  step_loader R create_loadConfig_loader; try discriminate Hload.
  cbn in Hload. injection Hload as ->.
  rewrite (bind_Ret _ _ _ _ _ _ (member2_field _ _ _ _ w Hroot)) in R.
  rewrite after_nil in R. cbn beta in R.
  unfold path_join at 1 2 in R. cbn [validate_strings] in R.
  unfold bind at 1 in R. cbn [ret after app] in R.
  unfold bind at 1 in R. cbn [ret after app] in R.
  fold path in R.
  do 4 step_console R.
  rewrite bind_fs_existsSync, Hbare in R.
  unfold bind at 1 in R. cbn [negb ret after app] in R.
  rewrite bind_fs_existsSync, Hfree in R.
  unfold bind at 1 in R. cbn [ret after app] in R.
  rewrite !after_after in R. eexists. split; [|exact R]. reflexivity.
Qed.

(** Without assumptions: [main] has run no command, or it has reached
    [main_from_fetch]. *)
Lemma main_stops_or_fetches branch rest (w : W) :
  execs (trace (main (branch :: rest) w)) = []
  \/ exists path t,
       execs t = []
       /\ main (branch :: rest) w = after t (main_from_fetch branch path w).
Proof.
  remember (main (branch :: rest) w) as r eqn:R. unfold main in R.
  step_loader R create_loadConfig_loader;
    [|subst r; simpl_results; auto..].
  step_loader R (loader_member2 x (lit "worktrees") (lit "root"));
    [|subst r; simpl_results; auto..].
  step_loader R (loader_path_join [VStr META_REPO_ROOT; x0]);
    [|subst r; simpl_results; auto..].
  step_loader R (loader_path_join [VStr x1; VStr (sanitizeBranchName branch)]);
    [|subst r; simpl_results; auto..].
  rename x2 into path.
  do 4 step_console R.
  rewrite bind_fs_existsSync in R.
  destruct (existsSync BARE_PATH w).
  2:{ unfold bind at 1 in R. cbn -[lit] in R. subst r. left; reflexivity. }
  unfold bind at 1 in R. cbn [negb ret after app] in R.
  rewrite bind_fs_existsSync in R.
  destruct (existsSync path w).
  { unfold bind at 1 in R. cbn -[lit] in R. subst r. left; reflexivity. }
  unfold bind at 1 in R. cbn [ret after app] in R.
  rewrite !after_after in R. right. exists path. eexists.
  split; [|exact R]. reflexivity.
Qed.

(** C10: the usage error is raised exactly when there is no argument.
    An empty branch name is an argument: it sanitizes to the empty
    string, [path.join] (which skips empty segments and returns a
    normalized path) gives the worktrees root as the target, and it is
    the existence check on that path that decides. *)
Theorem usage_error_iff_no_argument (args : list jsstring) (w : W) :
  (usage_error (main args w) <-> args = [])
  /\ sanitizeBranchName [] = []
  /\ (forall rest config root,
        args = [] :: rest ->
        (forall l, join (l ++ [[]]) = join l) ->
        (forall l, join [join l] = join l) ->
        out (loadConfig w) = Ret config ->
        field (field config (lit "worktrees")) (lit "root") = VStr root ->
        existsSync BARE_PATH w = true ->
        let worktreesRoot := join [META_REPO_ROOT; root] in
        ~ usage_error (main args w)
        /\ join [worktreesRoot; sanitizeBranchName []] = worktreesRoot
        /\ if existsSync worktreesRoot w
           then out (main args w) = Exit 1%Z
                /\ In (ConsoleError (already_exists_line worktreesRoot))
                     (trace (main args w))
                /\ execs (trace (main args w)) = []
           else exists ok cmds,
                  execs (trace (main args w))
                  = (fetch_command, None, ok) :: cmds).
Proof.
  split; [|split; [reflexivity|]].
  - split.
    + destruct args as [|branch rest]; [reflexivity|].
      intros Hu. exfalso. exact (not_usage_error_cons _ _ _ Hu).
    + intros ->. split; reflexivity.
  - intros rest config root -> Hskip Hnorm Hload Hroot Hbare worktreesRoot.
    assert (Hpath : join [worktreesRoot; sanitizeBranchName []] = worktreesRoot).
    { change (join ([worktreesRoot] ++ [[]]) = worktreesRoot).
      rewrite Hskip. apply Hnorm. }
    split; [apply not_usage_error_cons|]. split; [exact Hpath|].
    remember (main ([] :: rest) w) as r eqn:R. unfold main in R.
    step_loader R create_loadConfig_loader; try discriminate Hload.
    cbn in Hload. injection Hload as ->.
    rewrite (bind_Ret _ _ _ _ _ _ (member2_field _ _ _ _ w Hroot)) in R.
    rewrite after_nil in R. cbn beta in R.
    unfold path_join at 1 2 in R. cbn [validate_strings] in R.
    unfold bind at 1 in R. cbn [ret after app] in R.
    unfold bind at 1 in R. cbn [ret after app] in R.
    fold worktreesRoot in R. rewrite Hpath in R.
    do 4 step_console R.
    rewrite bind_fs_existsSync, Hbare in R.
    unfold bind at 1 in R. cbn [negb ret after app] in R.
    rewrite bind_fs_existsSync in R.
    destruct (existsSync worktreesRoot w).
    + unfold bind at 1 in R. cbn -[lit] in R. subst r.
      split; [reflexivity|]. split; [|reflexivity].
      cbn [trace]. do 4 right. left. reflexivity.
    + unfold bind at 1 in R. cbn [ret after app] in R.
      destruct (fetchLatest_cases w) as (fetched & w1 & tf & Ef & Hf).
      rewrite (bind_Ret _ _ _ _ _ _ Ef) in R.
      subst r. simpl_results. rewrite Hf. cbn [app]. eauto.
Qed.

End CreateWorktreeMain.

(** * The configuration loaders *)

Section LoaderValues.
Context {W : Type} `{Host W}.

Lemma assign_member_inv v k x (w : W) v' w' t :
  assign_member v k x w = Result (Ret v') w' t ->
  exists a props,
    v = VObj a props /\ v' = VObj a (<[k := x]> props) /\ w' = w /\ t = [].
Proof.
  destruct v; try discriminate. cbn. intros E. inversion E. eauto 6.
Qed.

Lemma assign_member2_inv v k1 k2 x (w : W) v' w' t :
  assign_member2 v k1 k2 x w = Result (Ret v') w' t ->
  exists a props a' props',
    v = VObj a props /\ field v k1 = VObj a' props'
    /\ v' = VObj a (<[k1 := VObj a' (<[k2 := x]> props')]> props).
Proof.
  unfold assign_member2, bind.
  destruct (member v k1 w) as [[y|e|c] w1 t1] eqn:E1; try discriminate.
  apply member_field in E1 as (-> & Hw1 & ->). subst w1.
  destruct (assign_member (field v k1) k2 x w) as [[y|e|c] w2 t2] eqn:E2;
    try discriminate.
  apply assign_member_inv in E2 as (a' & props' & Ef & -> & Hw2 & ->).
  subst w2. cbn [after app].
  destruct (assign_member v k1 (VObj a' (<[k2:=x]> props')) w)
    as [[y|e|c] w3 t3] eqn:E3; try discriminate.
  apply assign_member_inv in E3 as (a & props & -> & -> & Hw3 & ->).
  cbn. intros E. inversion E. eauto 8.
Qed.

Lemma assign_member_fields v k x (w : W) v' w' t :
  assign_member v k x w = Result (Ret v') w' t ->
  field v' k = x /\ (forall k', k' <> k -> field v' k' = field v k').
Proof.
  intros (a & props & -> & -> & _)%assign_member_inv. cbn [field]. split.
  - rewrite lookup_insert_eq. reflexivity.
  - intros k' Hk. rewrite lookup_insert_ne by congruence. reflexivity.
Qed.

Lemma assign_member2_fields v k1 k2 x (w : W) v' w' t :
  assign_member2 v k1 k2 x w = Result (Ret v') w' t ->
  field (field v' k1) k2 = x
  /\ (forall k, k <> k2 -> field (field v' k1) k = field (field v k1) k)
  /\ (forall k, k <> k1 -> field v' k = field v k).
Proof.
  intros (a & props & a' & props' & -> & Hf & ->)%assign_member2_inv.
  rewrite Hf. cbn [field]. repeat split.
  - rewrite lookup_insert_eq. cbn [default from_option id field].
    rewrite lookup_insert_eq. reflexivity.
  - intros k Hk. rewrite lookup_insert_eq. cbn [default from_option id field].
    rewrite lookup_insert_ne by congruence. reflexivity.
  - intros k Hk. rewrite lookup_insert_ne by congruence. reflexivity.
Qed.

Lemma falsy_field v k : truthy v = false -> field v k = VUndefined.
Proof. destruct v; cbn; try reflexivity; discriminate. Qed.

Lemma lit_codebase_worktrees : lit "codebase" <> lit "worktrees".
Proof. vm_compute. discriminate. Qed.

(** [(worktrees || {root: "worktrees"}).k] *)
Lemma field_default_worktrees wt k :
  field (js_or wt (VObj false {[ lit "root" := VStr (lit "worktrees") ]})) k
  = if truthy wt then field wt k
    else if decide (k = lit "root") then VStr (lit "worktrees")
         else VUndefined.
Proof.
  unfold js_or. destruct (truthy wt); [reflexivity|]. cbn [field].
  destruct (decide (k = lit "root")) as [->|Hk].
  - rewrite lookup_singleton_eq. reflexivity.
  - rewrite lookup_singleton_ne by congruence. reflexivity.
Qed.

(** The six statements that apply the defaults, one after the other. *)
Lemma defaults_sequence parsed db c1 wt c2 root c3 (w : W) :
  member2 parsed (lit "codebase") (lit "defaultBranch") w
  = Result (Ret db) w [] ->
  assign_member2 parsed (lit "codebase") (lit "defaultBranch")
    (js_or db (VStr (lit "main"))) w = Result (Ret c1) w [] ->
  member c1 (lit "worktrees") w = Result (Ret wt) w [] ->
  assign_member c1 (lit "worktrees")
    (js_or wt (VObj false {[ lit "root" := VStr (lit "worktrees") ]})) w
  = Result (Ret c2) w [] ->
  member2 c2 (lit "worktrees") (lit "root") w = Result (Ret root) w [] ->
  assign_member2 c2 (lit "worktrees") (lit "root")
    (js_or root (VStr (lit "worktrees"))) w = Result (Ret c3) w [] ->
  defaults_applied parsed c3.
Proof.
  intros Edb Ec1 Ewt Ec2 Eroot Ec3.
  pose proof lit_codebase_worktrees as Hne.
  apply member2_inv in Edb. subst db.
  apply assign_member2_fields in Ec1 as (Hdb & Hcb & Hc1).
  apply member_field in Ewt as (-> & _ & _).
  apply assign_member_fields in Ec2 as (Hwt & Hc2).
  apply member2_inv in Eroot. subst root.
  apply assign_member2_fields in Ec3 as (Hroot & Hw3 & Hc3).
  rewrite Hwt, (Hc1 (lit "worktrees")) in Hroot by congruence.
  assert (Hwt3 : forall k, k <> lit "root" ->
            field (field c3 (lit "worktrees")) k
            = field (field parsed (lit "worktrees")) k).
  { intros k Hk. rewrite (Hw3 k Hk), Hwt, field_default_worktrees.
    rewrite (Hc1 (lit "worktrees")) by congruence.
    destruct (truthy (field parsed (lit "worktrees"))) eqn:Ht; [reflexivity|].
    rewrite (falsy_field _ _ Ht). destruct (decide (k = lit "root")); congruence. }
  unfold defaults_applied. cbn zeta. repeat split.
  - rewrite (Hc3 (lit "codebase")), (Hc2 (lit "codebase")) by congruence.
    exact Hdb.
  - rewrite Hroot, field_default_worktrees.
    destruct (truthy (field parsed (lit "worktrees"))) eqn:Ht; [reflexivity|].
    rewrite (falsy_field _ _ Ht).
    destruct (decide (lit "root" = lit "root")); [reflexivity|congruence].
  - intros k Hk1 Hk2. rewrite (Hc3 k), (Hc2 k), (Hc1 k) by congruence.
    reflexivity.
  - intros k Hk.
    rewrite (Hc3 (lit "codebase")), (Hc2 (lit "codebase")) by congruence.
    apply Hcb, Hk.
  - exact Hwt3.
Qed.

End LoaderValues.

Section LoaderTheorems.
Context {W : Type} `{Host W}.

Lemma fs_readFileSync_inv p (w : W) content w' t :
  fs_readFileSync p w = Result (Ret content) w' t ->
  readFileSync p w = inl content.
Proof.
  unfold fs_readFileSync. destruct (readFileSync p w); intros E; inversion E.
  reflexivity.
Qed.

Lemma json_parse_inv s (w : W) v w' t :
  json_parse s w = Result (Ret v) w' t -> JSON_parse s = inl v.
Proof.
  unfold json_parse. destruct (JSON_parse s); intros E; inversion E.
  reflexivity.
Qed.

Lemma loader_execs {A} (m : M W A) w :
  loader m -> world (m w) = w /\ execs (trace (m w)) = [].
Proof.
  intros L. destruct (L w) as [Hw Ht]. split; [exact Hw|].
  destruct (out (m w)).
  - rewrite Ht. reflexivity.
  - rewrite Ht. reflexivity.
  - destruct Ht as (_ & s & rest & -> & Hrest). exact Hrest.
Qed.

(** The run ended the process, so it did not return. *)
Ltac not_returned R Hret :=
  unfold bind, console_error, emit, process_exit in R;
  cbn [after app] in R; rewrite R in Hret; discriminate Hret.

Ltac load_steps R Hret :=
  rewrite bind_fs_existsSync in R;
  destruct (existsSync CONFIG_PATH _); cbn [negb] in R;
    [|not_returned R Hret];
  unfold try_catch in R;
  step_loader R (loader_fs_readFileSync CONFIG_PATH);
    [|not_returned R Hret..];
  lazymatch type of R with
  | context [bind (json_parse ?s) _ _] =>
      step_loader R (loader_json_parse s); [|not_returned R Hret..]
  end;
  lazymatch type of R with
  | context [bind (member ?v ?k) _ _] =>
      step_loader R (loader_member v k); [|not_returned R Hret..]
  end;
  lazymatch type of R with
  | context [bind (optional_member ?v ?k) _ _] =>
      step_loader R (loader_optional_member v k); [|not_returned R Hret..]
  end;
  lazymatch type of R with
  | context [if ?c then _ else _] =>
      destruct c eqn:?; [not_returned R Hret|]
  end;
  lazymatch type of R with
  | context [bind (member2 ?v ?k1 ?k2) _ _] =>
      step_loader R (loader_member2 v k1 k2); [|not_returned R Hret..]
  end;
  lazymatch type of R with
  | context [bind (assign_member2 ?v ?k1 ?k2 ?x) _ _] =>
      step_loader R (loader_assign_member2 v k1 k2 x); [|not_returned R Hret..]
  end;
  lazymatch type of R with
  | context [bind (member ?v ?k) _ _] =>
      step_loader R (loader_member v k); [|not_returned R Hret..]
  end;
  lazymatch type of R with
  | context [bind (assign_member ?v ?k ?x) _ _] =>
      step_loader R (loader_assign_member v k x); [|not_returned R Hret..]
  end;
  lazymatch type of R with
  | context [bind (member2 ?v ?k1 ?k2) _ _] =>
      step_loader R (loader_member2 v k1 k2); [|not_returned R Hret..]
  end;
  lazymatch type of R with
  | context [bind (assign_member2 ?v ?k1 ?k2 ?x) _ _] =>
      step_loader R (loader_assign_member2 v k1 k2 x); [|not_returned R Hret..]
  end.

Lemma optional_member_field v k (w : W) x w' t :
  optional_member v k w = Result (Ret x) w' t -> x = field v k.
Proof. destruct v; cbn; intros E; inversion E; reflexivity. Qed.

Lemma bootstrap_loadConfig_returns (w : W) returned :
  out (Bootstrap.loadConfig w) = Ret returned ->
  exists content parsed,
    readFileSync CONFIG_PATH w = inl content
    /\ JSON_parse content = inl parsed
    /\ defaults_applied parsed returned
    /\ exists s, field (field parsed (lit "codebase")) (lit "remote") = VStr s
                 /\ trim s <> [].
Proof.
  intros Hret.
  remember (Bootstrap.loadConfig w) as r eqn:R.
  unfold Bootstrap.loadConfig in R.
  load_steps R Hret.
  cbn in R. subst r. cbn in Hret. injection Hret as <-.
  exists x, x0. split; [eapply fs_readFileSync_inv; eassumption|].
  split; [eapply json_parse_inv; eassumption|].
  split; [eapply defaults_sequence; eassumption|].
  apply member_field in E1 as (-> & _ & _).
  apply optional_member_field in E2. subst x2.
  destruct (field (field x0 (lit "codebase")) (lit "remote"))
    as [| |b|fl|s|arr props];
    cbn [truthy is_string negb orb] in Heqb;
    rewrite ?orb_true_r in Heqb; try discriminate Heqb.
  exists s. split; [reflexivity|].
  rewrite !orb_false_iff in Heqb. destruct Heqb as (_ & Heqb).
  intros Hs. rewrite Hs in Heqb. discriminate.
Qed.

Lemma create_loadConfig_returns (w : W) returned :
  out (CreateWorktree.loadConfig w) = Ret returned ->
  exists content parsed,
    readFileSync CONFIG_PATH w = inl content
    /\ JSON_parse content = inl parsed
    /\ defaults_applied parsed returned
    /\ truthy (field (field parsed (lit "codebase")) (lit "remote")) = true.
Proof.
  intros Hret.
  remember (CreateWorktree.loadConfig w) as r eqn:R.
  unfold CreateWorktree.loadConfig in R.
  load_steps R Hret.
  cbn in R. subst r. cbn in Hret. injection Hret as <-.
  exists x, x0. split; [eapply fs_readFileSync_inv; eassumption|].
  split; [eapply json_parse_inv; eassumption|].
  split; [eapply defaults_sequence; eassumption|].
  apply member_field in E1 as (-> & _ & _).
  apply optional_member_field in E2. subst x2.
  apply negb_false_iff. assumption.
Qed.

(** A [try] whose handler ends the process does not throw. *)
Lemma try_catch_exit_no_throw {A} (m : M W A) h (w : W) :
  (forall e w', exists c, out (h e w') = Exit c) ->
  forall e, out (try_catch m h w) <> Throw e.
Proof.
  intros Hh e. unfold try_catch.
  destruct (m w) as [[a|e'|c] w' t]; try discriminate.
  rewrite out_after. destruct (Hh e' w') as (c & ->). discriminate.
Qed.

Lemma bootstrap_loadConfig_outcome (w : W) :
  (exists config, Bootstrap.loadConfig w = Result (Ret config) w [])
  \/ (exists t, Bootstrap.loadConfig w = Result (Exit 1%Z) w t
                /\ execs t = []).
Proof.
  pose proof (bootstrap_loadConfig_loader w) as [Hw Ht].
  assert (Hno : forall e, out (Bootstrap.loadConfig w) <> Throw e).
  { unfold Bootstrap.loadConfig. rewrite bind_fs_existsSync.
    destruct (existsSync CONFIG_PATH w); cbn [negb].
    - apply try_catch_exit_no_throw. intros e w'. exists 1%Z. reflexivity.
    - discriminate. }
  destruct (Bootstrap.loadConfig w) as [[config|e|c] w' t];
    cbn [out world trace] in *; subst w'.
  - left. subst t. eauto.
  - exfalso. exact (Hno e eq_refl).
  - right. destruct Ht as (-> & s & rest & -> & Hrest). eauto.
Qed.

Lemma create_loadConfig_outcome (w : W) :
  (exists config, CreateWorktree.loadConfig w = Result (Ret config) w [])
  \/ (exists t, CreateWorktree.loadConfig w = Result (Exit 1%Z) w t
                /\ execs t = []).
Proof.
  pose proof (create_loadConfig_loader w) as [Hw Ht].
  assert (Hno : forall e, out (CreateWorktree.loadConfig w) <> Throw e).
  { unfold CreateWorktree.loadConfig. rewrite bind_fs_existsSync.
    destruct (existsSync CONFIG_PATH w); cbn [negb].
    - apply try_catch_exit_no_throw. intros e w'. exists 1%Z. reflexivity.
    - discriminate. }
  destruct (CreateWorktree.loadConfig w) as [[config|e|c] w' t];
    cbn [out world trace] in *; subst w'.
  - left. subst t. eauto.
  - exfalso. exact (Hno e eq_refl).
  - right. destruct Ht as (-> & s & rest & -> & Hrest). eauto.
Qed.

Lemma js_or_absent_or_empty v d : absent_or_empty v -> js_or v d = d.
Proof. intros [->| ->]; reflexivity. Qed.

(** C7: a configuration that loads, in either script, is the parsed one
    with the two defaults applied: [codebase.defaultBranch] is ["main"]
    when it was absent or empty, [worktrees.root] is ["worktrees"] when
    [worktrees] or its [root] was absent or empty, and every other
    property is as it was parsed.  The loader runs no command and leaves
    the machine, the configuration file included, as it was. *)
Theorem loadConfig_applies_defaults (w : W) (returned : value) :
  out (Bootstrap.loadConfig w) = Ret returned
  \/ out (CreateWorktree.loadConfig w) = Ret returned ->
  exists content parsed,
    readFileSync CONFIG_PATH w = inl content
    /\ JSON_parse content = inl parsed
    /\ defaults_applied parsed returned
    /\ (absent_or_empty
          (field (field parsed (lit "codebase")) (lit "defaultBranch")) ->
        field (field returned (lit "codebase")) (lit "defaultBranch")
        = VStr (lit "main"))
    /\ (absent_or_empty (field parsed (lit "worktrees"))
        \/ absent_or_empty
             (field (field parsed (lit "worktrees")) (lit "root")) ->
        field (field returned (lit "worktrees")) (lit "root")
        = VStr (lit "worktrees"))
    /\ world (Bootstrap.loadConfig w) = w
    /\ execs (trace (Bootstrap.loadConfig w)) = []
    /\ world (CreateWorktree.loadConfig w) = w
    /\ execs (trace (CreateWorktree.loadConfig w)) = [].
Proof.
  intros Hret.
  assert (exists content parsed,
             readFileSync CONFIG_PATH w = inl content
             /\ JSON_parse content = inl parsed
             /\ defaults_applied parsed returned)
    as (content & parsed & Hread & Hparse & Hdef).
  { destruct Hret as [Hret|Hret].
    - apply bootstrap_loadConfig_returns in Hret
        as (content & parsed & ? & ? & ? & _). eauto.
    - apply create_loadConfig_returns in Hret
        as (content & parsed & ? & ? & ? & _). eauto. }
  exists content, parsed.
  destruct (loader_execs Bootstrap.loadConfig w bootstrap_loadConfig_loader).
  destruct (loader_execs CreateWorktree.loadConfig w create_loadConfig_loader).
  pose proof Hdef as (Hdb & Hroot & _).
  repeat (split; [assumption|]).
  split; [|split; [|auto]].
  - intros Hv. rewrite Hdb. apply js_or_absent_or_empty, Hv.
  - intros [Hv|Hv]; rewrite Hroot; apply js_or_absent_or_empty.
    + left. destruct Hv as [->| ->]; reflexivity.
    + exact Hv.
Qed.

End LoaderTheorems.

(** * bootstrap.ts: what each function does *)

Section BootstrapFacts.
Context {W : Type} `{Host W}.
Import Bootstrap.

Lemma bootstrap_run_eq command dir (w : W) :
  run command dir w =
  match execSync command {| cwd := dir; stderr_piped := true |} w with
  | (ExecOk stdout, w') => Result (Ret (trim stdout)) w' [Exec command dir true]
  | (ExecFail e, w') =>
      Result (Throw (new_Error
                       (or_string (err_stderr e)
                          (or_string (err_message e) (lit "Command failed")))))
        w' [Exec command dir false]
  end.
Proof.
  unfold run, try_catch, bind, child_execSync.
  destruct (execSync _ _ w) as [[stdout|e] w']; reflexivity.
Qed.

(** A command run through [run]: one [Exec] event, the next machine is
    the one [execSync] gives, and the outcome tells whether the command
    succeeded. *)
Lemma bootstrap_run_cases command dir (w : W) :
  let w' := snd (execSync command {| cwd := dir; stderr_piped := true |} w) in
  (exists stdout, run command dir w
                  = Result (Ret stdout) w' [Exec command dir true])
  \/ (exists e e',
        execSync command {| cwd := dir; stderr_piped := true |} w
        = (ExecFail e', w')
        /\ run command dir w = Result (Throw e) w' [Exec command dir false]).
Proof.
  rewrite bootstrap_run_eq.
  destruct (execSync _ _ w) as [[stdout|e] w']; cbn; eauto.
Qed.

Lemma verify_invalid worktreePath (w : W) :
  linkage_invalid (join [worktreePath; lit ".git"]) w ->
  verifyWorktreePointsToOurBare worktreePath w = Result (Ret false) w [].
Proof.
  intros Hbad. unfold verifyWorktreePointsToOurBare. cbn zeta.
  rewrite bind_fs_existsSync.
  destruct (existsSync (join [worktreePath; lit ".git"]) w) eqn:Hex;
    [|reflexivity].
  cbn [negb]. unfold try_catch, bind, fs_readFileSync.
  destruct Hbad as [Hbad|[(e & Hr)|(raw & Hr & Hbad)]].
  - congruence.
  - rewrite Hr. reflexivity.
  - rewrite Hr. cbn [after app].
    destruct Hbad as [Hp|Hi].
    + rewrite Hp. reflexivity.
    + destruct (startsWith (lit "gitdir:") (trim raw)); [|reflexivity].
      cbn [negb ret]. change (length (lit "gitdir:")) with 7%nat.
      rewrite Hi. reflexivity.
Qed.

(** [enableCorepack], from the answer of [execSync]: it returns in both
    cases, after two warnings when the command failed. *)
Lemma enableCorepack_eq (w : W) :
  let enabled := execSync (lit "corepack enable") piped w in
  enableCorepack w
  = Result (Ret tt) (snd enabled)
      (ConsoleLog (lit "Enabling corepack...")
       :: Exec (lit "corepack enable") None (succeeded (fst enabled))
       :: match fst enabled with
          | ExecOk _ => [ConsoleLog (lit "Corepack enabled.")]
          | ExecFail e => [ConsoleWarn corepack_warning;
                           ConsoleWarn (failure_message e)]
          end).
Proof.
  cbn zeta. unfold enableCorepack, try_catch. rewrite bind_console_log.
  unfold bind. rewrite bootstrap_run_eq. fold piped.
  destruct (execSync (lit "corepack enable") piped w) as [[stdout|e] w'];
    reflexivity.
Qed.

(** [installDependencies], from the answer of [execSync]: it returns
    when the installation succeeded and ends the process with status 1
    when it failed. *)
Lemma installDependencies_eq config root (w : W) :
  field (field config (lit "worktrees")) (lit "root") = VStr root ->
  let dir := join [join [META_REPO_ROOT; root]; lit "main"] in
  let installed :=
    execSync (lit "pnpm install") {| cwd := Some dir; stderr_piped := true |}
      w in
  installDependencies config w
  = Result (match fst installed with
            | ExecOk _ => Ret tt
            | ExecFail _ => Exit 1%Z
            end) (snd installed)
      (ConsoleLog (lit "Installing dependencies in main worktree...")
       :: Exec (lit "pnpm install") (Some dir) (succeeded (fst installed))
       :: match fst installed with
          | ExecOk _ => [ConsoleLog (lit "Dependencies installed successfully.")]
          | ExecFail e =>
              [ConsoleError (lit "Error: Failed to install dependencies.");
               ConsoleError (failure_message e)]
          end).
Proof.
  intros Hroot dir installed.
  remember (installDependencies config w) as r eqn:R.
  unfold installDependencies in R.
  rewrite (bind_Ret _ _ _ _ _ _ (member2_field _ _ _ _ w Hroot)) in R.
  rewrite after_nil in R. cbn beta in R.
  unfold path_join at 1 2 in R. cbn [validate_strings] in R.
  unfold bind at 1 in R. cbn [ret after app] in R.
  unfold bind at 1 in R. cbn [ret after app] in R.
  fold dir in R. rewrite bind_console_log in R.
  unfold try_catch, bind in R. rewrite bootstrap_run_eq in R.
  fold installed in R. subst r.
  destruct installed as [[stdout|e] w']; reflexivity.
Qed.

End BootstrapFacts.

(** ** White space around the content of the linkage file *)

Lemma trimStart_suffix s : exists l, s = l ++ trimStart s.
Proof.
  induction s as [|c s (l & IH)]; [exists []; reflexivity|].
  cbn [trimStart]. destruct (is_js_whitespace c).
  - exists (c :: l). cbn [app]. rewrite <- IH. reflexivity.
  - exists []. reflexivity.
Qed.

Lemma trimStart_unindented s : indented s = false -> trimStart s = s.
Proof. destruct s as [|c s]; cbn; [reflexivity|]. intros ->. reflexivity. Qed.

(** A string that does not begin with white space is its trimmed form
    followed by what [trim] removed at its end. *)
Lemma trim_prefix s : indented s = false -> exists r, s = trim s ++ r.
Proof.
  intros Hs. unfold trim. rewrite (trimStart_unindented s Hs).
  destruct (trimStart_suffix (rev s)) as (l & Hl).
  exists (rev l). rewrite <- rev_app_distr, <- Hl. symmetry. apply rev_involutive.
Qed.

Lemma startsWith_prefix p a b :
  startsWith p a = true -> startsWith p (a ++ b) = true.
Proof.
  revert a. induction p as [|x p IH]; intros [|y a]; cbn; try discriminate;
    [destruct b; reflexivity|reflexivity|].
  intros [Hx Hp]%andb_true_iff. rewrite Hx. cbn. apply IH, Hp.
Qed.

(** Trimming hides no prefix of a string that does not begin with white
    space. *)
Lemma startsWith_trim p s :
  indented s = false -> startsWith p s = false ->
  startsWith p (trim s) = false.
Proof.
  intros Hs Hp. destruct (startsWith p (trim s)) eqn:E; [|reflexivity].
  destruct (trim_prefix s Hs) as (r & Hr).
  rewrite Hr, (startsWith_prefix _ _ r E) in Hp. discriminate.
Qed.

Section BootstrapMain.
Context {W : Type} `{Host W}.
Import Bootstrap.

Lemma fatal_git_after {A} t (r : result W A) :
  Forall is_git (execs t) -> fatal_git r -> fatal_git (after t r).
Proof.
  intros Ht [Ho Hr]. split.
  - rewrite out_after. exact Ho.
  - rewrite trace_after, execs_app. apply Forall_app. split; assumption.
Qed.

Lemma not_git_pnpm : ~ startsWith (lit "git ") (lit "pnpm install") = true.
Proof. vm_compute. discriminate. Qed.

Lemma not_git_corepack :
  ~ startsWith (lit "git ") (lit "corepack enable") = true.
Proof. vm_compute. discriminate. Qed.

Lemma fatal_git_no_install {A} (r : result W A) :
  fatal_git r -> ~ In (lit "pnpm install") (commands (trace r)).
Proof.
  intros [_ Hg] Hin. unfold commands in Hin.
  apply in_map_iff in Hin as (x & Hx & Hin).
  rewrite Forall_forall in Hg. apply list_elem_of_In, Hg in Hin.
  unfold is_git in Hin. rewrite Hx in Hin. exact (not_git_pnpm Hin).
Qed.

(** A run that stopped on an exception or an exit of a loader-like
    computation. *)
Ltac fatal_leaf :=
  repeat (apply fatal_git_after; [repeat constructor|]);
  split; [reflexivity|];
  cbn [trace execs];
  first [constructor
        | match goal with L : execs _ = [] |- _ => rewrite L; constructor end].

(** On an object whose [k1] is an object, [v.k1.k2] is read without
    exception. *)
Lemma member2_of_object v k1 k2 k2' s (w : W) :
  field (field v k1) k2' = VStr s ->
  member2 v k1 k2 w = Result (Ret (field (field v k1) k2)) w [].
Proof.
  intros E. unfold member2, bind.
  destruct v; try discriminate E. cbn [field] in E |- *. cbn [member ret after app].
  destruct (default VUndefined (props !! k1)); try discriminate E.
  reflexivity.
Qed.

Lemma loaded_remote_is_string (w : W) config :
  out (loadConfig w) = Ret config ->
  exists s, field (field config (lit "codebase")) (lit "remote") = VStr s.
Proof.
  intros Hload.
  destruct (bootstrap_loadConfig_returns w config Hload)
    as (content & parsed & _ & _ & Hdef & s & Hs & _).
  destruct Hdef as (_ & _ & _ & Hcb & _).
  rewrite <- (Hcb (lit "remote")) in Hs by (vm_compute; discriminate).
  eauto.
Qed.

(** [main] up to [createWorktree], exactly.  The default branch is
    converted to a string for the third line of output (line 159): when
    that conversion throws, no command has been run.  Otherwise the
    clone is run when the bare repository is absent, and only then. *)
Lemma main_to_createWorktree (w : W) config remote :
  out (loadConfig w) = Ret config ->
  field (field config (lit "codebase")) (lit "remote") = VStr remote ->
  let clone := clone_command remote in
  let answer := execSync clone piped w in
  match to_string (field (field config (lit "codebase")) (lit "defaultBranch")) with
  | inr e => exists t, execs t = [] /\ main w = Result (Throw e) w t
  | inl _ =>
      if existsSync BARE_PATH w then
        exists t0, execs t0 = []
                   /\ main w = after t0 (main_from_createWorktree config w)
      else
        match fst answer with
        | ExecOk _ =>
            exists t0, execs t0 = [(clone, None, true)]
                       /\ main w
                          = after t0 (main_from_createWorktree config (snd answer))
        | ExecFail e =>
            exists t, execs t = [(clone, None, false)]
                      /\ main w
                         = Result (Throw (new_Error (failure_message e)))
                             (snd answer) t
        end
  end.
Proof.
  intros Hload Hs. cbn zeta.
  destruct (bootstrap_loadConfig_outcome w) as [(config' & E)|(t & E & _)];
    rewrite E in Hload; [|discriminate Hload].
  cbn in Hload. injection Hload as ->.
  remember (main w) as r eqn:R. unfold main in R.
  step_console R.
  rewrite (bind_Ret _ _ _ _ _ _ E) in R. rewrite after_nil in R. cbn beta in R.
  step_console R.
  rewrite (bind_Ret _ _ _ _ _ _ (member2_field _ _ _ _ w Hs)) in R.
  rewrite after_nil in R. cbn beta in R.
  rewrite (bind_tpl (VStr remote) remote) in R by reflexivity.
  step_console R.
  rewrite (bind_Ret _ _ _ _ _ _ (member2_of_object _ _ (lit "defaultBranch") _ _ w Hs)) in R.
  rewrite after_nil in R. cbn beta in R.
  destruct (to_string (field (field config (lit "codebase")) (lit "defaultBranch")))
    as [branch|e] eqn:Hb.
  2:{ rewrite (bind_tpl_throw _ e) in R by exact Hb. cbn [after app] in R.
      eexists. split; [|exact R]. reflexivity. }
  rewrite (bind_tpl _ branch) in R by exact Hb.
  step_console R.
  rewrite bind_fs_existsSync in R.
  destruct (existsSync BARE_PATH w); cbn [negb] in R.
  - rewrite bind_console_log in R. rewrite !after_after in R.
    eexists. split; [|exact R]. reflexivity.
  - rewrite bind_assoc in R.
    rewrite (bind_Ret _ _ _ _ _ _ (member2_field _ _ _ _ w Hs)) in R.
    rewrite after_nil in R. cbn beta in R.
    unfold cloneBareRepo in R. rewrite !bind_assoc in R.
    rewrite (bind_tpl (VStr remote) remote) in R by reflexivity.
    rewrite !bind_assoc in R. step_console R.
    cbn beta in R. rewrite !bind_assoc in R.
    rewrite (bind_tpl (VStr remote) remote) in R by reflexivity.
    rewrite !bind_assoc in R.
    unfold bind at 1 in R. rewrite bootstrap_run_eq in R. fold piped in R.
    destruct (execSync (clone_command remote) piped w) as [[stdout|e] w1].
    + cbn [fst snd]. step_console R. rewrite !after_after in R.
      eexists. split; [|exact R]. reflexivity.
    + cbn [fst snd]. cbn [after app] in R. eexists. split; [|exact R].
      reflexivity.
Qed.

Lemma git_clone remote : startsWith (lit "git ") (clone_command remote) = true.
Proof. reflexivity. Qed.

(** [main] up to the call of [createWorktree]: it has failed, or it goes
    on with the loaded configuration on the machine the clone left. *)
Lemma main_prefix (w : W) :
  fatal_git (main w)
  \/ exists config remote t0,
       out (loadConfig w) = Ret config
       /\ field (field config (lit "codebase")) (lit "remote") = VStr remote
       /\ Forall is_git (execs t0)
       /\ main w
          = after t0
              (main_from_createWorktree config
                 (if existsSync BARE_PATH w then w
                  else snd (execSync (clone_command remote) piped w))).
Proof.
  destruct (bootstrap_loadConfig_outcome w) as [(config & E)|(t & E & Ht)].
  2:{ left. unfold main. rewrite bind_console_log.
      rewrite (bind_Exit _ _ _ _ _ _ E).
      apply fatal_git_after; [constructor|]. split; [reflexivity|].
      cbn [trace]. rewrite Ht. constructor. }
  assert (Hload : out (loadConfig w) = Ret config) by (rewrite E; reflexivity).
  destruct (loaded_remote_is_string w config Hload) as (remote & Hs).
  pose proof (main_to_createWorktree w config remote Hload Hs) as Hmain.
  cbn zeta in Hmain.
  destruct (to_string _) as [branch|e].
  2:{ left. destruct Hmain as (t & Ht & ->). split; [reflexivity|].
      cbn [trace]. rewrite Ht. constructor. }
  destruct (existsSync BARE_PATH w).
  - right. destruct Hmain as (t0 & Ht0 & ->). exists config, remote, t0.
    split; [exact Hload|]. split; [exact Hs|]. split; [|reflexivity].
    rewrite Ht0. constructor.
  - revert Hmain.
    destruct (execSync (clone_command remote) piped w) as [[stdout|e] w1]
      eqn:Hx; cbn [fst snd]; intros Hmain.
    + right. destruct Hmain as (t0 & Ht0 & Em). exists config, remote, t0.
      rewrite Hx. cbn [snd].
      split; [exact Hload|]. split; [exact Hs|]. split; [|exact Em].
      rewrite Ht0. repeat constructor.
    + left. destruct Hmain as (t & Ht & ->). split; [reflexivity|].
      cbn [trace]. rewrite Ht. repeat constructor.
Qed.

Lemma git_rev_parse p :
  startsWith (lit "git ") (rev_parse_command p) = true.
Proof. reflexivity. Qed.

Lemma git_worktree_add p b :
  startsWith (lit "git ") (worktree_add_command p b) = true.
Proof. reflexivity. Qed.

(** What [verifyWorktreePointsToOurBare] does after its first test: it
    returns without output. *)
Lemma verify_returns gitFile (w : W) :
  exists ours,
    (if negb (existsSync gitFile w)
     then ret false
     else
       try_catch
         (raw <- fs_readFileSync gitFile;;
          (if negb (startsWith (lit "gitdir:") (trim raw))
           then ret false
           else ret (includes (lit ".bare")
                       (trim (substring_from
                                (length (lit "gitdir:"))
                                (trim raw))))))
         (fun _ => ret false))%js w
    = Result (Ret ours) w [].
Proof.
  destruct (existsSync _ w); cbn [negb]; [|eexists; reflexivity].
  unfold try_catch, bind, fs_readFileSync.
  destruct (readFileSync _ w); [|eexists; reflexivity].
  destruct (startsWith _ _); eexists; reflexivity.
Qed.

(** [createWorktree] runs commands that satisfy [P] only, given that
    the two it can run do; when it returns, [worktrees.root] was a
    string. *)
Lemma createWorktree_runs (P : jsstring * option jsstring * bool -> Prop)
  config (w : W) :
  (forall p ok, P (rev_parse_command p, None, ok)) ->
  (forall p b ok, P (worktree_add_command p b, None, ok)) ->
  exists o w' t,
    createWorktree config w = Result o w' t
    /\ Forall P (execs t)
    /\ match o with
       | Ret _ =>
           exists root,
             field (field config (lit "worktrees")) (lit "root") = VStr root
       | _ => exit_status o = 1%Z
       end.
Proof.
  intros Hrev Hadd.
  remember (createWorktree config w) as r eqn:R. unfold createWorktree in R.
  assert (Hleaf : forall (o : outcome unit) t,
             exit_status o = 1%Z -> execs t = [] ->
             exists o' w' t',
               Result o w t = Result o' w' t'
               /\ Forall P (execs t')
               /\ match o' with
                  | Ret _ =>
                      exists root,
                        field (field config (lit "worktrees")) (lit "root")
                        = VStr root
                  | _ => exit_status o' = 1%Z
                  end).
  { intros o t Ho Ht. exists o, w, t. split; [reflexivity|].
    rewrite Ht. split; [constructor|]. destruct o; [discriminate|exact Ho..]. }
  step_loader R (loader_member2 config (lit "worktrees") (lit "root"));
    [|subst r; apply Hleaf; [reflexivity|first [reflexivity|assumption]]..].
  apply member2_inv in E. subst x.
  step_loader R (loader_path_join
                   [VStr META_REPO_ROOT;
                    field (field config (lit "worktrees")) (lit "root")]);
    [|subst r; apply Hleaf; [reflexivity|first [reflexivity|assumption]]..].
  apply path_join2_inv in E as (root & Hroot & ->).
  unfold path_join at 1 in R. cbn [validate_strings] in R.
  unfold bind at 1 in R. cbn [ret after app] in R.
  set (mainWorktreePath := join [join [META_REPO_ROOT; root]; lit "main"]) in *.
  step_loader R (loader_member2 config (lit "codebase") (lit "defaultBranch"));
    [|subst r; apply Hleaf; [reflexivity|first [reflexivity|assumption]]..].
  rewrite bind_fs_existsSync in R.
  destruct (existsSync mainWorktreePath w).
  - unfold try_catch in R.
    destruct (bootstrap_run_cases (rev_parse_command mainWorktreePath) None w)
      as [(o & Er)|(e & e' & _ & Er)].
    + rewrite (bind_Ret _ _ _ _ _ _ Er) in R.
      unfold verifyWorktreePointsToOurBare in R. cbn zeta in R.
      rewrite bind_assoc, bind_fs_existsSync in R.
      match type of R with
      | context [after _ (bind _ _ ?w1)] => set (w2 := w1) in *
      end.
      destruct (verify_returns (join [mainWorktreePath; lit ".git"]) w2)
        as (ours & Hv).
      rewrite (bind_Ret _ _ _ _ _ _ Hv) in R. rewrite after_nil in R.
      cbn beta in R. destruct ours; cbn [negb] in R.
      * unfold bind, ret, console_log, emit in R. cbn [after app] in R.
        subst r. do 3 eexists. split; [reflexivity|].
        split; [repeat constructor; apply Hrev|eauto].
      * unfold bind, ret, console_error, emit, process_exit in R.
        cbn [after app] in R.
        subst r. do 3 eexists. split; [reflexivity|].
        split; [repeat constructor; apply Hrev|reflexivity].
    + rewrite (bind_Throw _ _ _ _ _ _ Er) in R.
      unfold bind, console_error, emit, process_exit in R.
      cbn [after app] in R.
      subst r. do 3 eexists. split; [reflexivity|].
      split; [repeat constructor; apply Hrev|reflexivity].
  - step_loader R (loader_tpl x);
      [|subst r; apply Hleaf; [reflexivity|first [reflexivity|assumption]]..].
    step_console R.
    step_loader R (loader_tpl x);
      [|subst r; rewrite after_nil; apply Hleaf;
        [reflexivity|first [reflexivity|assumption]]..].
    destruct (bootstrap_run_cases (worktree_add_command mainWorktreePath x1) None w)
      as [(o & Er)|(e & e' & _ & Er)].
    + rewrite (bind_Ret _ _ _ _ _ _ Er) in R.
      unfold console_log, emit in R. cbn [after app] in R.
      subst r. do 3 eexists. split; [reflexivity|].
      split; [repeat constructor; apply Hadd|eauto].
    + rewrite (bind_Throw _ _ _ _ _ _ Er) in R. cbn [after app] in R.
      subst r. do 3 eexists. split; [reflexivity|].
      split; [repeat constructor; apply Hadd|reflexivity].
Qed.

Lemma createWorktree_outcome config (w : W) :
  exists o w' t,
    createWorktree config w = Result o w' t
    /\ Forall is_git (execs t)
    /\ match o with
       | Ret _ =>
           exists root,
             field (field config (lit "worktrees")) (lit "root") = VStr root
       | _ => exit_status o = 1%Z
       end.
Proof.
  apply createWorktree_runs; intros; reflexivity.
Qed.

(** An existing main worktree whose linkage file is not right, if
    [git rev-parse] succeeds there at all: [createWorktree] ends the
    process. *)
Lemma createWorktree_invalid config root (w : W) :
  field (field config (lit "worktrees")) (lit "root") = VStr root ->
  let mainWorktreePath := join [join [META_REPO_ROOT; root]; lit "main"] in
  let checked := execSync (rev_parse_command mainWorktreePath) piped w in
  existsSync mainWorktreePath w = true ->
  (succeeded (fst checked) = true ->
   linkage_invalid (join [mainWorktreePath; lit ".git"]) (snd checked)) ->
  fatal_git (createWorktree config w).
Proof.
  intros Hroot mainWorktreePath checked Hexists Hbad.
  remember (createWorktree config w) as r eqn:R. unfold createWorktree in R.
  rewrite (bind_Ret _ _ _ _ _ _ (member2_field _ _ _ _ w Hroot)) in R.
  rewrite after_nil in R. cbn beta in R.
  unfold path_join at 1 2 in R. cbn [validate_strings] in R.
  unfold bind at 1 in R. cbn [ret after app] in R.
  unfold bind at 1 in R. cbn [ret after app] in R.
  fold mainWorktreePath in R.
  step_loader R (loader_member2 config (lit "codebase") (lit "defaultBranch"));
    [|subst r; fatal_leaf..].
  rewrite bind_fs_existsSync, Hexists in R. unfold try_catch in R.
  unfold bind at 1 in R. rewrite bootstrap_run_eq in R. fold piped in R.
  fold checked in R.
  destruct checked as [[stdout|e] w1]; cbn [fst snd succeeded] in Hbad.
  - rewrite (bind_Ret _ _ _ _ _ _ (verify_invalid _ _ (Hbad eq_refl))) in R.
    rewrite after_nil in R. cbn beta in R. cbn [negb] in R.
    unfold bind, ret, console_error, emit, process_exit in R.
    cbn [after app] in R. subst r.
    split; [reflexivity|repeat constructor].
  - unfold bind, console_error, emit, process_exit in R.
    cbn [after app] in R. subst r.
    split; [reflexivity|repeat constructor].
Qed.

Lemma bind_fatal_git {A B} (m : M W A) (k : A -> M W B) (w : W) :
  fatal_git (m w) -> fatal_git (bind m k w).
Proof.
  intros [Ho Ht]. unfold bind.
  destruct (m w) as [[a|e|c] w' t]; [discriminate Ho|split; assumption..].
Qed.

(** A linkage file that a reader finds broken is one the function
    rejects, on a machine where [git] has accepted no linkage file that
    begins with white space. *)
Lemma broken_is_invalid dir (w : W) :
  git_reads_linkage dir w ->
  let checked := execSync (rev_parse_command dir) piped w in
  linkage_broken (join [dir; lit ".git"]) (snd checked) ->
  succeeded (fst checked) = true ->
  linkage_invalid (join [dir; lit ".git"]) (snd checked).
Proof.
  intros Hgit checked Hbroken Hok. unfold git_reads_linkage in Hgit.
  cbn zeta in Hgit. fold checked in Hgit. specialize (Hgit Hok).
  destruct Hbroken as [Habsent|[Hunreadable|(raw & Hraw & Hbad)]].
  - left. exact Habsent.
  - right. left. exact Hunreadable.
  - right. right. exists raw. split; [exact Hraw|].
    destruct Hbad as [Hprefix|Hpath]; [left|right; exact Hpath].
    apply startsWith_trim; [exact (Hgit raw Hraw)|exact Hprefix].
Qed.

(** C5: the main worktree directory exists when bootstrap looks for it,
    and its linkage file, read after [git rev-parse] ran there, is
    absent, unreadable, does not begin with [gitdir:], or names a path
    without [.bare]: bootstrap ends with status 1 and never runs
    [pnpm install].  The function compares the content of the file with
    [gitdir:] after trimming it, so what [git] takes for a working tree
    matters: it is assumed to accept no linkage file that begins with
    white space ([git_reads_linkage]).  When [git rev-parse] fails the
    run ends with status 1 as well. *)
Theorem invalid_linkage_is_fatal (w : W) (config : value)
  (root remote : jsstring) :
  out (loadConfig w) = Ret config ->
  field (field config (lit "worktrees")) (lit "root") = VStr root ->
  field (field config (lit "codebase")) (lit "remote") = VStr remote ->
  let mainWorktreePath := join [join [META_REPO_ROOT; root]; lit "main"] in
  let cloned :=
    if existsSync BARE_PATH w then w
    else snd (execSync (clone_command remote) piped w) in
  existsSync mainWorktreePath cloned = true ->
  git_reads_linkage mainWorktreePath cloned ->
  linkage_broken (join [mainWorktreePath; lit ".git"])
    (snd (execSync (rev_parse_command mainWorktreePath) piped cloned)) ->
  exit_status (out (main w)) = 1%Z
  /\ ~ In (lit "pnpm install") (commands (trace (main w))).
Proof.
  intros Hload Hroot Hremote mainWorktreePath cloned Hexists Hgit Hbad.
  assert (Hfatal : fatal_git (main w)).
  { destruct (main_prefix w)
      as [Hf|(config' & remote' & t0 & Hload' & Hremote' & Ht0 & ->)];
      [exact Hf|].
    rewrite Hload in Hload'. injection Hload' as <-.
    rewrite Hremote in Hremote'. injection Hremote' as <-. fold cloned.
    apply fatal_git_after; [exact Ht0|]. apply bind_fatal_git.
    apply (createWorktree_invalid config root cloned Hroot Hexists).
    exact (broken_is_invalid mainWorktreePath cloned Hgit Hbad). }
  split; [apply Hfatal|apply fatal_git_no_install, Hfatal].
Qed.

Lemma execs_corepack_lines (r : exec_result) :
  execs match r with
        | ExecOk _ => [ConsoleLog (lit "Corepack enabled.")]
        | ExecFail e => [ConsoleWarn corepack_warning;
                         ConsoleWarn (failure_message e)]
        end = [].
Proof. destruct r; reflexivity. Qed.

(** After [createWorktree]: [corepack enable], then [pnpm install] in
    the main worktree on the machine [corepack enable] left, whose
    success decides the outcome. *)
Lemma main_from_enableCorepack_runs config root (w : W) :
  field (field config (lit "worktrees")) (lit "root") = VStr root ->
  let dir := join [join [META_REPO_ROOT; root]; lit "main"] in
  let enabled := execSync (lit "corepack enable") piped w in
  let installed :=
    execSync (lit "pnpm install") {| cwd := Some dir; stderr_piped := true |}
      (snd enabled) in
  execs (trace (main_from_enableCorepack config w))
  = [(lit "corepack enable", None, succeeded (fst enabled));
     (lit "pnpm install", Some dir, succeeded (fst installed))]
  /\ out (main_from_enableCorepack config w)
     = (if succeeded (fst installed) then Ret tt else Exit 1%Z)
  /\ world (main_from_enableCorepack config w) = snd installed
  /\ (forall e, fst enabled = ExecFail e ->
      In (ConsoleWarn corepack_warning)
        (trace (main_from_enableCorepack config w))
      /\ In (ConsoleWarn (failure_message e))
           (trace (main_from_enableCorepack config w))).
Proof.
  intros Hroot dir enabled installed.
  unfold main_from_enableCorepack.
  rewrite (bind_Ret _ _ _ _ _ _ (enableCorepack_eq w)). cbn beta.
  fold enabled.
  pose proof (installDependencies_eq config root (snd enabled) Hroot) as Ei.
  cbn zeta in Ei. fold dir in Ei. fold installed in Ei.
  destruct (fst installed) as [stdout|e] eqn:Hi; cbn [succeeded] in *.
  - rewrite (bind_Ret _ _ _ _ _ _ Ei). cbn beta.
    rewrite bind_console_log.
    rewrite (bind_Ret _ _ _ _ _ _ (member2_field _ _ _ _ _ Hroot)).
    unfold path_join. cbn [validate_strings].
    unfold bind, ret, console_log, emit. cbn [after app].
    split; [simpl_results; rewrite ?execs_app, execs_corepack_lines;
            reflexivity|].
    split; [simpl_results; reflexivity|].
    split; [simpl_results; reflexivity|].
    intros e He. rewrite He. cbn [trace app].
    split; [right; right; left; reflexivity
           |right; right; right; left; reflexivity].
  - rewrite (bind_Exit _ _ _ _ _ _ Ei).
    split; [simpl_results; rewrite ?execs_app, execs_corepack_lines;
            reflexivity|].
    split; [simpl_results; reflexivity|].
    split; [simpl_results; reflexivity|].
    intros e' He. rewrite He. cbn [trace after app].
    split; [right; right; left; reflexivity
           |right; right; right; left; reflexivity].
Qed.

(** C6: bootstrap has come to [enableCorepack] (the configuration is
    loaded, the clone succeeded if there was one to make, and
    [createWorktree] returned).  Whatever [corepack enable] answers,
    [enableCorepack] returns, after two warnings when the command
    failed, and the next command is [pnpm install] in the main worktree.
    When [pnpm install] fails, [installDependencies] ends the process
    with status 1; when it succeeds bootstrap returns. *)
Theorem corepack_tolerated_install_fatal (w : W) (config : value)
  (root remote : jsstring) :
  out (loadConfig w) = Ret config ->
  field (field config (lit "worktrees")) (lit "root") = VStr root ->
  field (field config (lit "codebase")) (lit "remote") = VStr remote ->
  let dir := join [join [META_REPO_ROOT; root]; lit "main"] in
  let cloned :=
    if existsSync BARE_PATH w then w
    else snd (execSync (clone_command remote) piped w) in
  let made := createWorktree config cloned in
  let enabled := execSync (lit "corepack enable") piped (world made) in
  let installed :=
    execSync (lit "pnpm install") {| cwd := Some dir; stderr_piped := true |}
      (snd enabled) in
  (exists branch,
     to_string (field (field config (lit "codebase")) (lit "defaultBranch"))
     = inl branch) ->
  (existsSync BARE_PATH w = false ->
   succeeded (fst (execSync (clone_command remote) piped w)) = true) ->
  out made = Ret tt ->
  enableCorepack (world made)
  = Result (Ret tt) (snd enabled)
      (ConsoleLog (lit "Enabling corepack...")
       :: Exec (lit "corepack enable") None (succeeded (fst enabled))
       :: match fst enabled with
          | ExecOk _ => [ConsoleLog (lit "Corepack enabled.")]
          | ExecFail e => [ConsoleWarn corepack_warning;
                           ConsoleWarn (failure_message e)]
          end)
  /\ installDependencies config (snd enabled)
     = Result (match fst installed with
               | ExecOk _ => Ret tt
               | ExecFail _ => Exit 1%Z
               end) (snd installed)
         (ConsoleLog (lit "Installing dependencies in main worktree...")
          :: Exec (lit "pnpm install") (Some dir) (succeeded (fst installed))
          :: match fst installed with
             | ExecOk _ =>
                 [ConsoleLog (lit "Dependencies installed successfully.")]
             | ExecFail e =>
                 [ConsoleError (lit "Error: Failed to install dependencies.");
                  ConsoleError (failure_message e)]
             end)
  /\ (exists pre,
        Forall is_git pre
        /\ execs (trace (main w))
           = pre ++ [(lit "corepack enable", None, succeeded (fst enabled));
                     (lit "pnpm install", Some dir, succeeded (fst installed))])
  /\ (forall e, fst enabled = ExecFail e ->
      In (ConsoleWarn corepack_warning) (trace (main w))
      /\ In (ConsoleWarn (failure_message e)) (trace (main w)))
  /\ out (main w) = (if succeeded (fst installed) then Ret tt else Exit 1%Z)
  /\ exit_status (out (main w))
     = (if succeeded (fst installed) then 0%Z else 1%Z)
  /\ world (main w) = snd installed.
Proof.
  intros Hload Hroot Hremote dir cloned made enabled installed
    (branch & Hbranch) Hcloned Hmade.
  split; [exact (enableCorepack_eq (world made))|].
  split; [exact (installDependencies_eq config root (snd enabled) Hroot)|].
  pose proof (main_to_createWorktree w config remote Hload Hremote) as Hmain.
  cbn zeta in Hmain. rewrite Hbranch in Hmain.
  assert (Hgo : exists t0,
             Forall is_git (execs t0)
             /\ main w = after t0 (main_from_createWorktree config cloned)).
  { subst cloned. destruct (existsSync BARE_PATH w).
    - destruct Hmain as (t0 & Ht0 & E). exists t0. rewrite Ht0.
      split; [constructor|exact E].
    - specialize (Hcloned eq_refl).
      destruct (fst (execSync (clone_command remote) piped w));
        [|discriminate Hcloned].
      destruct Hmain as (t0 & Ht0 & E). exists t0. rewrite Ht0.
      split; [repeat constructor|exact E]. }
  destruct Hgo as (t0 & Ht0 & ->).
  destruct (createWorktree_outcome config cloned)
    as (o & w1 & t1 & E1 & Ht1 & _).
  assert (Ho : o = Ret tt).
  { subst made. rewrite E1 in Hmade. exact Hmade. }
  subst o. unfold main_from_createWorktree.
  rewrite (bind_Ret _ _ _ _ _ _ E1). cbn beta.
  assert (Hw1 : world made = w1) by (subst made; rewrite E1; reflexivity).
  destruct (main_from_enableCorepack_runs config root w1 Hroot)
    as (Hex & Hout & Hworld & Hwarn).
  subst enabled installed dir. rewrite Hw1.
  rewrite !out_after, !trace_after, !world_after, !execs_app, Hex, Hout, Hworld.
  split.
  { exists (execs t0 ++ execs t1). split.
    - apply Forall_app. split; assumption.
    - rewrite app_assoc. reflexivity. }
  split.
  { intros e He. destruct (Hwarn e He) as [H1 H2].
    split; apply in_or_app; right; apply in_or_app; right; assumption. }
  split; [reflexivity|]. split; [|reflexivity].
  match goal with |- context [succeeded ?x] => destruct (succeeded x) end;
    reflexivity.
Qed.

End BootstrapMain.

(** * A missing or blank remote *)

Section BlankRemote.
Context {W : Type} `{Host W}.

Lemma trimStart_blank s : blank s = true -> trimStart s = [].
Proof.
  induction s as [|c s IH]; [reflexivity|].
  cbn [blank forallb trimStart]. intros [Hc Hs]%andb_true_iff.
  rewrite Hc. apply IH, Hs.
Qed.

Lemma trim_blank s : blank s = true -> trim s = [].
Proof. intros Hs. unfold trim. rewrite (trimStart_blank s Hs). reflexivity. Qed.

(** bootstrap.ts refuses a configuration whose [codebase.remote] is
    missing, empty or blank, and then runs no command. *)
Lemma bootstrap_rejects_blank_remote (w : W) content parsed :
  readFileSync CONFIG_PATH w = inl content ->
  JSON_parse content = inl parsed ->
  remote_missing_or_blank parsed ->
  out (Bootstrap.loadConfig w) = Exit 1%Z
  /\ execs (trace (Bootstrap.loadConfig w)) = []
  /\ out (Bootstrap.main w) = Exit 1%Z
  /\ execs (trace (Bootstrap.main w)) = [].
Proof.
  intros Hread Hparse Hbad.
  destruct (bootstrap_loadConfig_outcome w) as [(config & E)|(t & E & Ht)].
  - exfalso.
    destruct (bootstrap_loadConfig_returns w config)
      as (content' & parsed' & Hread' & Hparse' & _ & s & Hs & Htrim).
    { rewrite E. reflexivity. }
    rewrite Hread in Hread'. injection Hread' as <-.
    rewrite Hparse in Hparse'. injection Hparse' as <-.
    destruct Hbad as [Hu|(s' & Hs' & Hblank)].
    + rewrite Hu in Hs. discriminate.
    + rewrite Hs' in Hs. injection Hs as ->. exact (Htrim (trim_blank s Hblank)).
  - rewrite E. cbn [out trace]. repeat split; try assumption.
    + unfold Bootstrap.main. rewrite bind_console_log, out_after.
      rewrite (bind_Exit _ _ _ _ _ _ E). reflexivity.
    + unfold Bootstrap.main. rewrite bind_console_log, trace_after.
      rewrite (bind_Exit _ _ _ _ _ _ E). cbn [trace app execs]. exact Ht.
Qed.

(** The create-worktree script refuses a configuration whose
    [codebase.remote] is missing or empty. *)
Lemma create_rejects_missing_remote (w : W) content parsed args :
  readFileSync CONFIG_PATH w = inl content ->
  JSON_parse content = inl parsed ->
  absent_or_empty (field (field parsed (lit "codebase")) (lit "remote")) ->
  out (CreateWorktree.loadConfig w) = Exit 1%Z
  /\ execs (trace (CreateWorktree.loadConfig w)) = []
  /\ out (CreateWorktree.main args w) = Exit 1%Z
  /\ execs (trace (CreateWorktree.main args w)) = [].
Proof.
  intros Hread Hparse Hbad.
  destruct (create_loadConfig_outcome w) as [(config & E)|(t & E & Ht)].
  - exfalso.
    destruct (create_loadConfig_returns w config)
      as (content' & parsed' & Hread' & Hparse' & _ & Htruthy).
    { rewrite E. reflexivity. }
    rewrite Hread in Hread'. injection Hread' as <-.
    rewrite Hparse in Hparse'. injection Hparse' as <-.
    destruct Hbad as [Hu|Hu]; rewrite Hu in Htruthy; discriminate.
  - rewrite E. cbn [out trace]. repeat split; try assumption.
    + destruct args as [|branch rest]; [reflexivity|].
      unfold CreateWorktree.main. rewrite (bind_Exit _ _ _ _ _ _ E). reflexivity.
    + destruct args as [|branch rest]; [reflexivity|].
      unfold CreateWorktree.main. rewrite (bind_Exit _ _ _ _ _ _ E). exact Ht.
Qed.

End BlankRemote.

Module Runs.
Import Fixture Machines.

(** C3 at a remote of three spaces, the bare repository being there:
    the remote is blank and bootstrap.ts's loader ends the process, but
    the create-worktree loader returns, and the script goes on to fetch,
    to create the branch and the worktree, and to install. *)
Theorem create_worktree_accepts_blank_remote :
  let w := Fixture.with_bare "   " in
  remote_missing_or_blank (Fixture.config_value "   ")
  /\ readFileSync CONFIG_PATH w = inl (Fixture.config_text "   ")
  /\ JSON_parse (Fixture.config_text "   ") = inl (Fixture.config_value "   ")
  /\ out (Bootstrap.loadConfig w) = Exit 1%Z
  /\ (exists config, out (CreateWorktree.loadConfig w) = Ret config)
  /\ commands (trace (CreateWorktree.main [lit "x"] w))
     = [CreateWorktree.fetch_command;
        CreateWorktree.show_ref_command (lit "refs/heads/x");
        CreateWorktree.show_ref_command (lit "refs/remotes/origin/x");
        CreateWorktree.worktree_add_command (lit "x") (lit "/repo/worktrees/x");
        lit "pnpm install"]
  /\ exit_status (out (CreateWorktree.main [lit "x"] w)) = 0%Z.
Proof.
  cbn zeta. split.
  { right. exists (lit "   "). split; vm_compute; reflexivity. }
  split; [vm_compute; reflexivity|].
  split; [vm_compute; reflexivity|].
  split; [vm_compute; reflexivity|].
  split; [eexists; vm_compute; reflexivity|].
  split; vm_compute; reflexivity.
Qed.

Lemma guards_precede_fetch_witness :
  (exit_status
     (out (CreateWorktree.main [lit "feature/x"]
             (fresh "git@host:org/repo.git"))) = 1%Z
   /\ execs (trace (CreateWorktree.main [lit "feature/x"]
                      (fresh "git@host:org/repo.git"))) = [])
  /\ (exit_status (out (CreateWorktree.main [lit "feature/x"] taken)) = 1%Z
      /\ execs (trace (CreateWorktree.main [lit "feature/x"] taken)) = []).
Proof.
  split.
  - apply (proj1 (guards_precede_fetch [lit "feature/x"]
                    (fresh "git@host:org/repo.git"))).
    vm_compute. reflexivity.
  - eapply (proj2 (guards_precede_fetch [lit "feature/x"] taken)
              (lit "feature/x") []).
    + reflexivity.
    + vm_compute. reflexivity.
    + vm_compute. reflexivity.
    + vm_compute. reflexivity.
Defined.

Lemma join_segments_skip l : join_segments (l ++ [[]]) = join_segments l.
Proof.
  unfold join_segments. rewrite filter_app. cbn. rewrite app_nil_r. reflexivity.
Qed.

Lemma intercalate_nonempty sep s l :
  s <> [] -> intercalate sep (s :: l) <> [].
Proof.
  intros Hs. destruct l; cbn; [exact Hs|].
  destruct s; [contradiction|discriminate].
Qed.

Lemma join_segments_nonempty l : join_segments l <> [].
Proof.
  unfold join_segments.
  destruct (filter (fun s => negb (jsstring_eqb s [])) l) as [|s l'] eqn:E.
  - vm_compute. discriminate.
  - apply intercalate_nonempty. intros ->.
    assert (Hin : [] ∈ filter (fun s : jsstring => negb (jsstring_eqb s [])) l)
      by (rewrite E; left).
    apply list_elem_of_filter in Hin as [Hin _]. cbn in Hin. exact Hin.
Qed.

Lemma join_segments_norm l : join_segments [join_segments l] = join_segments l.
Proof.
  pose proof (join_segments_nonempty l) as Hne.
  unfold join_segments at 1.
  destruct (join_segments l) as [|c s]; [contradiction|]. reflexivity.
Qed.

Lemma usage_error_iff_no_argument_witness :
  ~ usage_error (CreateWorktree.main [[]] (with_bare "git@host:org/repo.git"))
  /\ join [lit "/repo/worktrees"; sanitizeBranchName []] = lit "/repo/worktrees"
  /\ exists ok cmds,
       execs (trace (CreateWorktree.main [[]]
                       (with_bare "git@host:org/repo.git")))
       = (CreateWorktree.fetch_command, None, ok) :: cmds.
Proof.
  destruct (usage_error_iff_no_argument [[]] (with_bare "git@host:org/repo.git"))
    as (_ & _ & Hu).
  eapply (Hu [] _ (lit "worktrees")).
  - reflexivity.
  - apply join_segments_skip.
  - apply join_segments_norm.
  - vm_compute. reflexivity.
  - vm_compute. reflexivity.
  - vm_compute. reflexivity.
Defined.

Lemma loadConfig_applies_defaults_witness :
  exists returned content parsed,
    out (Bootstrap.loadConfig (fresh "git@host:org/repo.git")) = Ret returned
    /\ readFileSync CONFIG_PATH (fresh "git@host:org/repo.git") = inl content
    /\ JSON_parse content = inl parsed
    /\ defaults_applied parsed returned.
Proof.
  assert (exists returned,
             out (Bootstrap.loadConfig (fresh "git@host:org/repo.git"))
             = Ret returned) as (returned & Hret)
    by (eexists; vm_compute; reflexivity).
  destruct (loadConfig_applies_defaults (fresh "git@host:org/repo.git")
              returned (or_introl Hret))
    as (content & parsed & Hread & Hparse & Hdef & _).
  exists returned, content, parsed. auto.
Defined.

Lemma invalid_linkage_is_fatal_witness :
  (exit_status (out (Bootstrap.main (bootstrapped elsewhere []))) = 1%Z
   /\ ~ In (lit "pnpm install")
          (commands (trace (Bootstrap.main (bootstrapped elsewhere [])))))
  /\ (exit_status (out (Bootstrap.main unlinked)) = 1%Z
      /\ ~ In (lit "pnpm install")
             (commands (trace (Bootstrap.main unlinked)))).
Proof.
  split.
  - eapply (invalid_linkage_is_fatal (bootstrapped elsewhere []) _
              (lit "worktrees") (lit "git@host:org/repo.git")).
    + vm_compute. reflexivity.
    + vm_compute. reflexivity.
    + vm_compute. reflexivity.
    + vm_compute. reflexivity.
    + unfold git_reads_linkage. intros _ raw Hraw.
      vm_compute in Hraw. injection Hraw as <-. reflexivity.
    + right. right. exists elsewhere. split; [vm_compute; reflexivity|].
      right. vm_compute. reflexivity.
  - eapply (invalid_linkage_is_fatal unlinked _
              (lit "worktrees") (lit "git@host:org/repo.git")).
    + vm_compute. reflexivity.
    + vm_compute. reflexivity.
    + vm_compute. reflexivity.
    + vm_compute. reflexivity.
    + unfold git_reads_linkage. intros _ raw Hraw.
      vm_compute in Hraw. discriminate Hraw.
    + left. vm_compute. reflexivity.
Defined.

(** Two runs of bootstrap on a complete setup: [corepack enable] fails
    and the installation succeeds; then both fail. *)
Lemma corepack_tolerated_install_fatal_witness :
  let tolerated := bootstrapped linkage [lit "corepack enable"] in
  let fatal := bootstrapped linkage [lit "corepack enable"; lit "pnpm install"] in
  (In (ConsoleWarn corepack_warning) (trace (Bootstrap.main tolerated))
   /\ out (Bootstrap.main tolerated) = Ret tt
   /\ exit_status (out (Bootstrap.main tolerated)) = 0%Z)
  /\ (In (ConsoleWarn corepack_warning) (trace (Bootstrap.main fatal))
      /\ out (Bootstrap.main fatal) = Exit 1%Z
      /\ exit_status (out (Bootstrap.main fatal)) = 1%Z).
Proof.
  cbn zeta. split.
  - destruct (corepack_tolerated_install_fatal
                (bootstrapped linkage [lit "corepack enable"]) usual
                (lit "worktrees") (lit "git@host:org/repo.git"))
      as (_ & _ & _ & Hwarn & Hout & Hstatus & _).
    + vm_compute. reflexivity.
    + vm_compute. reflexivity.
    + vm_compute. reflexivity.
    + exists (lit "main"). vm_compute. reflexivity.
    + vm_compute. discriminate.
    + vm_compute. reflexivity.
    + split; [|split].
      * match type of Hwarn with
        | forall e, ?x = ExecFail e -> _ =>
            assert (He : exists e, x = ExecFail e)
              by (eexists; vm_compute; reflexivity)
        end.
        destruct He as (e & He). exact (proj1 (Hwarn e He)).
      * rewrite Hout. vm_compute. reflexivity.
      * rewrite Hstatus. vm_compute. reflexivity.
  - destruct (corepack_tolerated_install_fatal
                (bootstrapped linkage
                   [lit "corepack enable"; lit "pnpm install"]) usual
                (lit "worktrees") (lit "git@host:org/repo.git"))
      as (_ & _ & _ & Hwarn & Hout & Hstatus & _).
    + vm_compute. reflexivity.
    + vm_compute. reflexivity.
    + vm_compute. reflexivity.
    + exists (lit "main"). vm_compute. reflexivity.
    + vm_compute. discriminate.
    + vm_compute. reflexivity.
    + split; [|split].
      * match type of Hwarn with
        | forall e, ?x = ExecFail e -> _ =>
            assert (He : exists e, x = ExecFail e)
              by (eexists; vm_compute; reflexivity)
        end.
        destruct He as (e & He). exact (proj1 (Hwarn e He)).
      * rewrite Hout. vm_compute. reflexivity.
      * rewrite Hstatus. vm_compute. reflexivity.
Defined.

(** The three cases of the branch resolution, run on command texts:
    the first check succeeds; the second only; none. *)
Example resolution_local_branch :
  commands (trace (CreateWorktree.main [lit "feature/my-feature"]
                     (with_failing [])))
  = [CreateWorktree.fetch_command;
     CreateWorktree.show_ref_command (lit "refs/heads/feature/my-feature");
     CreateWorktree.show_ref_command
       (lit "refs/remotes/origin/feature/my-feature");
     CreateWorktree.worktree_add_command (lit "feature/my-feature")
       (lit "/repo/worktrees/feature__my-feature");
     lit "pnpm install"].
Proof. vm_compute. reflexivity. Qed.

Example resolution_remote_branch :
  commands
    (trace (CreateWorktree.main [lit "feature/my-feature"]
              (with_failing
                 [CreateWorktree.show_ref_command
                    (lit "refs/heads/feature/my-feature")])))
  = [CreateWorktree.fetch_command;
     CreateWorktree.show_ref_command (lit "refs/heads/feature/my-feature");
     CreateWorktree.show_ref_command
       (lit "refs/remotes/origin/feature/my-feature");
     CreateWorktree.tracking_branch_command (lit "feature/my-feature");
     CreateWorktree.worktree_add_command (lit "feature/my-feature")
       (lit "/repo/worktrees/feature__my-feature");
     lit "pnpm install"].
Proof. vm_compute. reflexivity. Qed.

Example resolution_new_branch :
  commands
    (trace (CreateWorktree.main [lit "bug#123"]
              (with_failing
                 [CreateWorktree.show_ref_command (lit "refs/heads/bug#123");
                  CreateWorktree.show_ref_command
                    (lit "refs/remotes/origin/bug#123")])))
  = [CreateWorktree.fetch_command;
     CreateWorktree.show_ref_command (lit "refs/heads/bug#123");
     CreateWorktree.show_ref_command (lit "refs/remotes/origin/bug#123");
     CreateWorktree.worktree_add_new_command (lit "bug#123")
       (lit "/repo/worktrees/bug_123");
     lit "pnpm install"].
Proof. vm_compute. reflexivity. Qed.

End Runs.

(** * A branch name the shell rewrites *)

Module ShellRuns.
Import Shell.

(** C1 at the branch [a$b], which the bare repository holds: the
    commands carry the name inside double quotes, where the shell still
    expands [$b], to nothing.  Both checks are made on [a] and fail, and
    the script runs [worktree add -b], which creates a new branch [a] and
    a worktree for it; the local branch [a$b] that exists is not the one
    the worktree is attached to. *)
Theorem dollar_branch_is_not_resolved :
  let w := repository in
  let r := CreateWorktree.main [lit "a$b"] w in
  In (lit "refs/heads/a$b") (refs w)
  /\ words (variables w) Between
       (CreateWorktree.show_ref_command (lit "refs/heads/a$b"))
     = Some [lit "git"; lit "--git-dir"; lit "/repo/.bare"; lit "show-ref";
             lit "--verify"; lit "--quiet"; lit "refs/heads/a"]
  /\ words (variables w) Between
       (CreateWorktree.worktree_add_new_command (lit "a$b")
          (lit "/repo/worktrees/a_b"))
     = Some [lit "git"; lit "--git-dir"; lit "/repo/.bare"; lit "worktree";
             lit "add"; lit "-b"; lit "a"; lit "/repo/worktrees/a_b"]
  /\ execs (trace r)
     = [(CreateWorktree.fetch_command, None, true);
        (CreateWorktree.show_ref_command (lit "refs/heads/a$b"), None, false);
        (CreateWorktree.show_ref_command (lit "refs/remotes/origin/a$b"),
         None, false);
        (CreateWorktree.worktree_add_new_command (lit "a$b")
           (lit "/repo/worktrees/a_b"), None, true);
        (lit "pnpm install", Some (lit "/repo/worktrees/a_b"), true)]
  /\ exit_status (out r) = 0%Z
  /\ refs (world r)
     = [lit "refs/heads/main"; lit "refs/heads/a$b"; lit "refs/heads/a"]
  /\ worktrees (world r) = [(lit "/repo/worktrees/a_b", lit "a")].
Proof.
  cbn zeta.
  split; [right; left; reflexivity|].
  split; [vm_compute; reflexivity|].
  split; [vm_compute; reflexivity|].
  split; [vm_compute; reflexivity|].
  split; [vm_compute; reflexivity|].
  split; vm_compute; reflexivity.
Qed.

End ShellRuns.

(** * Further properties of the sanitizer *)

Lemma sanitize_length (b : jsstring) :
  length (sanitizeBranchName b)
  = (length b + length (List.filter is_slash b))%nat.
Proof.
  induction b as [|c b IH]; [reflexivity|].
  rewrite sanitize_cons, length_app, IH. unfold sanitize_unit.
  cbn [List.filter]. unfold is_slash at 2.
  destruct (c =? 47); [|destruct (safe_char c)]; cbn [length];
    rewrite ?Nat.add_succ_r; reflexivity.
Qed.

Lemma sanitize_changes_unsafe (b : jsstring) :
  forallb safe_char b = false -> sanitizeBranchName b <> b.
Proof.
  intros Hb Heq. pose proof (sanitize_all_safe b) as Hs.
  rewrite Heq in Hs. congruence.
Qed.

(** X1: sanitizing lengthens a name by one code unit for each slash in
    it, and by nothing else. *)
Theorem sanitizeBranchName_length (b : jsstring) :
  length (sanitizeBranchName b)
  = (length b + length (List.filter is_slash b))%nat.
Proof. apply sanitize_length. Qed.

(** X2: only the empty name sanitizes to the empty name. *)
Theorem sanitizeBranchName_empty_iff (b : jsstring) :
  sanitizeBranchName b = [] <-> b = [].
Proof.
  split; [|intros ->; reflexivity].
  intros Hs. apply (f_equal length) in Hs. rewrite sanitize_length in Hs.
  destruct b; [reflexivity|discriminate Hs].
Qed.

(** X3: the sanitizer works piece by piece: the name of [a ++ b] is the
    name of [a] followed by the name of [b]. *)
Theorem sanitizeBranchName_app (a b : jsstring) :
  sanitizeBranchName (a ++ b) = sanitizeBranchName a ++ sanitizeBranchName b.
Proof. apply sanitize_app. Qed.

(** X4: a branch name with a code unit outside [A-Za-z0-9._-] collides:
    its sanitized form is another branch name, and both get the same
    directory name. *)
Theorem sanitizeBranchName_collides (b : jsstring) :
  forallb safe_char b = false ->
  sanitizeBranchName b <> b
  /\ sanitizeBranchName (sanitizeBranchName b) = sanitizeBranchName b.
Proof.
  intros Hb. split; [apply sanitize_changes_unsafe, Hb|].
  apply sanitize_fixes_safe, sanitize_all_safe.
Qed.

Lemma sanitizeBranchName_collides_witness :
  sanitizeBranchName (lit "feature/x") <> lit "feature/x"
  /\ sanitizeBranchName (sanitizeBranchName (lit "feature/x"))
     = sanitizeBranchName (lit "feature/x").
Proof. apply (sanitizeBranchName_collides (lit "feature/x")). reflexivity. Defined.

(** * Further properties of the command runners *)

Section Runners.
Context {W : Type} `{Host W}.

Lemma or_string_nonempty a b : b <> [] -> or_string a b <> [].
Proof. intros Hb. destruct a as [[|c s]|]; cbn; [exact Hb|discriminate|exact Hb]. Qed.

Lemma failure_message_nonempty e : failure_message e <> [].
Proof.
  unfold failure_message. apply or_string_nonempty, or_string_nonempty.
  vm_compute. discriminate.
Qed.

(** X5: [run], in both scripts, executes its command once; it returns
    the trimmed standard output of a command that succeeded, and for a
    command that failed it throws an error whose message is never empty:
    the standard error, else the message of the failure, else
    ["Command failed"].  bootstrap.ts's [run] is the create-worktree one
    with [silent]. *)
Theorem run_contract (command : jsstring) (dir : option jsstring)
  (silent : bool) (w : W) :
  match execSync command (stdio dir silent) w with
  | (ExecOk stdout, w') =>
      CreateWorktree.run command dir silent w
      = Result (Ret (trim stdout)) w' [Exec command dir true]
  | (ExecFail e, w') =>
      CreateWorktree.run command dir silent w
      = Result (Throw (new_Error (failure_message e))) w'
          [Exec command dir false]
      /\ failure_message e <> []
      /\ (forall c s, err_stderr e = Some (c :: s) ->
          failure_message e = c :: s)
  end
  /\ Bootstrap.run command dir w = CreateWorktree.run command dir true w.
Proof.
  split; [|reflexivity].
  rewrite run_eq. unfold stdio.
  destruct (execSync _ _ w) as [[stdout|e] w']; [reflexivity|].
  split; [reflexivity|]. split; [apply failure_message_nonempty|].
  intros c s Hs. unfold failure_message. rewrite Hs. reflexivity.
Qed.

End Runners.

(** * Further properties of the create-worktree helpers *)

Section CreateWorktreeHelpers.
Context {W : Type} `{Host W}.
Import CreateWorktree.

(** X6: [fetchLatest] always returns: it runs [fetch --all --prune] on
    the bare repository once, and a failed fetch only adds two warnings,
    the second being the message of the failure. *)
Theorem fetchLatest_never_fails (w : W) :
  match execSync fetch_command (stdio None false) w with
  | (ExecOk _, w') =>
      fetchLatest w
      = Result (Ret tt) w'
          [ConsoleLog (lit "Fetching latest from remote...");
           Exec fetch_command None true;
           ConsoleLog (lit "Fetch complete.")]
  | (ExecFail e, w') =>
      fetchLatest w
      = Result (Ret tt) w'
          [ConsoleLog (lit "Fetching latest from remote...");
           Exec fetch_command None false;
           ConsoleWarn (lit "Warning: Failed to fetch from remote. Continuing with local state.");
           ConsoleWarn (failure_message e)]
  end.
Proof.
  unfold fetchLatest, try_catch. rewrite bind_console_log. unfold bind.
  rewrite run_eq. unfold stdio.
  destruct (execSync _ _ w) as [[stdout|e] w']; reflexivity.
Qed.

(** X7: [branchExists] never throws: it runs one [show-ref --verify]
    on [refs/heads/<branch>] or [refs/remotes/origin/<branch>], with the
    standard error piped, and returns whether that command succeeded. *)
Theorem branchExists_reflects_show_ref (branch : jsstring) (type : ref_type)
  (w : W) :
  let ref := match type with
             | local => lit "refs/heads/" ++ branch
             | remote => lit "refs/remotes/origin/" ++ branch
             end in
  let answer := execSync (show_ref_command ref) (stdio None true) w in
  branchExists branch type w
  = Result (Ret (succeeded (fst answer))) (snd answer)
      [Exec (show_ref_command ref) None (succeeded (fst answer))].
Proof.
  cbn zeta. unfold branchExists, try_catch, bind. rewrite run_eq.
  unfold stdio, ref_name.
  destruct type; destruct (execSync _ _ w) as [[stdout|e] w']; reflexivity.
Qed.

(** X8: [createTrackingBranch] and [createWorktree] do not catch: each
    runs its one command, and returns when it succeeded and throws the
    failure otherwise.  [createWorktree] passes [-b] exactly when asked
    for a new branch. *)
Theorem creation_commands_throw (branch worktreePath : jsstring)
  (createNewBranch : bool) (w : W) :
  (let command := tracking_branch_command branch in
   let answer := execSync command (stdio None false) w in
   execs (trace (createTrackingBranch branch w))
   = [(command, None, succeeded (fst answer))]
   /\ world (createTrackingBranch branch w) = snd answer
   /\ out (createTrackingBranch branch w)
      = match fst answer with
        | ExecOk _ => Ret tt
        | ExecFail e => Throw (new_Error (failure_message e))
        end)
  /\ (let command := if createNewBranch
                     then worktree_add_new_command branch worktreePath
                     else worktree_add_command branch worktreePath in
      let answer := execSync command (stdio None false) w in
      execs (trace (createWorktree branch worktreePath createNewBranch w))
      = [(command, None, succeeded (fst answer))]
      /\ world (createWorktree branch worktreePath createNewBranch w)
         = snd answer
      /\ out (createWorktree branch worktreePath createNewBranch w)
         = match fst answer with
           | ExecOk _ => Ret tt
           | ExecFail e => Throw (new_Error (failure_message e))
           end).
Proof.
  cbn zeta. split.
  - unfold createTrackingBranch. rewrite bind_console_log. unfold bind.
    rewrite run_eq. unfold stdio.
    destruct (execSync _ _ w) as [[stdout|e] w']; repeat split.
  - unfold createWorktree. destruct createNewBranch;
      rewrite bind_console_log; unfold bind; rewrite run_eq; unfold stdio;
      destruct (execSync _ _ w) as [[stdout|e] w']; repeat split.
Qed.

(** X9: [installDependencies] of create-worktree runs [pnpm install] in
    the worktree directory once; it returns when that succeeded and ends
    the process with status 1, after two error lines, when it failed. *)
Theorem create_installDependencies_contract (worktreePath : jsstring) (w : W) :
  match execSync (lit "pnpm install") (stdio (Some worktreePath) false) w with
  | (ExecOk _, w') =>
      installDependencies worktreePath w
      = Result (Ret tt) w'
          [ConsoleLog (lit "Installing dependencies...");
           Exec (lit "pnpm install") (Some worktreePath) true;
           ConsoleLog (lit "Dependencies installed successfully.")]
  | (ExecFail e, w') =>
      installDependencies worktreePath w
      = Result (Exit 1%Z) w'
          [ConsoleLog (lit "Installing dependencies...");
           Exec (lit "pnpm install") (Some worktreePath) false;
           ConsoleError (lit "Error: Failed to install dependencies.");
           ConsoleError (failure_message e)]
  end.
Proof.
  unfold installDependencies, try_catch, bind, console_log, console_error,
    emit, process_exit.
  rewrite run_eq. unfold stdio.
  destruct (execSync _ _ w) as [[stdout|e] w']; reflexivity.
Qed.

End CreateWorktreeHelpers.

(** * Further properties of the bootstrap helpers *)

Section BootstrapHelpers.
Context {W : Type} `{Host W}.
Import Bootstrap.

Lemma classic_linkage worktreePath (w : W) :
  linkage_invalid (join [worktreePath; lit ".git"]) w
  \/ (verifyWorktreePointsToOurBare worktreePath w = Result (Ret true) w []
      /\ ~ linkage_invalid (join [worktreePath; lit ".git"]) w).
Proof.
  unfold linkage_invalid, verifyWorktreePointsToOurBare. cbn zeta.
  rewrite bind_fs_existsSync.
  destruct (existsSync (join [worktreePath; lit ".git"]) w) eqn:Hex;
    [|left; left; reflexivity].
  cbn [negb]. unfold try_catch, bind, fs_readFileSync.
  destruct (readFileSync (join [worktreePath; lit ".git"]) w) as [raw|e] eqn:Hr;
    [|left; right; left; eauto].
  cbn [after app].
  destruct (startsWith (lit "gitdir:") (trim raw)) eqn:Hp;
    [|left; right; right; exists raw; auto].
  cbn [negb ret]. change (length (lit "gitdir:")) with 7%nat.
  destruct (includes (lit ".bare") (trim (substring_from 7 (trim raw)))) eqn:Hi;
    [|left; right; right; exists raw; auto].
  right. split; [reflexivity|].
  intros [Hbad|[(e & Hbad)|(raw' & Hraw & [Hbad|Hbad])]]; congruence.
Qed.

(** X10: [verifyWorktreePointsToOurBare] never throws, runs no command
    and prints nothing; it answers [false] exactly when the linkage file
    is absent, unreadable, or its trimmed content does not start with
    [gitdir:] or does not mention [.bare] after it. *)
Theorem verifyWorktreePointsToOurBare_decides (worktreePath : jsstring)
  (w : W) :
  exists ours,
    verifyWorktreePointsToOurBare worktreePath w = Result (Ret ours) w []
    /\ (ours = false
        <-> linkage_invalid (join [worktreePath; lit ".git"]) w).
Proof.
  destruct (classic_linkage worktreePath w) as [Hbad|Hgood].
  - exists false. split; [apply verify_invalid, Hbad|tauto].
  - exists true. split; [exact (proj1 Hgood)|].
    split; [discriminate|]. intros Hbad. exfalso. exact (proj2 Hgood Hbad).
Qed.

End BootstrapHelpers.

(** * Further properties of the configuration loaders *)

(** Stepping through a loader that is known to return. *)
Ltac did_not_return R Hret :=
  unfold bind, console_error, emit, process_exit in R;
  cbn [after app] in R; rewrite R in Hret; discriminate Hret.

Ltac through_loader R Hret :=
  rewrite bind_fs_existsSync in R;
  destruct (existsSync CONFIG_PATH _); cbn [negb] in R;
    [|did_not_return R Hret];
  unfold try_catch in R;
  step_loader R (loader_fs_readFileSync CONFIG_PATH);
    [|did_not_return R Hret..];
  lazymatch type of R with
  | context [bind (json_parse ?s) _ _] =>
      step_loader R (loader_json_parse s); [|did_not_return R Hret..]
  end;
  lazymatch type of R with
  | context [bind (member ?v ?k) _ _] =>
      step_loader R (loader_member v k); [|did_not_return R Hret..]
  end;
  lazymatch type of R with
  | context [bind (optional_member ?v ?k) _ _] =>
      step_loader R (loader_optional_member v k); [|did_not_return R Hret..]
  end;
  lazymatch type of R with
  | context [if ?c then _ else _] =>
      destruct c eqn:?; [did_not_return R Hret|]
  end;
  lazymatch type of R with
  | context [bind (member2 ?v ?k1 ?k2) _ _] =>
      step_loader R (loader_member2 v k1 k2); [|did_not_return R Hret..]
  end;
  lazymatch type of R with
  | context [bind (assign_member2 ?v ?k1 ?k2 ?x) _ _] =>
      step_loader R (loader_assign_member2 v k1 k2 x); [|did_not_return R Hret..]
  end;
  lazymatch type of R with
  | context [bind (member ?v ?k) _ _] =>
      step_loader R (loader_member v k); [|did_not_return R Hret..]
  end;
  lazymatch type of R with
  | context [bind (assign_member ?v ?k ?x) _ _] =>
      step_loader R (loader_assign_member v k x); [|did_not_return R Hret..]
  end;
  lazymatch type of R with
  | context [bind (member2 ?v ?k1 ?k2) _ _] =>
      step_loader R (loader_member2 v k1 k2); [|did_not_return R Hret..]
  end;
  lazymatch type of R with
  | context [bind (assign_member2 ?v ?k1 ?k2 ?x) _ _] =>
      step_loader R (loader_assign_member2 v k1 k2 x); [|did_not_return R Hret..]
  end.


Section LoaderProperties.
Context {W : Type} `{Host W}.

Lemma loader_never_throwing {A} (m : M W A) (w : W) :
  loader m -> (forall e, out (m w) <> Throw e) ->
  (exists a, m w = Result (Ret a) w [])
  \/ (exists s rest,
        m w = Result (Exit 1%Z) w (ConsoleError (lit "Error: " ++ s) :: rest)
        /\ execs rest = []).
Proof.
  intros L Hno. destruct (L w) as [Hw Ht].
  destruct (m w) as [[a|e|c] w' t]; cbn [out world trace] in *; subst w'.
  - left. subst t. eauto.
  - exfalso. exact (Hno e eq_refl).
  - right. destruct Ht as (-> & s & rest & -> & Hrest). eauto.
Qed.

Lemma bootstrap_loadConfig_no_throw (w : W) e :
  out (Bootstrap.loadConfig w) <> Throw e.
Proof.
  unfold Bootstrap.loadConfig. rewrite bind_fs_existsSync.
  destruct (existsSync CONFIG_PATH w); cbn [negb].
  - apply try_catch_exit_no_throw. intros e' w'. exists 1%Z. reflexivity.
  - discriminate.
Qed.

Lemma create_loadConfig_no_throw (w : W) e :
  out (CreateWorktree.loadConfig w) <> Throw e.
Proof.
  unfold CreateWorktree.loadConfig. rewrite bind_fs_existsSync.
  destruct (existsSync CONFIG_PATH w); cbn [negb].
  - apply try_catch_exit_no_throw. intros e' w'. exists 1%Z. reflexivity.
  - discriminate.
Qed.

(** X11: neither loader lets an exception out.  Each returns, printing
    nothing, or ends the process with status 1 after a line that starts
    with [Error: ]; either way the machine is as it was and no command
    was run. *)
Theorem loadConfig_returns_or_exits (w : W) :
  ((exists config, Bootstrap.loadConfig w = Result (Ret config) w [])
   \/ (exists s rest,
         Bootstrap.loadConfig w
         = Result (Exit 1%Z) w (ConsoleError (lit "Error: " ++ s) :: rest)
         /\ execs rest = []))
  /\ ((exists config, CreateWorktree.loadConfig w = Result (Ret config) w [])
      \/ (exists s rest,
            CreateWorktree.loadConfig w
            = Result (Exit 1%Z) w (ConsoleError (lit "Error: " ++ s) :: rest)
            /\ execs rest = [])).
Proof.
  split.
  - apply loader_never_throwing;
      [apply bootstrap_loadConfig_loader|apply bootstrap_loadConfig_no_throw].
  - apply loader_never_throwing;
      [apply create_loadConfig_loader|apply create_loadConfig_no_throw].
Qed.

(** X12: a configuration file that is there but cannot be read, is not
    JSON, or is the JSON [null], is reported by both loaders as a parse
    failure, with the message of the error caught, and ends the process
    with status 1. *)
Theorem loadConfig_reports_parse_failure (w : W) (e : error) :
  existsSync CONFIG_PATH w = true ->
  readFileSync CONFIG_PATH w = inr e
  \/ (exists content,
        readFileSync CONFIG_PATH w = inl content
        /\ (JSON_parse content = inr e
            \/ (JSON_parse content = inl VNull /\ e = TypeError VNull))) ->
  let failure :=
    Result (Exit 1%Z) w
      [ConsoleError (lit "Error: Failed to parse project.config.json");
       ConsoleError (message_text e)] in
  Bootstrap.loadConfig w = failure /\ CreateWorktree.loadConfig w = failure.
Proof.
  intros Hex Hbad. cbn zeta.
  unfold Bootstrap.loadConfig, CreateWorktree.loadConfig.
  rewrite !bind_fs_existsSync, Hex. cbn [negb].
  unfold try_catch, bind, fs_readFileSync, json_parse.
  destruct Hbad as [Hr|(content & Hr & [Hp|[Hp ->]])]; rewrite Hr.
  - split; reflexivity.
  - rewrite Hp. split; reflexivity.
  - rewrite Hp. split; reflexivity.
Qed.

(** X13: a configuration file that is absent is reported by both
    loaders with its path, without reading anything, and ends the
    process with status 1. *)
Theorem loadConfig_reports_missing_file (w : W) :
  existsSync CONFIG_PATH w = false ->
  out (Bootstrap.loadConfig w) = Exit 1%Z
  /\ out (CreateWorktree.loadConfig w) = Exit 1%Z
  /\ hd_error (trace (Bootstrap.loadConfig w))
     = Some (ConsoleError (lit "Error: project.config.json not found at "
                           ++ CONFIG_PATH))
  /\ trace (CreateWorktree.loadConfig w)
     = [ConsoleError (lit "Error: project.config.json not found at "
                      ++ CONFIG_PATH)].
Proof.
  intros Hex. unfold Bootstrap.loadConfig, CreateWorktree.loadConfig.
  rewrite !bind_fs_existsSync, Hex. repeat split.
Qed.

Lemma truthy_js_or_string v c s : truthy (js_or v (VStr (c :: s))) = true.
Proof. unfold js_or. destruct (truthy v) eqn:E; [exact E|reflexivity]. Qed.

Lemma lit_remote_defaultBranch : lit "remote" <> lit "defaultBranch".
Proof. vm_compute. discriminate. Qed.

Lemma not_blank_of_trim s : trim s <> [] -> blank s = false.
Proof.
  intros Ht. destruct (blank s) eqn:E; [|reflexivity].
  exfalso. exact (Ht (trim_blank s E)).
Qed.

(** X14: in a configuration that either loader returns,
    [codebase.remote], [codebase.defaultBranch] and [worktrees.root] are
    all truthy; when bootstrap.ts's loader returns it, [codebase.remote]
    is moreover a string that is not blank. *)
Theorem loaded_config_is_complete (w : W) (config : value) :
  (out (Bootstrap.loadConfig w) = Ret config
   \/ out (CreateWorktree.loadConfig w) = Ret config ->
   truthy (field (field config (lit "codebase")) (lit "remote")) = true
   /\ truthy (field (field config (lit "codebase")) (lit "defaultBranch"))
      = true
   /\ truthy (field (field config (lit "worktrees")) (lit "root")) = true)
  /\ (out (Bootstrap.loadConfig w) = Ret config ->
      exists s,
        field (field config (lit "codebase")) (lit "remote") = VStr s
        /\ blank s = false).
Proof.
  split.
  - intros Hret.
    assert (exists parsed,
               defaults_applied parsed config
               /\ truthy (field (field parsed (lit "codebase")) (lit "remote"))
                  = true) as (parsed & Hdef & Hremote).
    { destruct Hret as [Hret|Hret].
      - apply bootstrap_loadConfig_returns in Hret
          as (content & parsed & _ & _ & Hdef & s & Hs & Htrim).
        exists parsed. split; [exact Hdef|]. rewrite Hs.
        destruct s; [contradiction Htrim; reflexivity|reflexivity].
      - apply create_loadConfig_returns in Hret
          as (content & parsed & _ & _ & Hdef & Ht). eauto. }
    destruct Hdef as (Hdb & Hroot & _ & Hcb & _).
    rewrite (Hcb (lit "remote") lit_remote_defaultBranch), Hdb, Hroot.
    split; [exact Hremote|]. split; apply truthy_js_or_string.
  - intros Hret. apply bootstrap_loadConfig_returns in Hret
      as (content & parsed & _ & _ & Hdef & s & Hs & Htrim).
    destruct Hdef as (_ & _ & _ & Hcb & _).
    exists s. rewrite (Hcb (lit "remote") lit_remote_defaultBranch).
    split; [exact Hs|apply not_blank_of_trim, Htrim].
Qed.

(** X15: bootstrap.ts's loader is the stricter of the two: what it
    returns, the create-worktree loader returns too. *)
Theorem bootstrap_loader_is_stricter (w : W) (config : value) :
  out (Bootstrap.loadConfig w) = Ret config ->
  CreateWorktree.loadConfig w = Result (Ret config) w [].
Proof.
  intros Hret.
  unfold CreateWorktree.loadConfig. rewrite bind_fs_existsSync.
  remember (Bootstrap.loadConfig w) as r eqn:R.
  unfold Bootstrap.loadConfig in R.
  through_loader R Hret.
  cbn in R. subst r. cbn in Hret. injection Hret as <-.
  cbn [negb]. unfold try_catch.
  rewrite (bind_Ret _ _ _ _ _ _ E), after_nil. cbn beta.
  rewrite (bind_Ret _ _ _ _ _ _ E0), after_nil. cbn beta.
  rewrite (bind_Ret _ _ _ _ _ _ E1), after_nil. cbn beta.
  rewrite (bind_Ret _ _ _ _ _ _ E2), after_nil. cbn beta.
  rewrite !orb_false_iff in Heqb. destruct Heqb as ((Htruthy & _) & _).
  rewrite Htruthy.
  rewrite (bind_Ret _ _ _ _ _ _ E3), after_nil. cbn beta.
  rewrite (bind_Ret _ _ _ _ _ _ E4), after_nil. cbn beta.
  rewrite (bind_Ret _ _ _ _ _ _ E5), after_nil. cbn beta.
  rewrite (bind_Ret _ _ _ _ _ _ E6), after_nil. cbn beta.
  rewrite (bind_Ret _ _ _ _ _ _ E7), after_nil. cbn beta.
  rewrite (bind_Ret _ _ _ _ _ _ E8), after_nil. cbn beta.
  reflexivity.
Qed.

End LoaderProperties.

(** * Further properties of bootstrap.ts *)

Section BootstrapRuns.
Context {W : Type} `{Host W}.
Import Bootstrap.

(** [createWorktree] never clones; when it returns, [worktrees.root]
    was a string. *)
Lemma createWorktree_commands config (w : W) :
  exists o w' t,
    createWorktree config w = Result o w' t
    /\ Forall not_clone (execs t)
    /\ match o with
       | Ret _ =>
           exists root,
             field (field config (lit "worktrees")) (lit "root") = VStr root
       | _ => exit_status o = 1%Z
       end.
Proof.
  apply createWorktree_runs; intros; reflexivity.
Qed.

(** From [createWorktree] on, on every machine: no clone, and the exit
    status is that of [pnpm install] when it is reached. *)
Lemma main_from_createWorktree_runs config (w : W) :
  exists pre,
    Forall not_clone pre
    /\ ((execs (trace (main_from_createWorktree config w)) = pre
         /\ exit_status (out (main_from_createWorktree config w)) = 1%Z)
        \/ exists root enabled installed,
             field (field config (lit "worktrees")) (lit "root") = VStr root
             /\ execs (trace (main_from_createWorktree config w))
                = pre ++ [(lit "corepack enable", None, enabled);
                          (lit "pnpm install",
                           Some (join [join [META_REPO_ROOT; root]; lit "main"]),
                           installed)]
             /\ out (main_from_createWorktree config w)
                = (if installed then Ret tt else Exit 1%Z)).
Proof.
  unfold main_from_createWorktree.
  destruct (createWorktree_commands config w) as (o & w1 & t1 & E1 & Ht1 & Ho).
  exists (execs t1). split; [exact Ht1|].
  destruct o as [[]|e|c].
  - right. destruct Ho as (root & Hroot).
    rewrite (bind_Ret _ _ _ _ _ _ E1). cbn beta.
    destruct (main_from_enableCorepack_runs config root w1 Hroot)
      as (Hex & Hout & _).
    exists root. do 2 eexists. split; [exact Hroot|].
    rewrite out_after, trace_after, execs_app, Hex, Hout.
    split; reflexivity.
  - left. rewrite (bind_Throw _ _ _ _ _ _ E1). split; [reflexivity|exact Ho].
  - left. rewrite (bind_Exit _ _ _ _ _ _ E1). split; [reflexivity|exact Ho].
Qed.

Lemma not_clone_all_after pre (l : list (jsstring * option jsstring * bool)) :
  Forall not_clone pre -> Forall not_clone l -> Forall not_clone (pre ++ l).
Proof. intros. apply Forall_app. split; assumption. Qed.

(** X16: with a loaded configuration, [codebase.remote] is a string.
    bootstrap first converts the default branch to a string for its
    third line of output (line 159): when that conversion throws, the
    run ends there and no command has been run.  Otherwise bootstrap
    gives [execSync] the clone command text when the bare repository is
    absent, once and as its first command, and never when it is there; a
    clone that fails ends the run with status 1 and nothing else is
    run. *)
Theorem clone_only_when_absent (w : W) (config : value) :
  out (loadConfig w) = Ret config ->
  exists remote,
    field (field config (lit "codebase")) (lit "remote") = VStr remote
    /\ let clone := clone_command remote in
       let answer := execSync clone piped w in
       is_clone clone = true
       /\ match to_string (field (field config (lit "codebase"))
                             (lit "defaultBranch")) with
          | inr e => out (main w) = Throw e /\ execs (trace (main w)) = []
          | inl _ =>
              if existsSync BARE_PATH w
              then Forall not_clone (execs (trace (main w)))
              else exists rest,
                     execs (trace (main w))
                     = (clone, None, succeeded (fst answer)) :: rest
                     /\ Forall not_clone rest
                     /\ (succeeded (fst answer) = false ->
                         rest = [] /\ exit_status (out (main w)) = 1%Z)
          end.
Proof.
  intros Hload.
  destruct (loaded_remote_is_string w config Hload) as (remote & Hremote).
  exists remote. split; [exact Hremote|]. cbn zeta. split; [reflexivity|].
  pose proof (main_to_createWorktree w config remote Hload Hremote) as Hmain.
  cbn zeta in Hmain.
  assert (Hrest : forall w1,
             Forall not_clone (execs (trace (main_from_createWorktree config w1)))).
  { intros w1.
    destruct (main_from_createWorktree_runs config w1)
      as (pre & Hpre & [[-> _]|(root & en & ins & _ & -> & _)]);
      [exact Hpre|].
    apply not_clone_all_after; [exact Hpre|]. repeat constructor. }
  destruct (to_string _) as [branch|e].
  2:{ destruct Hmain as (t & Ht & ->). split; [reflexivity|exact Ht]. }
  destruct (existsSync BARE_PATH w).
  - destruct Hmain as (t0 & Ht0 & ->).
    rewrite trace_after, execs_app, Ht0. apply Hrest.
  - destruct (fst (execSync (clone_command remote) piped w)) as [stdout|e].
    + destruct Hmain as (t0 & Ht0 & ->).
      rewrite trace_after, execs_app, Ht0. eexists. split; [reflexivity|].
      split; [apply Hrest|discriminate].
    + destruct Hmain as (t & Ht & ->). cbn [trace out]. rewrite Ht.
      exists []. split; [reflexivity|]. split; [constructor|].
      intros _. split; reflexivity.
Qed.

(** X17: bootstrap ends with status 0 or 1, and with 0 only when its
    last two commands were [corepack enable] and a [pnpm install] that
    succeeded. *)
Theorem bootstrap_exit_status (w : W) :
  (exit_status (out (main w)) = 0%Z \/ exit_status (out (main w)) = 1%Z)
  /\ (exit_status (out (main w)) = 0%Z ->
      exists pre enabled dir,
        execs (trace (main w))
        = pre ++ [(lit "corepack enable", None, enabled);
                  (lit "pnpm install", Some dir, true)]).
Proof.
  assert (Hrest : forall config w1 t0,
             (exit_status (out (after t0 (main_from_createWorktree config w1)))
              = 0%Z
              \/ exit_status (out (after t0 (main_from_createWorktree config w1)))
                 = 1%Z)
             /\ (exit_status (out (after t0 (main_from_createWorktree config w1)))
                 = 0%Z ->
                 exists pre enabled dir,
                   execs (trace (after t0 (main_from_createWorktree config w1)))
                   = pre ++ [(lit "corepack enable", None, enabled);
                             (lit "pnpm install", Some dir, true)])).
  { intros config w1 t0. rewrite out_after, trace_after, execs_app.
    destruct (main_from_createWorktree_runs config w1)
      as (pre & _ & [[-> ->]|(root & en & ins & _ & -> & ->)]).
    - split; [right; reflexivity|discriminate].
    - destruct ins; cbn [exit_status].
      + split; [left; reflexivity|]. intros _.
        exists (execs t0 ++ pre), en. eexists.
        rewrite app_assoc. reflexivity.
      + split; [right; reflexivity|discriminate]. }
  destruct (bootstrap_loadConfig_outcome w) as [(config & E)|(t & E & Ht)].
  - assert (Hload : out (loadConfig w) = Ret config) by (rewrite E; reflexivity).
    destruct (loaded_remote_is_string w config Hload) as (remote & Hremote).
    pose proof (main_to_createWorktree w config remote Hload Hremote) as Hmain.
    cbn zeta in Hmain.
    destruct (to_string _) as [branch|e].
    2:{ destruct Hmain as (t0 & _ & ->). cbn [out exit_status].
        split; [right; reflexivity|discriminate]. }
    destruct (existsSync BARE_PATH w).
    + destruct Hmain as (t0 & _ & ->). apply Hrest.
    + destruct (fst (execSync _ piped w)) as [stdout|e].
      * destruct Hmain as (t0 & _ & ->). apply Hrest.
      * destruct Hmain as (t0 & _ & ->). cbn [out exit_status].
        split; [right; reflexivity|discriminate].
  - unfold main. rewrite bind_console_log, out_after.
    rewrite (bind_Exit _ _ _ _ _ _ E). cbn [out exit_status].
    split; [right; reflexivity|discriminate].
Qed.

(** [createWorktree] on a main worktree that is there and is ours. *)
Lemma createWorktree_valid config root s (w : W) :
  field (field config (lit "worktrees")) (lit "root") = VStr root ->
  field (field config (lit "codebase")) (lit "remote") = VStr s ->
  let mainWorktreePath := join [join [META_REPO_ROOT; root]; lit "main"] in
  let checked := execSync (rev_parse_command mainWorktreePath) piped w in
  existsSync mainWorktreePath w = true ->
  succeeded (fst checked) = true ->
  ~ linkage_invalid (join [mainWorktreePath; lit ".git"]) (snd checked) ->
  exists t,
    execs t = [(rev_parse_command mainWorktreePath, None, true)]
    /\ createWorktree config w = Result (Ret tt) (snd checked) t.
Proof.
  intros Hroot Hs mainWorktreePath checked Hexists Hok Hgood.
  destruct (classic_linkage mainWorktreePath (snd checked)) as [Hbad|[Hv _]];
    [contradiction|].
  remember (createWorktree config w) as r eqn:R. unfold createWorktree in R.
  rewrite (bind_Ret _ _ _ _ _ _ (member2_field _ _ _ _ w Hroot)) in R.
  rewrite after_nil in R. cbn beta in R.
  unfold path_join at 1 2 in R. cbn [validate_strings] in R.
  unfold bind at 1 in R. cbn [ret after app] in R.
  unfold bind at 1 in R. cbn [ret after app] in R.
  fold mainWorktreePath in R.
  rewrite (bind_Ret _ _ _ _ _ _
             (member2_of_object _ _ (lit "defaultBranch") _ _ w Hs)) in R.
  rewrite after_nil in R. cbn beta in R.
  rewrite bind_fs_existsSync, Hexists in R. unfold try_catch in R.
  unfold bind at 1 in R. rewrite bootstrap_run_eq in R. fold piped in R.
  fold checked in R.
  destruct checked as [[stdout|e] w1]; [|discriminate Hok].
  cbn [fst snd] in *.
  rewrite (bind_Ret _ _ _ _ _ _ Hv) in R. rewrite after_nil in R.
  cbn beta in R. cbn [negb] in R.
  unfold bind, ret, console_log, emit in R. cbn [after app] in R.
  eexists. split; [|exact R]. reflexivity.
Qed.

(** [createWorktree] when there is no main worktree yet and the default
    branch converts to the string [branch]. *)
Lemma createWorktree_absent config root s branch (w : W) :
  field (field config (lit "worktrees")) (lit "root") = VStr root ->
  field (field config (lit "codebase")) (lit "remote") = VStr s ->
  to_string (field (field config (lit "codebase")) (lit "defaultBranch"))
  = inl branch ->
  let mainWorktreePath := join [join [META_REPO_ROOT; root]; lit "main"] in
  let added :=
    execSync (worktree_add_command mainWorktreePath branch) piped w in
  existsSync mainWorktreePath w = false ->
  exists t,
    execs t = [(worktree_add_command mainWorktreePath branch, None,
                succeeded (fst added))]
    /\ createWorktree config w
       = Result (match fst added with
                 | ExecOk _ => Ret tt
                 | ExecFail e => Throw (new_Error (failure_message e))
                 end) (snd added) t.
Proof.
  intros Hroot Hs Hbranch mainWorktreePath added Habsent.
  remember (createWorktree config w) as r eqn:R. unfold createWorktree in R.
  rewrite (bind_Ret _ _ _ _ _ _ (member2_field _ _ _ _ w Hroot)) in R.
  rewrite after_nil in R. cbn beta in R.
  unfold path_join at 1 2 in R. cbn [validate_strings] in R.
  unfold bind at 1 in R. cbn [ret after app] in R.
  unfold bind at 1 in R. cbn [ret after app] in R.
  fold mainWorktreePath in R.
  rewrite (bind_Ret _ _ _ _ _ _
             (member2_of_object _ _ (lit "defaultBranch") _ _ w Hs)) in R.
  rewrite after_nil in R. cbn beta in R.
  rewrite bind_fs_existsSync, Habsent in R.
  rewrite (bind_tpl _ branch) in R by exact Hbranch.
  step_console R.
  rewrite (bind_tpl _ branch) in R by exact Hbranch.
  unfold bind at 1 in R. rewrite bootstrap_run_eq in R.
  fold piped in R. fold added in R.
  destruct added as [[stdout|e] w1]; cbn [fst snd succeeded].
  - unfold console_log, emit in R. cbn [after app] in R.
    eexists. split; [|exact R]. reflexivity.
  - cbn [after app] in R. eexists. split; [|exact R]. reflexivity.
Qed.

(** X18: run again on a setup that is complete (the bare repository is
    there, the main worktree is there, [git rev-parse] succeeds in it
    and its linkage file names [.bare]) with a default branch that
    converts to a string, bootstrap neither clones nor adds a worktree:
    it checks the worktree, enables corepack and installs, and its
    status is that of the installation. *)
Theorem bootstrap_rerun (w : W) (config : value) (root branch : jsstring) :
  out (loadConfig w) = Ret config ->
  field (field config (lit "worktrees")) (lit "root") = VStr root ->
  to_string (field (field config (lit "codebase")) (lit "defaultBranch"))
  = inl branch ->
  let mainWorktreePath := join [join [META_REPO_ROOT; root]; lit "main"] in
  let checked := execSync (rev_parse_command mainWorktreePath) piped w in
  let enabled := execSync (lit "corepack enable") piped (snd checked) in
  let installed :=
    execSync (lit "pnpm install")
      {| cwd := Some mainWorktreePath; stderr_piped := true |} (snd enabled) in
  existsSync BARE_PATH w = true ->
  existsSync mainWorktreePath w = true ->
  succeeded (fst checked) = true ->
  ~ linkage_invalid (join [mainWorktreePath; lit ".git"]) (snd checked) ->
  execs (trace (main w))
  = [(rev_parse_command mainWorktreePath, None, true);
     (lit "corepack enable", None, succeeded (fst enabled));
     (lit "pnpm install", Some mainWorktreePath, succeeded (fst installed))]
  /\ exit_status (out (main w))
     = (if succeeded (fst installed) then 0%Z else 1%Z).
Proof.
  intros Hload Hroot Hbranch mainWorktreePath checked enabled installed
    Hbare Hexists Hok Hgood.
  destruct (loaded_remote_is_string w config Hload) as (s & Hs).
  pose proof (main_to_createWorktree w config s Hload Hs) as Hmain.
  cbn zeta in Hmain. rewrite Hbranch, Hbare in Hmain.
  destruct Hmain as (t0 & Ht0 & ->).
  destruct (createWorktree_valid config root s w Hroot Hs Hexists Hok Hgood)
    as (t1 & Ht1 & E1).
  unfold main_from_createWorktree. rewrite (bind_Ret _ _ _ _ _ _ E1).
  cbn beta.
  destruct (main_from_enableCorepack_runs config root (snd checked) Hroot)
    as (Hex & Hout & _).
  subst mainWorktreePath checked enabled installed.
  rewrite !out_after, !trace_after, !execs_app, Ht0, Ht1, Hex, Hout.
  split; [reflexivity|].
  match goal with |- context [succeeded ?x] => destruct (succeeded x) end;
    reflexivity.
Qed.

(** X19: run where there is no main worktree yet, with a default branch
    that converts to the string [branch], bootstrap gives [execSync] the
    text [git --git-dir "<BARE_PATH>" worktree add "<main>" "<branch>"],
    after the clone if there was no bare repository; when that command
    fails the run ends with status 1 and neither corepack nor the
    installation is run, and when it succeeds they follow. *)
Theorem bootstrap_first_run (w : W) (config : value)
  (root remote branch : jsstring) :
  out (loadConfig w) = Ret config ->
  field (field config (lit "worktrees")) (lit "root") = VStr root ->
  field (field config (lit "codebase")) (lit "remote") = VStr remote ->
  to_string (field (field config (lit "codebase")) (lit "defaultBranch"))
  = inl branch ->
  let mainWorktreePath := join [join [META_REPO_ROOT; root]; lit "main"] in
  let clone := clone_command remote in
  let cloned := if existsSync BARE_PATH w then w
                else snd (execSync clone piped w) in
  let add := worktree_add_command mainWorktreePath branch in
  let added := execSync add piped cloned in
  let enabled := execSync (lit "corepack enable") piped (snd added) in
  let installed :=
    execSync (lit "pnpm install")
      {| cwd := Some mainWorktreePath; stderr_piped := true |} (snd enabled) in
  (existsSync BARE_PATH w = false ->
   succeeded (fst (execSync clone piped w)) = true) ->
  existsSync mainWorktreePath cloned = false ->
  execs (trace (main w))
  = (if existsSync BARE_PATH w then [] else [(clone, None, true)])
    ++ (add, None, succeeded (fst added))
       :: (if succeeded (fst added)
           then [(lit "corepack enable", None, succeeded (fst enabled));
                 (lit "pnpm install", Some mainWorktreePath,
                  succeeded (fst installed))]
           else [])
  /\ (succeeded (fst added) = false -> exit_status (out (main w)) = 1%Z).
Proof.
  intros Hload Hroot Hs Hbranch mainWorktreePath clone cloned add added
    enabled installed Hcloned Habsent.
  pose proof (main_to_createWorktree w config remote Hload Hs) as Hmain.
  cbn zeta in Hmain. rewrite Hbranch in Hmain. fold clone in Hmain.
  assert (Hgo : exists t0,
             execs t0 = (if existsSync BARE_PATH w then []
                         else [(clone, None, true)])
             /\ main w = after t0 (main_from_createWorktree config cloned)).
  { subst cloned. destruct (existsSync BARE_PATH w); [exact Hmain|].
    specialize (Hcloned eq_refl).
    destruct (fst (execSync clone piped w)); [exact Hmain|discriminate]. }
  destruct Hgo as (t0 & Ht0 & ->).
  destruct (createWorktree_absent config root remote branch cloned
              Hroot Hs Hbranch Habsent) as (t1 & Ht1 & E1).
  cbn zeta in Ht1, E1.
  subst installed enabled added add mainWorktreePath.
  unfold main_from_createWorktree.
  revert Ht1 E1.
  destruct (execSync (worktree_add_command _ branch) piped cloned)
    as [[stdout|e] w1]; cbn [fst snd succeeded]; intros Ht1 E1.
  - rewrite (bind_Ret _ _ _ _ _ _ E1). cbn beta.
    destruct (main_from_enableCorepack_runs config root w1 Hroot)
      as (Hex & _ & _). cbn zeta in Hex.
    split; [|discriminate].
    rewrite !trace_after, !execs_app, Ht0, Ht1, Hex. reflexivity.
  - rewrite (bind_Throw _ _ _ _ _ _ E1).
    split; [|reflexivity].
    rewrite trace_after. cbn [trace]. rewrite execs_app, Ht0, Ht1.
    reflexivity.
Qed.

End BootstrapRuns.

(** * Further properties of the create-worktree script *)

Section CreateWorktreeRuns.
Context {W : Type} `{Host W}.
Import CreateWorktree.

Lemma startsWith_app p s : startsWith p (p ++ s) = true.
Proof.
  induction p as [|c p IH]; [destruct s; reflexivity|].
  cbn. rewrite N.eqb_refl. exact IH.
Qed.

Lemma on_bare command dir ok rest' :
  command = git_dir ++ rest' -> on_bare_or_install (command, dir, ok).
Proof. intros ->. left. apply startsWith_app. Qed.

Lemma after_creation_on_bare path created tail :
  after_creation path created tail -> Forall on_bare_or_install tail.
Proof.
  destruct created; cbn.
  - intros (ok & ->). constructor; [right; reflexivity|constructor].
  - intros ->. constructor.
Qed.

(** X20: whatever its arguments and the machine, every command text
    the create-worktree script gives to [execSync] begins with
    [git --git-dir "<BARE_PATH>"], or is [pnpm install].  This is about
    the text: the branch name is put into it as it is, and what the shell
    runs for the rest of the text depends on it. *)
Theorem create_worktree_commands_on_bare (args : list jsstring) (w : W) :
  Forall on_bare_or_install (execs (trace (main args w))).
Proof.
  destruct args as [|branch rest]; [constructor|].
  destruct (main_stops_or_fetches branch rest w)
    as [->|(path & t & Ht & ->)]; [constructor|].
  rewrite trace_after, execs_app, Ht. cbn [app].
  destruct (main_from_fetch_shape branch path w)
    as (fetched & localExists & remoteExists & cmds & -> & Hres).
  constructor; [eapply on_bare; reflexivity|].
  constructor; [eapply on_bare; reflexivity|].
  constructor; [eapply on_bare; reflexivity|].
  unfold resolution in Hres.
  destruct localExists; [|destruct remoteExists].
  - destruct Hres as (ok & tail & -> & Htail).
    constructor; [eapply on_bare; reflexivity|].
    eapply after_creation_on_bare, Htail.
  - destruct Hres as [->|(ok & tail & -> & Htail)].
    + constructor; [|constructor].
      eapply on_bare; reflexivity.
    + constructor; [eapply on_bare; reflexivity|].
      constructor; [eapply on_bare; reflexivity|].
      eapply after_creation_on_bare, Htail.
  - destruct Hres as (ok & tail & -> & Htail).
    constructor; [eapply on_bare; reflexivity|].
    eapply after_creation_on_bare, Htail.
Qed.

(** The end of [main]: the installation decides. *)
Lemma main_tail_status path (w : W) :
  let m := (console_log (lit "Worktree created successfully." ++ [10]);;;
            installDependencies path;;;
            console_log ([10] ++ lit "=== Worktree ready! ===");;;
            console_log ([10] ++ lit "You can now work in: " ++ path);;;
            console_log (lit "  cd " ++ path))%js in
  (out (m w) = Ret tt
   /\ execs (trace (m w)) = [(lit "pnpm install", Some path, true)])
  \/ (out (m w) = Exit 1%Z
      /\ execs (trace (m w)) = [(lit "pnpm install", Some path, false)]).
Proof.
  cbn zeta. rewrite bind_console_log.
  destruct (installDependencies_cases path w) as (w' & t & [[E Ht]|[E Ht]]).
  - left. rewrite (bind_Ret _ _ _ _ _ _ E). simpl_results. rewrite Ht.
    split; reflexivity.
  - right. rewrite (bind_Exit _ _ _ _ _ _ E). simpl_results. rewrite Ht.
    split; reflexivity.
Qed.

Lemma creation_then_tail_status branch path createNewBranch (w : W) :
  let m := (createWorktree branch path createNewBranch;;;
            console_log (lit "Worktree created successfully." ++ [10]);;;
            installDependencies path;;;
            console_log ([10] ++ lit "=== Worktree ready! ===");;;
            console_log ([10] ++ lit "You can now work in: " ++ path);;;
            console_log (lit "  cd " ++ path))%js in
  exit_status (out (m w)) = 1%Z
  \/ (out (m w) = Ret tt
      /\ exists pre,
           execs (trace (m w)) = pre ++ [(lit "pnpm install", Some path, true)]).
Proof.
  cbn zeta.
  destruct (createWorktree_cases branch path createNewBranch w)
    as (w' & t & [[E Ht]|(e & E & Ht)]).
  - rewrite (bind_Ret _ _ _ _ _ _ E). rewrite out_after, trace_after, execs_app.
    destruct (main_tail_status path w') as [[Ho Hx]|[Ho Hx]];
      cbn zeta in Ho, Hx; rewrite Ho, Hx.
    + right. split; [reflexivity|]. eauto.
    + left. reflexivity.
  - left. rewrite (bind_Throw _ _ _ _ _ _ E). reflexivity.
Qed.

(** From the fetch on: status 1, or a return after an installation that
    succeeded in the new worktree. *)
Lemma main_from_fetch_status branch path (w : W) :
  exit_status (out (main_from_fetch branch path w)) = 1%Z
  \/ (out (main_from_fetch branch path w) = Ret tt
      /\ exists pre,
           execs (trace (main_from_fetch branch path w))
           = pre ++ [(lit "pnpm install", Some path, true)]).
Proof.
  unfold main_from_fetch.
  destruct (fetchLatest_cases w) as (fetched & w1 & tf & Ef & Hf).
  rewrite (bind_Ret _ _ _ _ _ _ Ef).
  destruct (branchExists_cases branch local w1) as (localExists & w2 & El).
  rewrite (bind_Ret _ _ _ _ _ _ El).
  destruct (branchExists_cases branch remote w2) as (remoteExists & w3 & Er).
  rewrite (bind_Ret _ _ _ _ _ _ Er). cbn beta.
  rewrite !out_after, !trace_after, !execs_app.
  assert (Hlift : forall (r : result W unit),
             exit_status (out r) = 1%Z
             \/ (out r = Ret tt
                 /\ exists pre,
                      execs (trace r)
                      = pre ++ [(lit "pnpm install", Some path, true)]) ->
             forall l,
             exit_status (out r) = 1%Z
             \/ (out r = Ret tt
                 /\ exists pre,
                      l ++ execs (trace r)
                      = pre ++ [(lit "pnpm install", Some path, true)])).
  { intros r [Hr|[Hr (pre & Hpre)]] l; [left; exact Hr|right].
    split; [exact Hr|]. exists (l ++ pre). rewrite Hpre, app_assoc.
    reflexivity. }
  rewrite !app_assoc. apply Hlift.
  destruct localExists; [|destruct remoteExists].
  - rewrite bind_assoc, bind_console_log, out_after, trace_after, execs_app.
    cbn [execs app].
    apply (creation_then_tail_status branch path false w3).
  - rewrite bind_assoc, bind_console_log, out_after, trace_after, execs_app.
    cbn [execs app]. rewrite bind_assoc.
    destruct (createTrackingBranch_cases branch w3)
      as (w4 & t & [[Et Ht]|(e' & Et & Ht)]).
    + rewrite (bind_Ret _ _ _ _ _ _ Et). cbn beta.
      rewrite out_after, trace_after, execs_app. apply Hlift.
      apply (creation_then_tail_status branch path false w4).
    + left. rewrite (bind_Throw _ _ _ _ _ _ Et). reflexivity.
  - rewrite bind_assoc, bind_console_log, out_after, trace_after, execs_app.
    cbn [execs app].
    apply (creation_then_tail_status branch path true w3).
Qed.

(** [main] up to the fetch: it has ended with status 1 without running
    a command, or the configuration is loaded, the bare repository is
    there, the target path is free, and it goes on with
    [main_from_fetch] for the path made of [worktrees.root] and the
    sanitized branch name. *)
Lemma main_guards branch rest (w : W) :
  (exit_status (out (main (branch :: rest) w)) = 1%Z
   /\ execs (trace (main (branch :: rest) w)) = [])
  \/ exists config root t,
       out (loadConfig w) = Ret config
       /\ field (field config (lit "worktrees")) (lit "root") = VStr root
       /\ execs t = []
       /\ main (branch :: rest) w
          = after t
              (main_from_fetch branch
                 (join [join [META_REPO_ROOT; root]; sanitizeBranchName branch])
                 w).
Proof.
  remember (main (branch :: rest) w) as r eqn:R. unfold main in R.
  step_loader R create_loadConfig_loader;
    [|subst r; left; simpl_results; auto..].
  step_loader R (loader_member2 x (lit "worktrees") (lit "root"));
    [|subst r; left; simpl_results; auto..].
  step_loader R (loader_path_join [VStr META_REPO_ROOT; x0]);
    [|subst r; left; simpl_results; auto..].
  step_loader R (loader_path_join [VStr x1; VStr (sanitizeBranchName branch)]);
    [|subst r; left; simpl_results; auto..].
  apply member2_inv in E0. apply path_join2_inv in E1 as (root & Hroot & ->).
  apply path_join2_inv in E2 as (name & Hname & ->). injection Hname as <-.
  subst x0.
  do 4 step_console R.
  rewrite bind_fs_existsSync in R.
  destruct (existsSync BARE_PATH w).
  2:{ unfold bind at 1 in R. cbn -[lit] in R. subst r. left.
      split; reflexivity. }
  unfold bind at 1 in R. cbn [negb ret after app] in R.
  rewrite bind_fs_existsSync in R.
  destruct (existsSync _ w).
  { unfold bind at 1 in R. cbn -[lit] in R. subst r. left.
    split; reflexivity. }
  unfold bind at 1 in R. cbn [ret after app] in R.
  rewrite !after_after in R. right. exists x, root. eexists.
  split; [reflexivity|]. split; [exact Hroot|].
  split; [|exact R]. reflexivity.
Qed.

(** X21: the create-worktree script ends with status 0 or 1, and with 0
    only when it was given a branch, the configuration loaded, and its
    last command was a [pnpm install] that succeeded in the directory of
    the new worktree: [worktrees.root] under the meta-repository, then
    the sanitized branch name. *)
Theorem create_worktree_exit_status (args : list jsstring) (w : W) :
  (exit_status (out (main args w)) = 0%Z
   \/ exit_status (out (main args w)) = 1%Z)
  /\ (exit_status (out (main args w)) = 0%Z ->
      exists branch rest config root pre,
        args = branch :: rest
        /\ out (loadConfig w) = Ret config
        /\ field (field config (lit "worktrees")) (lit "root") = VStr root
        /\ execs (trace (main args w))
           = pre ++ [(lit "pnpm install",
                      Some (join [join [META_REPO_ROOT; root];
                                  sanitizeBranchName branch]),
                      true)]).
Proof.
  destruct args as [|branch rest].
  { split; [right; reflexivity|discriminate]. }
  destruct (main_guards branch rest w)
    as [[Hs _]|(config & root & t & Hload & Hroot & _ & ->)].
  { rewrite Hs. split; [right; reflexivity|discriminate]. }
  rewrite out_after, trace_after, execs_app.
  match goal with
  | |- context [main_from_fetch branch ?p w] =>
      destruct (main_from_fetch_status branch p w) as [Hs|[Ho (pre & Hpre)]]
  end.
  - rewrite Hs. split; [right; reflexivity|discriminate].
  - rewrite Ho, Hpre. split; [left; reflexivity|]. intros _.
    exists branch, rest, config, root, (execs t ++ pre).
    split; [reflexivity|]. split; [exact Hload|]. split; [exact Hroot|].
    rewrite app_assoc. reflexivity.
Qed.

(** ** The commands of a run, from the answers of [execSync] *)

Lemma fetchLatest_runs (w : W) :
  let fetched := execSync fetch_command (stdio None false) w in
  exists t,
    fetchLatest w = Result (Ret tt) (snd fetched) t
    /\ execs t = [(fetch_command, None, succeeded (fst fetched))].
Proof.
  cbn zeta. unfold fetchLatest, try_catch. rewrite bind_console_log.
  unfold bind. rewrite run_eq. unfold stdio.
  destruct (execSync _ _ w) as [[stdout|e] w']; eexists; split; reflexivity.
Qed.

Lemma branchExists_runs branch type (w : W) :
  let answer :=
    execSync (show_ref_command (ref_name branch type)) (stdio None true) w in
  branchExists branch type w
  = Result (Ret (succeeded (fst answer))) (snd answer)
      [Exec (show_ref_command (ref_name branch type)) None
         (succeeded (fst answer))].
Proof.
  cbn zeta. unfold branchExists, try_catch, bind. rewrite run_eq.
  unfold stdio.
  destruct (execSync _ _ w) as [[stdout|e] w']; reflexivity.
Qed.

Lemma createTrackingBranch_runs branch (w : W) :
  let tracked :=
    execSync (tracking_branch_command branch) (stdio None false) w in
  exists t,
    execs t = [(tracking_branch_command branch, None, succeeded (fst tracked))]
    /\ createTrackingBranch branch w
       = Result (match fst tracked with
                 | ExecOk _ => Ret tt
                 | ExecFail e => Throw (new_Error (failure_message e))
                 end) (snd tracked) t.
Proof.
  cbn zeta. unfold createTrackingBranch. rewrite bind_console_log.
  unfold bind. rewrite run_eq. unfold stdio.
  destruct (execSync _ _ w) as [[stdout|e] w']; eexists; (split; [|reflexivity]); reflexivity.
Qed.

Lemma createWorktree_runs_command branch path (createNewBranch : bool) (w : W) :
  let command := if createNewBranch
                 then worktree_add_new_command branch path
                 else worktree_add_command branch path in
  let added := execSync command (stdio None false) w in
  exists t,
    execs t = [(command, None, succeeded (fst added))]
    /\ createWorktree branch path createNewBranch w
       = Result (match fst added with
                 | ExecOk _ => Ret tt
                 | ExecFail e => Throw (new_Error (failure_message e))
                 end) (snd added) t.
Proof.
  cbn zeta. unfold createWorktree. destruct createNewBranch;
    rewrite bind_console_log; unfold bind; rewrite run_eq; unfold stdio;
    destruct (execSync _ _ w) as [[stdout|e] w']; eexists; (split; [|reflexivity]); reflexivity.
Qed.

Lemma installDependencies_runs path (w : W) :
  let installed :=
    execSync (lit "pnpm install") (stdio (Some path) false) w in
  exists t,
    execs t = [(lit "pnpm install", Some path, succeeded (fst installed))]
    /\ installDependencies path w
       = Result (match fst installed with
                 | ExecOk _ => Ret tt
                 | ExecFail _ => Exit 1%Z
                 end) (snd installed) t.
Proof.
  cbn zeta.
  unfold installDependencies, try_catch, bind, console_log, console_error,
    emit, process_exit.
  rewrite run_eq. unfold stdio.
  destruct (execSync _ _ w) as [[stdout|e] w']; eexists; (split; [|reflexivity]); reflexivity.
Qed.

(** A creation command and what follows it in [main]. *)
Lemma creation_then_tail_commands branch path (createNewBranch : bool) (w : W) :
  let m := (createWorktree branch path createNewBranch;;;
            console_log (lit "Worktree created successfully." ++ [10]);;;
            installDependencies path;;;
            console_log ([10] ++ lit "=== Worktree ready! ===");;;
            console_log ([10] ++ lit "You can now work in: " ++ path);;;
            console_log (lit "  cd " ++ path))%js in
  execs (trace (m w))
  = creation_commands (if createNewBranch
                       then worktree_add_new_command branch path
                       else worktree_add_command branch path) path w.
Proof.
  cbn zeta. unfold creation_commands.
  destruct (createWorktree_runs_command branch path createNewBranch w)
    as (t & Ht & E). cbn zeta in Ht, E.
  destruct (fst (execSync _ (stdio None false) w)) as [stdout|e];
    cbn [succeeded].
  - rewrite (bind_Ret _ _ _ _ _ _ E). cbn beta. rewrite bind_console_log.
    match goal with
    | |- context [bind (installDependencies path) _ ?w1] =>
        destruct (installDependencies_runs path w1) as (ti & Hti & Ei)
    end.
    cbn zeta in Hti, Ei.
    destruct (fst (execSync (lit "pnpm install") _ _)) as [stdout'|e'];
      cbn [succeeded] in *.
    + rewrite (bind_Ret _ _ _ _ _ _ Ei). simpl_results. rewrite Ht, Hti.
      reflexivity.
    + rewrite (bind_Exit _ _ _ _ _ _ Ei). simpl_results. rewrite Ht, Hti.
      reflexivity.
  - rewrite (bind_Throw _ _ _ _ _ _ E). simpl_results. rewrite Ht.
    reflexivity.
Qed.

(** From the fetch on, the commands run and their success are those
    [resolution_commands] reads off the answers of [execSync]. *)
Lemma main_from_fetch_commands branch path (w : W) :
  execs (trace (main_from_fetch branch path w))
  = resolution_commands branch path w.
Proof.
  unfold main_from_fetch, resolution_commands. cbn zeta.
  destruct (fetchLatest_runs w) as (tf & Ef & Hf). cbn zeta in Ef, Hf.
  rewrite (bind_Ret _ _ _ _ _ _ Ef).
  rewrite (bind_Ret _ _ _ _ _ _ (branchExists_runs branch local _)).
  rewrite (bind_Ret _ _ _ _ _ _ (branchExists_runs branch remote _)).
  cbn beta. cbn [ref_name]. simpl_results. rewrite Hf. cbn [app].
  do 3 f_equal.
  destruct (succeeded (fst (execSync (show_ref_command (lit "refs/heads/" ++ branch)) _ _))).
  - rewrite bind_assoc, bind_console_log. simpl_results.
    apply (creation_then_tail_commands branch path false).
  - destruct (succeeded (fst (execSync (show_ref_command (lit "refs/remotes/origin/" ++ branch)) _ _))).
    + rewrite bind_assoc, bind_console_log. simpl_results.
      rewrite bind_assoc.
      match goal with
      | |- context [bind (createTrackingBranch branch) _ ?w3] =>
          destruct (createTrackingBranch_runs branch w3) as (tt' & Htt & Et)
      end.
      cbn zeta in Htt, Et.
      destruct (fst (execSync (tracking_branch_command branch) _ _))
        as [stdout|e]; cbn [succeeded] in *.
      * rewrite (bind_Ret _ _ _ _ _ _ Et). cbn beta. simpl_results.
        rewrite Htt. cbn [app]. f_equal.
        apply (creation_then_tail_commands branch path false).
      * rewrite (bind_Throw _ _ _ _ _ _ Et). simpl_results. exact Htt.
    + rewrite bind_assoc, bind_console_log. simpl_results.
      apply (creation_then_tail_commands branch path true).
Qed.

(** X22: branch resolution, on the commands.  A run of [main] that
    executes a command at all has loaded the configuration and passed
    the two guards, and its commands are [resolution_commands] for the
    target path: [fetch], [show-ref] on [refs/heads/<branch>], [show-ref]
    on [refs/remotes/origin/<branch>], and then, by the success of the
    two checks as [execSync] reports it, the local one first:
    [worktree add <path> <branch>]; else [branch <branch> origin/<branch>]
    and, when that succeeds, [worktree add <path> <branch>]; else
    [worktree add -b <branch> <path>]; [pnpm install] follows a creation
    that succeeded.  And [main] does come to that whenever the
    configuration loads, the bare repository is there and the target
    path is free.  The statement is about the texts given to [execSync]
    and what it answers, not about the refs of the repository. *)
Theorem branch_resolution (args : list jsstring) (w : W) :
  (execs (trace (main args w)) = [] \/
   exists branch rest config root,
     args = branch :: rest
     /\ out (loadConfig w) = Ret config
     /\ field (field config (lit "worktrees")) (lit "root") = VStr root
     /\ execs (trace (main args w))
        = resolution_commands branch
            (join [join [META_REPO_ROOT; root]; sanitizeBranchName branch]) w)
  /\ (forall branch rest config root,
        args = branch :: rest ->
        out (loadConfig w) = Ret config ->
        field (field config (lit "worktrees")) (lit "root") = VStr root ->
        let path :=
          join [join [META_REPO_ROOT; root]; sanitizeBranchName branch] in
        existsSync BARE_PATH w = true ->
        existsSync path w = false ->
        execs (trace (main args w)) = resolution_commands branch path w).
Proof.
  split.
  - destruct args as [|branch rest]; [left; reflexivity|].
    destruct (main_guards branch rest w)
      as [[_ Hstop]|(config & root & t & Hload & Hroot & Ht & ->)];
      [left; exact Hstop|].
    right. exists branch, rest, config, root.
    split; [reflexivity|]. split; [exact Hload|]. split; [exact Hroot|].
    rewrite trace_after, execs_app, Ht. apply main_from_fetch_commands.
  - intros branch rest config root -> Hload Hroot path Hbare Hfree.
    destruct (main_reaches_fetch branch rest config root w
                Hload Hroot Hbare Hfree) as (t & Ht & ->).
    rewrite trace_after, execs_app, Ht. apply main_from_fetch_commands.
Qed.

End CreateWorktreeRuns.

(** * The further properties, run *)

Module MoreRuns.
Import Fixture Machines.

Lemma loadConfig_reports_parse_failure_witness :
  let failure :=
    Result (Exit 1%Z) garbled
      [ConsoleError (lit "Error: Failed to parse project.config.json");
       ConsoleError (lit "Unexpected token")] in
  Bootstrap.loadConfig garbled = failure
  /\ CreateWorktree.loadConfig garbled = failure.
Proof.
  apply (loadConfig_reports_parse_failure garbled
           (new_Error (lit "Unexpected token"))).
  - vm_compute. reflexivity.
  - right. exists (lit "{"). split; [vm_compute; reflexivity|].
    left. vm_compute. reflexivity.
Defined.

Lemma loadConfig_reports_missing_file_witness :
  out (Bootstrap.loadConfig bare_ground) = Exit 1%Z
  /\ out (CreateWorktree.loadConfig bare_ground) = Exit 1%Z
  /\ hd_error (trace (Bootstrap.loadConfig bare_ground))
     = Some (ConsoleError (lit "Error: project.config.json not found at "
                           ++ CONFIG_PATH))
  /\ trace (CreateWorktree.loadConfig bare_ground)
     = [ConsoleError (lit "Error: project.config.json not found at "
                      ++ CONFIG_PATH)].
Proof.
  apply (loadConfig_reports_missing_file bare_ground). vm_compute. reflexivity.
Defined.

Lemma bootstrap_loader_is_stricter_witness :
  exists config,
    CreateWorktree.loadConfig (fresh "git@host:org/repo.git")
    = Result (Ret config) (fresh "git@host:org/repo.git") [].
Proof.
  assert (exists config,
             out (Bootstrap.loadConfig (fresh "git@host:org/repo.git"))
             = Ret config) as (config & Hret)
    by (eexists; vm_compute; reflexivity).
  exists config.
  exact (bootstrap_loader_is_stricter (fresh "git@host:org/repo.git") config Hret).
Defined.

Lemma clone_only_when_absent_witness :
  (exists clone rest,
     is_clone clone = true
     /\ execs (trace (Bootstrap.main (fresh "git@host:org/repo.git")))
        = (clone, None, true) :: rest
     /\ Forall not_clone rest)
  /\ (exists e,
        out (Bootstrap.main unprintable) = Throw e
        /\ execs (trace (Bootstrap.main unprintable)) = []).
Proof.
  split.
  - destruct (clone_only_when_absent (fresh "git@host:org/repo.git") usual)
      as (remote & Hremote & Hrun); [vm_compute; reflexivity|].
    cbn zeta in Hrun. destruct Hrun as (Hclone & Hrun).
    assert (Hb : to_string (field (field usual (lit "codebase"))
                              (lit "defaultBranch")) = inl (lit "main"))
      by (vm_compute; reflexivity).
    assert (Hx : existsSync BARE_PATH (fresh "git@host:org/repo.git") = false)
      by (vm_compute; reflexivity).
    rewrite Hb, Hx in Hrun. destruct Hrun as (rest & Hex & Hrest & _).
    exists (Bootstrap.clone_command remote), rest.
    split; [exact Hclone|]. split; [exact Hex|exact Hrest].
  - destruct (clone_only_when_absent unprintable object_branch)
      as (remote & _ & Hrun); [vm_compute; reflexivity|].
    cbn zeta in Hrun. destruct Hrun as (_ & Hrun).
    assert (Hb : to_string (field (field object_branch (lit "codebase"))
                              (lit "defaultBranch"))
                 = inr (new_Error
                          (lit "Cannot convert object to primitive value")))
      by (vm_compute; reflexivity).
    rewrite Hb in Hrun. eexists. exact Hrun.
Defined.

Lemma linkage_is_valid :
  ~ linkage_invalid (lit "/repo/worktrees/main/.git") (bootstrapped linkage []).
Proof.
  intros [Hbad|[(e & Hbad)|(raw & Hraw & Hbad)]].
  - vm_compute in Hbad. discriminate.
  - vm_compute in Hbad. discriminate.
  - vm_compute in Hraw. injection Hraw as <-.
    destruct Hbad as [Hbad|Hbad]; vm_compute in Hbad; discriminate.
Qed.

Lemma bootstrap_rerun_witness :
  execs (trace (Bootstrap.main (bootstrapped linkage [])))
  = [(Bootstrap.rev_parse_command (lit "/repo/worktrees/main"), None, true);
     (lit "corepack enable", None, true);
     (lit "pnpm install", Some (lit "/repo/worktrees/main"), true)]
  /\ exit_status (out (Bootstrap.main (bootstrapped linkage []))) = 0%Z.
Proof.
  destruct (bootstrap_rerun (bootstrapped linkage []) usual (lit "worktrees")
              (lit "main")) as (Hex & Hstatus).
  - vm_compute. reflexivity.
  - vm_compute. reflexivity.
  - vm_compute. reflexivity.
  - vm_compute. reflexivity.
  - vm_compute. reflexivity.
  - vm_compute. reflexivity.
  - exact linkage_is_valid.
  - rewrite Hex, Hstatus. split; vm_compute; reflexivity.
Defined.

Lemma bootstrap_first_run_witness :
  execs (trace (Bootstrap.main (with_bare "git@host:org/repo.git")))
  = [(Bootstrap.worktree_add_command (lit "/repo/worktrees/main") (lit "main"),
      None, true);
     (lit "corepack enable", None, true);
     (lit "pnpm install", Some (lit "/repo/worktrees/main"), true)].
Proof.
  destruct (bootstrap_first_run (with_bare "git@host:org/repo.git") usual
              (lit "worktrees") (lit "git@host:org/repo.git") (lit "main"))
    as (Hex & _).
  - vm_compute. reflexivity.
  - vm_compute. reflexivity.
  - vm_compute. reflexivity.
  - vm_compute. reflexivity.
  - vm_compute. discriminate.
  - vm_compute. reflexivity.
  - rewrite Hex. vm_compute. reflexivity.
Defined.

Lemma branch_resolution_witness :
  execs (trace (CreateWorktree.main [lit "feature/my-feature"]
                  (with_failing [])))
  = resolution_commands (lit "feature/my-feature")
      (join [join [META_REPO_ROOT; lit "worktrees"];
             sanitizeBranchName (lit "feature/my-feature")])
      (with_failing []).
Proof.
  apply (proj2 (branch_resolution [lit "feature/my-feature"] (with_failing []))
           (lit "feature/my-feature") [] usual (lit "worktrees")).
  - reflexivity.
  - vm_compute. reflexivity.
  - vm_compute. reflexivity.
  - vm_compute. reflexivity.
  - vm_compute. reflexivity.
Defined.

End MoreRuns.
